(** * Agent session manager of Empire ([lib/common/agents.py])

    A shallow embedding of the [Agents] class: the in-memory agent cache,
    the relational store behind it, the file sink, the task queue, the
    staging handshake and the result dispatcher, followed by the properties
    the specification states about them.

    Conventions of the embedding.
    - Python [bytes] and [str] are both [string] (a list of bytes); a [str]
      holds the UTF-8 encoding of its text.
    - A Python exception is an outcome [Raise e]; the state reached when it
      was raised is kept, since nothing in the source rolls anything back.
    - [self.lock] is not modelled: the embedding is sequential.
    - [print] to the console is not modelled; [dispatcher.send] is an entry
      of the [events] log.
    - The modules [encryption], [packets], [helpers], [messages] and
      [zlib_wrapper] are collaborators whose code is elsewhere: they are the
      fields of the class [Collaborators]. *)

From Stdlib Require Import ZArith String Ascii List Bool Lia Floats.
From stdpp Require Import gmap strings list.
Import ListNotations.

Local Open Scope string_scope.

(** ** Python built-ins used by the source *)

Module Py.

(** [bytes.isspace]: the six ASCII blanks. *)
Definition is_space (c : ascii) : bool :=
  let n := nat_of_ascii c in
  Nat.eqb n 32 || (Nat.leb 9 n && Nat.leb n 13).

Fixpoint lstrip (s : string) : string :=
  match s with
  | String c s' => if is_space c then lstrip s' else s
  | EmptyString => EmptyString
  end.

Definition rev (s : string) : string :=
  string_of_list_ascii (List.rev (list_ascii_of_string s)).

Definition rstrip (s : string) : string := rev (lstrip (rev s)).

Definition strip (s : string) : string := rstrip (lstrip s).

(** [s.split(sep)] for a one-character separator: never the empty list. *)
Fixpoint split (sep : ascii) (s : string) : list string :=
  match s with
  | EmptyString => [EmptyString]
  | String c s' =>
      if Ascii.eqb c sep then EmptyString :: split sep s'
      else match split sep s' with
           | w :: ws => String c w :: ws
           | [] => [String c EmptyString]
           end
  end.

(** [sep.join(l)]. *)
Definition join (sep : string) (l : list string) : string := String.concat sep l.

(** [s.startswith(p)]. *)
Definition startswith (s p : string) : bool := String.prefix p s.

(** [s.endswith(p)]. *)
Definition endswith (s p : string) : bool := String.prefix (rev p) (rev s).

(** [needle in s]. *)
Fixpoint contains (needle s : string) : bool :=
  String.prefix needle s ||
  match s with
  | EmptyString => false
  | String _ s' => contains needle s'
  end.

Definition lower_ascii (c : ascii) : ascii :=
  let n := nat_of_ascii c in
  if Nat.leb 65 n && Nat.leb n 90 then ascii_of_nat (n + 32) else c.

(** [s.lower()] on ASCII letters. *)
Fixpoint lower (s : string) : string :=
  match s with
  | EmptyString => EmptyString
  | String c s' => String (lower_ascii c) (lower s')
  end.

(** [l[0:-1]]. *)
Definition init {A} (l : list A) : list A := removelast l.

(** [l[-1]] of a list of strings that [split] built (never empty). *)
Definition last_part (l : list string) : string := List.last l EmptyString.

(** [s[:n]] and [s[n:]] on bytes. *)
Definition take (n : nat) (s : string) : string := String.substring 0 n s.

Fixpoint drop (n : nat) (s : string) : string :=
  match n, s with
  | O, _ => s
  | S n', String _ s' => drop n' s'
  | S _, EmptyString => EmptyString
  end.

Definition digit_val (c : ascii) : option Z :=
  let n := nat_of_ascii c in
  if Nat.leb 48 n && Nat.leb n 57 then Some (Z.of_nat (n - 48)) else None.

(** The digits of an integer literal: decimal digits, with single
    underscores allowed between two digits. *)
Fixpoint int_digits (acc : Z) (after_digit : bool) (s : string) : option Z :=
  match s with
  | EmptyString => if after_digit then Some acc else None
  | String c s' =>
      match digit_val c with
      | Some d => int_digits (10 * acc + d) true s'
      | None =>
          if Ascii.eqb c "_" && after_digit then
            match s' with
            | EmptyString => None
            | String c' _ =>
                match digit_val c' with
                | Some _ => int_digits acc true s'
                | None => None
                end
            end
          else None
      end
  end.

(** [int(s)] in base ten: blanks stripped, an optional sign, then the
    digits. [None] stands for [ValueError]. *)
Definition int (s : string) : option Z :=
  match strip s with
  | String "-" r => option_map Z.opp (int_digits 0 false r)
  | String "+" r => int_digits 0 false r
  | r => int_digits 0 false r
  end.

(** Truth value of a string: empty is false. *)
Definition truthy (s : string) : bool :=
  match s with
  | EmptyString => false
  | _ => true
  end.

(** A valid UTF-8 byte sequence, as [bytes.decode('UTF-8')] accepts it:
    shortest form, no surrogates, at most U+10FFFF. *)
Definition is_cont (c : ascii) : bool :=
  let n := nat_of_ascii c in Nat.leb 128 n && Nat.leb n 191.

Fixpoint utf8_valid_from (fuel : nat) (l : list ascii) : bool :=
  match fuel with
  | O => match l with [] => true | _ => false end
  | S fuel' =>
      match l with
      | [] => true
      | a :: r =>
          let n := nat_of_ascii a in
          if Nat.leb n 127 then utf8_valid_from fuel' r
          else if Nat.leb 194 n && Nat.leb n 223 then
            match r with
            | b :: r' => is_cont b && utf8_valid_from fuel' r'
            | _ => false
            end
          else if Nat.leb 224 n && Nat.leb n 239 then
            match r with
            | b :: c :: r' =>
                let m := nat_of_ascii b in
                is_cont b && is_cont c
                && (if Nat.eqb n 224 then Nat.leb 160 m else true)
                && (if Nat.eqb n 237 then Nat.leb m 159 else true)
                && utf8_valid_from fuel' r'
            | _ => false
            end
          else if Nat.leb 240 n && Nat.leb n 244 then
            match r with
            | b :: c :: d :: r' =>
                let m := nat_of_ascii b in
                is_cont b && is_cont c && is_cont d
                && (if Nat.eqb n 240 then Nat.leb 144 m else true)
                && (if Nat.eqb n 244 then Nat.leb m 143 else true)
                && utf8_valid_from fuel' r'
            | _ => false
            end
          else false
      end
  end.

(** [b.decode('UTF-8')] / [str(b, 'utf-8')]: the same bytes when they are
    valid UTF-8, [None] for [UnicodeDecodeError]. *)
Definition decode (b : string) : option string :=
  let l := list_ascii_of_string b in
  if utf8_valid_from (List.length l) l then Some b else None.

(** [text[n:]] on a decoded [str]: drops [n] code points, that is [n] lead
    bytes each with its continuation bytes. *)
Fixpoint drop_conts (s : string) : string :=
  match s with
  | String c s' => if is_cont c then drop_conts s' else s
  | EmptyString => EmptyString
  end.

Fixpoint drop_chars_from (fuel n : nat) (s : string) : string :=
  match fuel with
  | O => s
  | S fuel' =>
      match n, s with
      | O, _ => s
      | S n', String _ s' => drop_chars_from fuel' n' (drop_conts s')
      | S _, EmptyString => EmptyString
      end
  end.

Definition drop_chars (n : nat) (s : string) : string :=
  drop_chars_from (String.length s) n s.

(** [x in string.printable] for the characters of a decoded text: the
    hundred printable ASCII characters. Bytes of a multi-byte character
    are never printable. *)
Definition printable (c : ascii) : bool :=
  let n := nat_of_ascii c in
  (Nat.leb 32 n && Nat.leb n 126) || (Nat.leb 9 n && Nat.leb n 13).

Fixpoint filter_printable (s : string) : string :=
  match s with
  | EmptyString => EmptyString
  | String c s' =>
      if printable c then String c (filter_printable s') else filter_printable s'
  end.

(** [repr(b)] of a [bytes] value, as [format] and [%s] print it. *)
Definition hex_digit (n : nat) : ascii :=
  if Nat.ltb n 10 then ascii_of_nat (48 + n) else ascii_of_nat (87 + n).

Definition repr_byte (quote : ascii) (c : ascii) : string :=
  let n := nat_of_ascii c in
  if Ascii.eqb c quote || Ascii.eqb c "\" then String "\" (String c EmptyString)
  else if Nat.eqb n 9 then "\t"
  else if Nat.eqb n 10 then "\n"
  else if Nat.eqb n 13 then "\r"
  else if Nat.ltb n 32 || Nat.leb 127 n then
    String "\" (String "x" (String (hex_digit (n / 16)) (String (hex_digit (n mod 16)) EmptyString)))
  else String c EmptyString.

Fixpoint repr_bytes_body (quote : ascii) (s : string) : string :=
  match s with
  | EmptyString => EmptyString
  | String c s' => repr_byte quote c ++ repr_bytes_body quote s'
  end.

Definition repr_bytes (s : string) : string :=
  let quote :=
    if contains "'" s && negb (contains (String (ascii_of_nat 34) EmptyString) s)
    then ascii_of_nat 34 else "'"%char in
  String "b" (String quote (repr_bytes_body quote s ++ String quote EmptyString)).

End Py.

(** ** SQLite's [LIKE] *)

Module Sql.

(** Characters compare without case on ASCII letters. *)
Definition ci_eqb (a b : ascii) : bool :=
  Ascii.eqb (Py.lower_ascii a) (Py.lower_ascii b).

(** [s LIKE p]: [%] stands for any run of characters, [_] for any one
    character, and there is no escape character. *)
Fixpoint like_list (p s : list ascii) : bool :=
  match p with
  | [] => match s with [] => true | _ => false end
  | c :: p' =>
      if Ascii.eqb c "%" then
        (fix star (s : list ascii) : bool :=
           like_list p' s ||
           match s with
           | [] => false
           | _ :: s' => star s'
           end) s
      else
        match s with
        | [] => false
        | d :: s' =>
            (if Ascii.eqb c "_" then true else ci_eqb c d) && like_list p' s'
        end
  end.

Definition like (s p : string) : bool :=
  like_list (list_ascii_of_string p) (list_ascii_of_string s).

End Sql.

(** ** [os.path] on a POSIX host *)

Module OsPath.

Definition isabs (p : string) : bool := Py.startswith p "/".

(** The component loop of [posixpath.normpath]; [acc] holds the components
    kept so far, last one first. *)
Definition norm_step (rooted : bool) (acc : list string) (comp : string)
  : list string :=
  if String.eqb comp "" || String.eqb comp "." then acc
  else if negb (String.eqb comp "..") then comp :: acc
  else
    match acc with
    | [] => if rooted then [] else [comp]
    | top :: rest => if String.eqb top ".." then comp :: acc else rest
    end.

Definition initial_slashes (path : string) : nat :=
  if Py.startswith path "/" then
    if Py.startswith path "//" && negb (Py.startswith path "///") then 2 else 1
  else 0.

Definition normpath (path : string) : string :=
  if String.eqb path "" then "."
  else
    let n := initial_slashes path in
    let comps :=
      List.rev (fold_left (norm_step (negb (Nat.eqb n 0))) (Py.split "/" path) []) in
    let p := Py.join "" (repeat "/" n) +:+ Py.join "/" comps in
    if String.eqb p "" then "." else p.

(** [os.path.join(a, b)] for a relative [b]. *)
Definition join (a b : string) : string :=
  if String.eqb a "" || Py.endswith a "/" then a +:+ b else a +:+ "/" +:+ b.

(** [os.path.abspath]: paths that are not absolute are taken from the
    working directory [cwd]. No symbolic link is followed. *)
Definition abspath (cwd path : string) : string :=
  normpath (if isabs path then path else join cwd path).

(** [os.path.basename]: what follows the last slash. *)
Definition basename (p : string) : string := Py.last_part (Py.split "/" p).

(** The directory part of a normalised absolute path. *)
Definition dirname (p : string) : string :=
  let d := Py.join "/" (Py.init (Py.split "/" p)) in
  if String.eqb d "" then "/" else d.

(** [c] is the directory [d] or lies below it (both normalised). *)
Definition inside (d c : string) : bool :=
  String.eqb c d || Py.startswith c (if Py.endswith d "/" then d else d +:+ "/").

End OsPath.

(** ** Data model *)

(** The ['functions'] entry of a cache record: a list of names, or the raw
    [functions] column when the record was rebuilt from the store. *)
Inductive Functions :=
  | FnList (l : list string)
  | FnColumn (c : option string).

(** An entry of the cache [self.agents]. *)
Record AgentInfo := {
  sessionKey : string;
  functions : Functions
}.

(** A pending task [[taskName, task, pk]] of the [taskings] column. *)
Record Task := {
  task_name : string;
  task_data : string;
  task_id : Z
}.

(** A row of the table [agents]. The columns that [add_agent] does not
    set are NULL ([None]) until staging completes. The [taskings] column
    holds a JSON list; an empty or NULL column is the empty list. *)
Record AgentRow := {
  name : string;
  session_id : string;
  delay : string;
  jitter : string;
  external_ip : string;
  session_key : string;
  nonce : string;
  checkin_time : Z;
  lastseen_time : Z;
  profile : string;
  kill_date : string;
  working_hours : string;
  lost_limit : string;
  listener : string;
  language : string;
  internal_ip : option string;
  username : option string;
  hostname : option string;
  os_details : option string;
  high_integrity : option Z;
  process_name : option string;
  process_id : option string;
  language_version : option string;
  taskings : list Task;
  results : option string;
  functions_db : option string
}.

(** A row of the table [taskings]. *)
Record TaskingRow := {
  tk_id : Z;
  tk_agent : string;
  tk_data : string;
  tk_user_id : option Z;
  tk_timestamp : Z;
  tk_module_name : option string
}.

(** A row of the table [results]. *)
Record ResultRow := {
  rs_id : Z;
  rs_agent : string;
  rs_user_id : option Z;
  rs_data : option string
}.

(** A row of the table [file_directory]. *)
Record FileDirRow := {
  fd_id : Z;
  fd_session_id : string;
  fd_parent_id : option Z;
  fd_name : string;
  fd_path : string;
  fd_is_file : bool
}.

(** Python exceptions the modelled code can raise. *)
Inductive exn :=
  | KeyError
  | IndexError
  | AttributeError
  | TypeError
  | ValueError
  | UnicodeDecodeError
  | ZeroDivisionError
  | IntegrityError
  | IsADirectoryError
  | FileNotFoundError
  | NotADirectoryError
  | DecryptError.

(** The text of an exception, abstracted to the name of its class. *)
Definition str_exn (e : exn) : string :=
  match e with
  | KeyError => "KeyError"
  | IndexError => "IndexError"
  | AttributeError => "AttributeError"
  | TypeError => "TypeError"
  | ValueError => "ValueError"
  | UnicodeDecodeError => "UnicodeDecodeError"
  | ZeroDivisionError => "ZeroDivisionError"
  | IntegrityError => "IntegrityError"
  | IsADirectoryError => "IsADirectoryError"
  | FileNotFoundError => "FileNotFoundError"
  | NotADirectoryError => "NotADirectoryError"
  | DecryptError => "DecryptError"
  end.

(** An argument of a formatted message. *)
Inductive Arg :=
  | AStr (s : string)
  | ANum (z : Z)
  | AFloat (f : float)
  | ANone
  | AExn (e : exn).

(** A signal handed to [dispatcher.send]: the sender, the [print] flag,
    the message as its template with the arguments of [format], and the
    other keys of the JSON object. *)
Record Event := {
  ev_sender : string;
  ev_print : bool;
  ev_message : string;
  ev_args : list Arg;
  ev_extra : list (string * Arg)
}.

(** A credential handed to [mainMenu.credentials.add_credential]. *)
Record Credential := {
  cr_type : string;
  cr_domain : string;
  cr_username : string;
  cr_password : string;
  cr_host : option string;
  cr_os : option string;
  cr_sid : string;
  cr_time : Z
}.

(** The file system below the install path: the directories that exist
    and the regular files with their contents, both under their normalised
    absolute path. It holds no symbolic link. *)
Record FS := {
  fs_dirs : gset string;
  fs_files : gmap string string
}.

(** What is fixed when the server starts. *)
Record Config := {
  installPath : string;
  cwd : string;
  debug : bool;
  socketio : bool;
  autoRuns : list (string * list string)
}.

(** The options of a listener, each the ['Value'] of its entry. *)
Record ListenerOptions := {
  lo_Name : string;
  lo_DefaultDelay : string;
  lo_DefaultJitter : string;
  lo_DefaultProfile : string;
  lo_KillDate : string;
  lo_WorkingHours : string;
  lo_DefaultLostLimit : string;
  lo_SlackURL : string
}.

(** The state the [Agents] object works on.
    - [agents] is the dictionary [self.agents].
    - [db_agents], [db_taskings], [db_results], [db_file_directory],
      [db_config] and [db_users] are the tables of the persistent store.
    - [orm_dirty] lists the session ids of the ORM objects whose [taskings]
      attribute was set to [''] without a commit since: the assignment is
      seen by later ORM reads and reaches the store at the next
      [Session().commit()].
    - [seed] numbers the draws of random values, [clock] is the current
      UTC time. *)
Record State := {
  cfg : Config;
  agents : gmap string AgentInfo;
  db_agents : list AgentRow;
  db_taskings : list TaskingRow;
  db_results : list ResultRow;
  db_file_directory : list FileDirRow;
  db_config : list (string * string);
  db_users : list (Z * Z);
  orm_dirty : list string;
  fs : FS;
  events : list Event;
  broadcasts : list (string * string);
  slack : list (string * list Arg);
  credentials : list Credential;
  resourceQueue : list string;
  seed : nat;
  clock : Z
}.

Definition set_agents (f : gmap string AgentInfo → gmap string AgentInfo) (st : State) : State :=
  {| cfg := cfg st; agents := f (agents st); db_agents := db_agents st;
     db_taskings := db_taskings st; db_results := db_results st;
     db_file_directory := db_file_directory st; db_config := db_config st;
     db_users := db_users st; orm_dirty := orm_dirty st; fs := fs st;
     events := events st; broadcasts := broadcasts st; slack := slack st;
     credentials := credentials st; resourceQueue := resourceQueue st;
     seed := seed st; clock := clock st |}.

Definition set_db_agents (f : list AgentRow → list AgentRow) (st : State) : State :=
  {| cfg := cfg st; agents := agents st; db_agents := f (db_agents st);
     db_taskings := db_taskings st; db_results := db_results st;
     db_file_directory := db_file_directory st; db_config := db_config st;
     db_users := db_users st; orm_dirty := orm_dirty st; fs := fs st;
     events := events st; broadcasts := broadcasts st; slack := slack st;
     credentials := credentials st; resourceQueue := resourceQueue st;
     seed := seed st; clock := clock st |}.

Definition set_db_taskings (f : list TaskingRow → list TaskingRow) (st : State) : State :=
  {| cfg := cfg st; agents := agents st; db_agents := db_agents st;
     db_taskings := f (db_taskings st); db_results := db_results st;
     db_file_directory := db_file_directory st; db_config := db_config st;
     db_users := db_users st; orm_dirty := orm_dirty st; fs := fs st;
     events := events st; broadcasts := broadcasts st; slack := slack st;
     credentials := credentials st; resourceQueue := resourceQueue st;
     seed := seed st; clock := clock st |}.

Definition set_db_results (f : list ResultRow → list ResultRow) (st : State) : State :=
  {| cfg := cfg st; agents := agents st; db_agents := db_agents st;
     db_taskings := db_taskings st; db_results := f (db_results st);
     db_file_directory := db_file_directory st; db_config := db_config st;
     db_users := db_users st; orm_dirty := orm_dirty st; fs := fs st;
     events := events st; broadcasts := broadcasts st; slack := slack st;
     credentials := credentials st; resourceQueue := resourceQueue st;
     seed := seed st; clock := clock st |}.

Definition set_db_file_directory (f : list FileDirRow → list FileDirRow) (st : State) : State :=
  {| cfg := cfg st; agents := agents st; db_agents := db_agents st;
     db_taskings := db_taskings st; db_results := db_results st;
     db_file_directory := f (db_file_directory st); db_config := db_config st;
     db_users := db_users st; orm_dirty := orm_dirty st; fs := fs st;
     events := events st; broadcasts := broadcasts st; slack := slack st;
     credentials := credentials st; resourceQueue := resourceQueue st;
     seed := seed st; clock := clock st |}.

Definition set_db_users (f : list (Z * Z) → list (Z * Z)) (st : State) : State :=
  {| cfg := cfg st; agents := agents st; db_agents := db_agents st;
     db_taskings := db_taskings st; db_results := db_results st;
     db_file_directory := db_file_directory st; db_config := db_config st;
     db_users := f (db_users st); orm_dirty := orm_dirty st; fs := fs st;
     events := events st; broadcasts := broadcasts st; slack := slack st;
     credentials := credentials st; resourceQueue := resourceQueue st;
     seed := seed st; clock := clock st |}.

Definition set_orm_dirty (f : list string → list string) (st : State) : State :=
  {| cfg := cfg st; agents := agents st; db_agents := db_agents st;
     db_taskings := db_taskings st; db_results := db_results st;
     db_file_directory := db_file_directory st; db_config := db_config st;
     db_users := db_users st; orm_dirty := f (orm_dirty st); fs := fs st;
     events := events st; broadcasts := broadcasts st; slack := slack st;
     credentials := credentials st; resourceQueue := resourceQueue st;
     seed := seed st; clock := clock st |}.

Definition set_fs (f : FS → FS) (st : State) : State :=
  {| cfg := cfg st; agents := agents st; db_agents := db_agents st;
     db_taskings := db_taskings st; db_results := db_results st;
     db_file_directory := db_file_directory st; db_config := db_config st;
     db_users := db_users st; orm_dirty := orm_dirty st; fs := f (fs st);
     events := events st; broadcasts := broadcasts st; slack := slack st;
     credentials := credentials st; resourceQueue := resourceQueue st;
     seed := seed st; clock := clock st |}.

Definition set_events (f : list Event → list Event) (st : State) : State :=
  {| cfg := cfg st; agents := agents st; db_agents := db_agents st;
     db_taskings := db_taskings st; db_results := db_results st;
     db_file_directory := db_file_directory st; db_config := db_config st;
     db_users := db_users st; orm_dirty := orm_dirty st; fs := fs st;
     events := f (events st); broadcasts := broadcasts st; slack := slack st;
     credentials := credentials st; resourceQueue := resourceQueue st;
     seed := seed st; clock := clock st |}.

Definition set_broadcasts (f : list (string * string) → list (string * string)) (st : State) : State :=
  {| cfg := cfg st; agents := agents st; db_agents := db_agents st;
     db_taskings := db_taskings st; db_results := db_results st;
     db_file_directory := db_file_directory st; db_config := db_config st;
     db_users := db_users st; orm_dirty := orm_dirty st; fs := fs st;
     events := events st; broadcasts := f (broadcasts st); slack := slack st;
     credentials := credentials st; resourceQueue := resourceQueue st;
     seed := seed st; clock := clock st |}.

Definition set_slack (f : list (string * list Arg) → list (string * list Arg)) (st : State) : State :=
  {| cfg := cfg st; agents := agents st; db_agents := db_agents st;
     db_taskings := db_taskings st; db_results := db_results st;
     db_file_directory := db_file_directory st; db_config := db_config st;
     db_users := db_users st; orm_dirty := orm_dirty st; fs := fs st;
     events := events st; broadcasts := broadcasts st; slack := f (slack st);
     credentials := credentials st; resourceQueue := resourceQueue st;
     seed := seed st; clock := clock st |}.

Definition set_credentials (f : list Credential → list Credential) (st : State) : State :=
  {| cfg := cfg st; agents := agents st; db_agents := db_agents st;
     db_taskings := db_taskings st; db_results := db_results st;
     db_file_directory := db_file_directory st; db_config := db_config st;
     db_users := db_users st; orm_dirty := orm_dirty st; fs := fs st;
     events := events st; broadcasts := broadcasts st; slack := slack st;
     credentials := f (credentials st); resourceQueue := resourceQueue st;
     seed := seed st; clock := clock st |}.

Definition set_resourceQueue (f : list string → list string) (st : State) : State :=
  {| cfg := cfg st; agents := agents st; db_agents := db_agents st;
     db_taskings := db_taskings st; db_results := db_results st;
     db_file_directory := db_file_directory st; db_config := db_config st;
     db_users := db_users st; orm_dirty := orm_dirty st; fs := fs st;
     events := events st; broadcasts := broadcasts st; slack := slack st;
     credentials := credentials st; resourceQueue := f (resourceQueue st);
     seed := seed st; clock := clock st |}.

Definition set_seed (f : nat → nat) (st : State) : State :=
  {| cfg := cfg st; agents := agents st; db_agents := db_agents st;
     db_taskings := db_taskings st; db_results := db_results st;
     db_file_directory := db_file_directory st; db_config := db_config st;
     db_users := db_users st; orm_dirty := orm_dirty st; fs := fs st;
     events := events st; broadcasts := broadcasts st; slack := slack st;
     credentials := credentials st; resourceQueue := resourceQueue st;
     seed := f (seed st); clock := clock st |}.

(** ** Stateful computations that may raise *)

Inductive outcome (A : Type) :=
  | Ret (a : A)
  | Raise (e : exn).

Arguments Ret {A} a.
Arguments Raise {A} e.

Definition M (A : Type) : Type := State → State * outcome A.

Definition ret {A} (a : A) : M A := fun st => (st, Ret a).

Definition raise {A} (e : exn) : M A := fun st => (st, Raise e).

Definition bind {A B} (c : M A) (k : A → M B) : M B :=
  fun st =>
    match c st with
    | (st', Ret a) => k a st'
    | (st', Raise e) => (st', Raise e)
    end.

Definition gets {A} (f : State → A) : M A := fun st => (st, Ret (f st)).

Definition modify (f : State → State) : M unit := fun st => (f st, Ret tt).

(** [try: c except Exception as e: h e]. *)
Definition try_except {A} (c : M A) (h : exn → M A) : M A :=
  fun st =>
    match c st with
    | (st', Ret a) => (st', Ret a)
    | (st', Raise e) => h e st'
    end.

(** A value that may be missing, with the exception its use raises. *)
Definition expect {A} (e : exn) (o : option A) : M A :=
  match o with
  | Some a => ret a
  | None => raise e
  end.

Declare Scope m_scope.
Delimit Scope m_scope with M.
Notation "x <- c ;; k" := (bind c (fun x => k))
  (at level 100, c at next level, right associativity) : m_scope.
Notation "c ;; k" := (bind c (fun _ => k))
  (at level 100, right associativity) : m_scope.
Local Open Scope m_scope.

(** Sequential iteration of a [for] loop. *)
Fixpoint for_each {A} (l : list A) (body : A → M unit) : M unit :=
  match l with
  | [] => ret tt
  | a :: l' => body a ;; for_each l' body
  end.

(** [l.append(x)]. *)
Definition snoc {A} (l : list A) (x : A) : list A := (l ++ [x])%list.

(** [helpers.getutcnow()]. *)
Definition getutcnow : M Z := gets clock.

(** A fresh index into the source of randomness. *)
Definition fresh : M nat :=
  n <- gets seed ;; modify (set_seed S) ;; ret n.

(** [dispatcher.send(json.dumps({...}), sender=...)]. *)
Definition send (sender : string) (print : bool) (message : string)
  (args : list Arg) (extra : list (string * Arg)) : M unit :=
  modify (set_events (fun l => snoc l {| ev_sender := sender; ev_print := print;
                                         ev_message := message; ev_args := args;
                                         ev_extra := extra |})).

(** The sender ["agents/{}".format(sessionID)]. *)
Definition agent_sender (sessionID : string) : string := "agents/" +:+ sessionID.

(** ** The file system *)

Module Fs.

(** The directories above a normalised absolute path, nearest first. *)
Fixpoint ancestors_from (fuel : nat) (p : string) : list string :=
  match fuel with
  | O => []
  | S fuel' =>
      if String.eqb p "/" || String.eqb p "//" || String.eqb p "" then []
      else let d := OsPath.dirname p in d :: ancestors_from fuel' d
  end.

Definition ancestors (p : string) : list string :=
  ancestors_from (String.length p) p.

Definition is_dir (f : FS) (p : string) : bool :=
  String.eqb p "/" || bool_decide (p ∈ fs_dirs f).

Definition is_file (f : FS) (p : string) : bool :=
  bool_decide (is_Some (fs_files f !! p)).

Definition exists_ (f : FS) (p : string) : bool := is_dir f p || is_file f p.

(** [os.makedirs]: the directory and every missing one above it. *)
Definition makedirs (f : FS) (p : string) : FS + exn :=
  if existsb (is_file f) (p :: ancestors p) then inr NotADirectoryError
  else inl {| fs_dirs := list_to_set (p :: ancestors p) ∪ fs_dirs f;
              fs_files := fs_files f |}.

(** [open(p, mode).write(data)] with mode [w] or [a]: the parent directory
    must exist and [p] must not be a directory. *)
Definition write (f : FS) (p : string) (append : bool) (data : string) : FS + exn :=
  if is_dir f p then inr IsADirectoryError
  else if existsb (is_file f) (ancestors p) then inr NotADirectoryError
  else if negb (is_dir f (OsPath.dirname p)) then inr FileNotFoundError
  else
    let old := if append then default "" (fs_files f !! p) else "" in
    inl {| fs_dirs := fs_dirs f; fs_files := <[p := old +:+ data]> (fs_files f) |}.

End Fs.

(** The normalised absolute path the operating system resolves [path] to. *)
Definition resolve_path (path : string) : M string :=
  gets (fun st => OsPath.abspath (cwd (cfg st)) path).

(** [os.path.exists(path)]. *)
Definition path_exists (path : string) : M bool :=
  p <- resolve_path path ;; gets (fun st => Fs.exists_ (fs st) p).

(** [os.makedirs(path)]. *)
Definition makedirs (path : string) : M unit :=
  p <- resolve_path path ;;
  f <- gets fs ;;
  match Fs.makedirs f p with
  | inl f' => modify (set_fs (fun _ => f'))
  | inr e => raise e
  end.

(** [f = open(path, mode); f.write(data); f.close()]. *)
Definition write_file (path : string) (append : bool) (data : string) : M unit :=
  p <- resolve_path path ;;
  f <- gets fs ;;
  match Fs.write f p append data with
  | inl f' => modify (set_fs (fun _ => f'))
  | inr e => raise e
  end.

(** [os.path.getsize(path)] of a regular file. *)
Definition getsize (path : string) : M Z :=
  p <- resolve_path path ;;
  f <- gets fs ;;
  match fs_files f !! p with
  | Some content => ret (Z.of_nat (String.length content))
  | None => raise FileNotFoundError
  end.

(** ** Collaborators *)

(** A result packet as [packets.parse_result_packets] returns it; its
    data are bytes, never [None]. *)
Record ResultPacket := {
  responseName : string;
  totalPacket : Z;
  packetNum : Z;
  taskID : Z;
  length_ : Z;
  data_ : string
}.

(** A credential as [helpers.parse_credentials] and
    [helpers.parse_mimikatz] return it. *)
Record ParsedCred := {
  pc_type : string;
  pc_domain : string;
  pc_username : string;
  pc_password : string;
  pc_host : string;
  pc_sid : string
}.

(** What [decompress.dec_data] returns. *)
Record DecData := {
  dd_data : string;
  dd_crc32_check : bool;
  dd_header_crc32 : Z;
  dd_dec_crc32 : Z
}.

(** The JSON object of a directory listing. *)
Record DirListing := {
  directory_name : string;
  directory_path : string;
  items : list (string * string * bool)
}.

(** A frame of a routing packet: [(language, meta, additional, encData)]. *)
Record Frame := {
  fr_language : string;
  fr_meta : string;
  fr_additional : string;
  fr_encData : string
}.

(** The functions of the modules that are not part of this file. A [nat]
    argument is the index of the random draw the function makes; [None]
    stands for the exception the function raises. [json_loads_dir] is
    [json.loads] on a directory listing: [None] when the text is not JSON,
    [Some None] when it is JSON of another shape. [do_agents] is the
    operator console, which runs the queued autorun commands. *)
Class Collaborators := {
  aes_decrypt_and_verify : string → string → option string;
  aes_encrypt_then_hmac : nat → string → string → string;
  generate_aes_key : nat → string;
  rsa_xml_to_key : string → option string;
  rsa_encrypt : nat → string → string → string;
  dh_publicKey : nat → string;
  dh_key : nat → Z → string;
  random_string : nat → nat → string;
  decode_base64 : string → option string;
  is_stale : Z → string → string → bool;
  get_datetime : Z → string;
  get_file_datetime : Z → string;
  parse_credentials : string → list ParsedCred;
  parse_mimikatz : string → list ParsedCred;
  parse_routing_packet : string → string → option (list (string * Frame));
  parse_result_packets : string → option (list ResultPacket);
  build_task_packet : string → string → Z → string;
  build_routing_packet : string → string → string → string → string → string;
  display_agent : AgentRow → bool → string;
  dec_data : string → option DecData;
  json_dumps : string → string;
  json_loads_dir : string → option (option DirListing);
  do_agents : string → State → State * outcome unit
}.

(** A value that is either a [str] or [bytes]: the functions that take
    one test [isinstance(data, bytes)] and decode only bytes. *)
Inductive Data :=
  | Text (s : string)
  | Bytes (b : string).

(** [data.decode('UTF-8') if isinstance(data, bytes) else data]. *)
Definition to_text (d : Data) : M string :=
  match d with
  | Text s => ret s
  | Bytes b => expect UnicodeDecodeError (Py.decode b)
  end.

(** ** The agent store *)

Definition with_taskings (t : list Task) (r : AgentRow) : AgentRow :=
  {| name := name r; session_id := session_id r; delay := delay r;
     jitter := jitter r; external_ip := external_ip r;
     session_key := session_key r; nonce := nonce r;
     checkin_time := checkin_time r; lastseen_time := lastseen_time r;
     profile := profile r; kill_date := kill_date r;
     working_hours := working_hours r; lost_limit := lost_limit r;
     listener := listener r; language := language r;
     internal_ip := internal_ip r; username := username r;
     hostname := hostname r; os_details := os_details r;
     high_integrity := high_integrity r; process_name := process_name r;
     process_id := process_id r; language_version := language_version r;
     taskings := t; results := results r; functions_db := functions_db r |}.

Definition with_results (x : option string) (r : AgentRow) : AgentRow :=
  {| name := name r; session_id := session_id r; delay := delay r;
     jitter := jitter r; external_ip := external_ip r;
     session_key := session_key r; nonce := nonce r;
     checkin_time := checkin_time r; lastseen_time := lastseen_time r;
     profile := profile r; kill_date := kill_date r;
     working_hours := working_hours r; lost_limit := lost_limit r;
     listener := listener r; language := language r;
     internal_ip := internal_ip r; username := username r;
     hostname := hostname r; os_details := os_details r;
     high_integrity := high_integrity r; process_name := process_name r;
     process_id := process_id r; language_version := language_version r;
     taskings := taskings r; results := x; functions_db := functions_db r |}.

Definition with_lastseen_time (t : Z) (r : AgentRow) : AgentRow :=
  {| name := name r; session_id := session_id r; delay := delay r;
     jitter := jitter r; external_ip := external_ip r;
     session_key := session_key r; nonce := nonce r;
     checkin_time := checkin_time r; lastseen_time := t;
     profile := profile r; kill_date := kill_date r;
     working_hours := working_hours r; lost_limit := lost_limit r;
     listener := listener r; language := language r;
     internal_ip := internal_ip r; username := username r;
     hostname := hostname r; os_details := os_details r;
     high_integrity := high_integrity r; process_name := process_name r;
     process_id := process_id r; language_version := language_version r;
     taskings := taskings r; results := results r; functions_db := functions_db r |}.

Definition with_listener (l : string) (r : AgentRow) : AgentRow :=
  {| name := name r; session_id := session_id r; delay := delay r;
     jitter := jitter r; external_ip := external_ip r;
     session_key := session_key r; nonce := nonce r;
     checkin_time := checkin_time r; lastseen_time := lastseen_time r;
     profile := profile r; kill_date := kill_date r;
     working_hours := working_hours r; lost_limit := lost_limit r;
     listener := l; language := language r;
     internal_ip := internal_ip r; username := username r;
     hostname := hostname r; os_details := os_details r;
     high_integrity := high_integrity r; process_name := process_name r;
     process_id := process_id r; language_version := language_version r;
     taskings := taskings r; results := results r; functions_db := functions_db r |}.

(** The assignments of [update_agent_sysinfo_db]. *)
Definition with_sysinfo (internal_ip' username' hostname' os_details' : string)
  (high_integrity' : Z) (process_name' process_id' language_version' language' : string)
  (r : AgentRow) : AgentRow :=
  {| name := name r; session_id := session_id r; delay := delay r;
     jitter := jitter r; external_ip := external_ip r;
     session_key := session_key r; nonce := nonce r;
     checkin_time := checkin_time r; lastseen_time := lastseen_time r;
     profile := profile r; kill_date := kill_date r;
     working_hours := working_hours r; lost_limit := lost_limit r;
     listener := listener r; language := language';
     internal_ip := Some internal_ip'; username := Some username';
     hostname := Some hostname'; os_details := Some os_details';
     high_integrity := Some high_integrity'; process_name := Some process_name';
     process_id := Some process_id'; language_version := Some language_version';
     taskings := taskings r; results := results r; functions_db := functions_db r |}.

(** The row as the ORM session shows it: a pending [taskings = ''] hides
    the stored list. *)
Definition orm_view (dirty : list string) (r : AgentRow) : AgentRow :=
  if bool_decide (session_id r ∈ dirty) then with_taskings [] r else r.

(** [Session().commit()]: pending assignments reach the store. *)
Definition commit : M unit :=
  modify (fun st =>
    set_orm_dirty (fun _ => []) (set_db_agents (List.map (orm_view (orm_dirty st))) st)).

(** [Session().query(models.Agent).filter(p).first()]. *)
Definition query_first (p : AgentRow → bool) : M (option AgentRow) :=
  gets (fun st => option_map (orm_view (orm_dirty st)) (List.find p (db_agents st))).

(** Assignments to the attributes of the ORM object [agent], as the
    [UPDATE] that the commit following them issues for its row. *)
Definition orm_assign (agent : AgentRow) (f : AgentRow → AgentRow) : M unit :=
  modify (set_db_agents (List.map (fun r =>
    if String.eqb (session_id r) (session_id agent) then f r else r))).

Definition by_session_id (sid : string) (r : AgentRow) : bool :=
  String.eqb (session_id r) sid.

Definition by_name (n : string) (r : AgentRow) : bool :=
  String.eqb (name r) n.

Definition by_session_id_or_name (x : string) (r : AgentRow) : bool :=
  String.eqb (session_id r) x || String.eqb (name r) x.

Section Agents.

Context {collab : Collaborators}.

(** [Agents.__init__]: the cache is rebuilt from the rows of the store. *)
Definition Agents_init (st : State) : State :=
  set_agents (fun _ =>
    fold_left (fun m r =>
      <[session_id r := {| sessionKey := session_key r;
                           functions := FnColumn (functions_db r) |}]> m)
      (db_agents st) ∅) st.

(** A restart of the server: what lived in the memory of the process (the
    cache and the ORM session) is lost, the store and the files remain, and
    [Agents.__init__] runs again. *)
Definition restart (st : State) : State :=
  Agents_init (set_orm_dirty (fun _ => []) st).

Definition get_agent_id_db (name_ : string) : M (option string) :=
  agent <- query_first (by_name name_) ;;
  ret (option_map session_id agent).

(** The recurring lines
    [nameid = self.get_agent_id_db(sessionID); if nameid: sessionID = nameid]. *)
Definition name_to_id (sessionID : string) : M string :=
  nameid <- get_agent_id_db sessionID ;;
  ret (match nameid with
       | Some i => if Py.truthy i then i else sessionID
       | None => sessionID
       end).

Definition is_agent_present (sessionID : string) : M bool :=
  sessionID <- name_to_id sessionID ;;
  gets (fun st => bool_decide (is_Some (agents st !! sessionID))).

Definition default_profile : string :=
  "/admin/get.php,/news.php,/login/process.php|Mozilla/5.0 (Windows NT 6.1; WOW64; Trident/7.0; rv:11.0) like Gecko".

(** [add_agent]. The insert raises [IntegrityError] when the session id or
    the name is taken.

    Modelled from the spec: the schema of the table [agents]
    ([session_id PK, name UNIQUE]); [lib/database/models.py] is not among
    the sources. *)
Definition add_agent (sessionID externalIP delay_ jitter_ profile_ killDate
  workingHours lostLimit : string) (sessionKey_ : option string)
  (nonce_ listener_ language_ : string) : M unit :=
  currentTime <- getutcnow ;;
  key <- match sessionKey_ with
         | Some k => if Py.truthy k then ret k
                     else (n <- fresh ;; ret (generate_aes_key n))
         | None => n <- fresh ;; ret (generate_aes_key n)
         end ;;
  let profile' := if Py.truthy profile_ then profile_ else default_profile in
  rows <- gets db_agents ;;
  (if existsb (fun r => String.eqb (session_id r) sessionID
                        || String.eqb (name r) sessionID) rows
   then raise IntegrityError
   else modify (set_db_agents (fun l => snoc l
     {| name := sessionID; session_id := sessionID; delay := delay_;
        jitter := jitter_; external_ip := externalIP; session_key := key;
        nonce := nonce_; checkin_time := currentTime;
        lastseen_time := currentTime; profile := profile';
        kill_date := killDate; working_hours := workingHours;
        lost_limit := lostLimit; listener := listener_; language := language_;
        internal_ip := None; username := None; hostname := None;
        os_details := None; high_integrity := None; process_name := None;
        process_id := None; language_version := None; taskings := [];
        results := None; functions_db := None |}))) ;;
  commit ;;
  send (agent_sender sessionID) true "[*] New agent {} checked in" [AStr sessionID]
       [("timestamp", ANum currentTime); ("event_type", AStr "checkin")] ;;
  modify (set_agents <[sessionID := {| sessionKey := key; functions := FnList [] |}]>).

(** [get_agent_db]: the first row whose id or name is [session_id];
    [agent[0]] raises [IndexError] when there is none. *)
Definition get_agent_db (sid : string) : M AgentRow :=
  rows <- gets db_agents ;;
  expect IndexError (List.find (by_session_id_or_name sid) rows).

(** [remove_agent_db]. *)
Definition remove_agent_db (sessionID : string) : M unit :=
  sessionID <-
    (if String.eqb sessionID "%" || String.eqb (Py.lower sessionID) "all" then
       modify (set_agents (fun _ => ∅)) ;; ret "%"
     else
       sessionID <- name_to_id sessionID ;;
       modify (set_agents (delete sessionID)) ;; ret sessionID) ;;
  modify (set_db_agents
            (List.filter (fun r => negb (Sql.like (session_id r) sessionID)))) ;;
  send (agent_sender sessionID) true "[*] Agent {} deleted" [AStr sessionID] [].

Definition get_agent_nonce_db (sid : string) : M (option string) :=
  agent <- query_first (by_session_id sid) ;;
  ret (option_map nonce agent).

(** [get_language_db]: [None] when no row matches. *)
Definition get_language_db (sid : string) : M (option string) :=
  sid <- name_to_id sid ;;
  agent <- query_first (by_session_id sid) ;;
  ret (option_map language agent).

Definition get_agent_session_key_db (sid : string) : M (option string) :=
  agent <- query_first (by_session_id_or_name sid) ;;
  ret (option_map session_key agent).

Definition get_agent_name_db (sid : string) : M (option string) :=
  agent <- query_first (by_session_id_or_name sid) ;;
  ret (option_map name agent).

Definition get_agent_hostname_db (sid : string) : M (option string) :=
  agent <- query_first (by_session_id_or_name sid) ;;
  ret (match agent with Some a => hostname a | None => None end).

Definition get_agent_os_db (sid : string) : M (option string) :=
  agent <- query_first (by_session_id_or_name sid) ;;
  ret (match agent with Some a => os_details a | None => None end).

(** [get_autoruns_db]: the first row of [config], or empty strings. *)
Definition get_autoruns_db : M (string * string) :=
  gets (fun st =>
    match db_config st with
    | (c, d) :: _ => (c, d)
    | [] => ("", "")
    end).

(** [update_agent_results_db]. *)
Definition update_agent_results_db (sid : string) (results_ : Data) : M unit :=
  results_ <- to_text results_ ;;
  sid <- name_to_id sid ;;
  known <- gets (fun st => bool_decide (is_Some (agents st !! sid))) ;;
  if known then
    agent <- query_first (by_session_id sid) ;;
    agent <- expect AttributeError agent ;;
    let agent_results :=
      match results agent with
      | Some r => if Py.truthy r then r else ""
      | None => ""
      end in
    orm_assign agent (with_results (Some (json_dumps (agent_results +:+ String "010" results_)))) ;;
    commit
  else
    send (agent_sender sid) true "[!] Non-existent agent %s returned results" [] [].

(** [update_agent_sysinfo_db]; the arguments [listener] and [external_ip]
    are not stored. *)
Definition update_agent_sysinfo_db (sid : string)
  (internal_ip' username' hostname' os_details' : string) (high_integrity' : Z)
  (process_name' process_id' language_version' language' : string) : M unit :=
  sid <- name_to_id sid ;;
  agent <- query_first (by_session_id sid) ;;
  agent <- expect AttributeError agent ;;
  orm_assign agent (with_sysinfo internal_ip' username' hostname' os_details'
                      high_integrity' process_name' process_id'
                      language_version' language') ;;
  commit.

(** [update_agent_lastseen_db] with the current time. *)
Definition update_agent_lastseen_db (sid : string) : M unit :=
  current_time <- getutcnow ;;
  agent <- query_first (by_session_id_or_name sid) ;;
  agent <- expect AttributeError agent ;;
  orm_assign agent (with_lastseen_time current_time) ;;
  commit.

(** [update_agent_listener_db]. *)
Definition update_agent_listener_db (sid listener_name : string) : M unit :=
  agent <- query_first (by_session_id_or_name sid) ;;
  agent <- expect AttributeError agent ;;
  orm_assign agent (with_listener listener_name) ;;
  commit.

(** ** The task queue *)

(** [SELECT max(id) FROM taskings WHERE agent = ?]: [None] for no row. *)
Definition max_task_id (sid : string) (rows : list TaskingRow) : option Z :=
  fold_left (fun acc r =>
    if String.eqb (tk_agent r) sid then
      Some (match acc with Some m => Z.max m (tk_id r) | None => tk_id r end)
    else acc) rows None.

(** [text[:n]] on a decoded [str]: its first [n] code points. *)
Definition take_chars (n : nat) (s : string) : string :=
  Py.take (String.length s - String.length (Py.drop_chars n s)) s.

(** [add_agent_task_db]: the id of the new task, or [None] when the agent
    is not in the cache. *)
Definition add_agent_task_db (sessionID taskName task : string)
  (moduleName : option string) (uid : option Z) : M (option Z) :=
  sessionID <- name_to_id sessionID ;;
  timestamp <- getutcnow ;;
  known <- gets (fun st => bool_decide (is_Some (agents st !! sessionID))) ;;
  if negb known then ret None
  else if negb (Py.truthy sessionID) then ret None
  else
    send (agent_sender sessionID) true "[*] Tasked {} to run {}"
         [AStr sessionID; AStr taskName] [] ;;
    rows <- gets db_agents ;;
    let agent_tasks :=
      match List.find (by_session_id sessionID) rows with
      | Some r => taskings r
      | None => []
      end in
    tasks <- gets db_taskings ;;
    let pk := match max_task_id sessionID tasks with
              | Some m => m
              | None => 0%Z
              end in
    let pk := ((pk + 1) mod 65536)%Z in
    modify (set_db_taskings (fun l => snoc l
      {| tk_id := pk; tk_agent := sessionID; tk_data := take_chars 100 task;
         tk_user_id := uid; tk_timestamp := timestamp;
         tk_module_name := moduleName |})) ;;
    modify (set_db_results (fun l => snoc l
      {| rs_id := pk; rs_agent := sessionID; rs_user_id := uid; rs_data := None |})) ;;
    let agent_tasks :=
      snoc agent_tasks {| task_name := taskName; task_data := task; task_id := pk |} in
    modify (set_db_agents (List.map (fun r =>
      if by_session_id sessionID r then with_taskings agent_tasks r else r))) ;;
    last_logon <- getutcnow ;;
    modify (set_db_users (List.map (fun u =>
      match uid with
      | Some i => if Z.eqb (fst u) i then (fst u, last_logon) else u
      | None => u
      end))) ;;
    send (agent_sender sessionID) true "[*] Agent {} tasked with task ID {}"
         [AStr sessionID; ANum pk]
         [("task_name", AStr taskName); ("task_id", ANum pk);
          ("task", AStr task); ("event_type", AStr "task")] ;;
    dbg <- gets (fun st => debug (cfg st)) ;;
    (if dbg then
       root <- gets (fun st => installPath (cfg st)) ;;
       write_file (root +:+ "/LastTask") false task
     else ret tt) ;;
    ret (Some pk).

(** [get_agent_tasks_db]. The source ends the branch that clears the
    column with [Session().commit], an attribute reference that calls
    nothing: the assignment [agent.taskings = ''] stays pending. *)
Definition get_agent_tasks_db (sid : string) : M (list Task) :=
  sid <- name_to_id sid ;;
  known <- gets (fun st => bool_decide (is_Some (agents st !! sid))) ;;
  if negb known then ret []
  else
    agent <- query_first (by_session_id sid) ;;
    agent <- expect AttributeError agent ;;
    match taskings agent with
    | [] => ret []
    | tasks =>
        modify (set_orm_dirty (fun l => session_id agent :: l)) ;;
        ret tasks
    end.

(** ** Staging *)

(** The value a handler hands back to the listener: text, or [None]. *)
Definition Reply : Type := option string.

(** The lines of STAGE1 that read the listener options, add the agent and
    announce it on the socket. *)
Definition stage1_add_agent (sessionID clientIP : string) (opts : ListenerOptions)
  (sessionKey_ : option string) (nonce_ : string) : M unit :=
  add_agent sessionID clientIP (lo_DefaultDelay opts) (lo_DefaultJitter opts)
            (lo_DefaultProfile opts) (lo_KillDate opts) (lo_WorkingHours opts)
            (lo_DefaultLostLimit opts) sessionKey_ nonce_ (lo_Name opts) "" ;;
  sio <- gets (fun st => socketio (cfg st)) ;;
  if sio then
    agent <- get_agent_db sessionID ;;
    modify (set_broadcasts (fun l => snoc l ("agents/new", session_id agent)))
  else ret tt.

(** The body of the [try] block of STAGE2, after decryption: the parsed
    system information, or the reply of an early [return]. *)
Record Sysinfo := {
  si_listener : string;
  si_domainname : string;
  si_username : string;
  si_hostname : string;
  si_internal_ip : string;
  si_os_details : string;
  si_high_integrity : Z;
  si_process_name : string;
  si_process_id : string;
  si_language : string;
  si_language_version : string
}.

Definition nth_part (parts : list string) (i : nat) : M string :=
  expect IndexError (nth_error parts i).

Definition decode_part (parts : list string) (i : nat) : M string :=
  p <- nth_part parts i ;; expect UnicodeDecodeError (Py.decode p).

Definition stage2_parse (sessionID sessionKey_ encData : string)
  : M (Reply + Sysinfo) :=
  message <- expect DecryptError (aes_decrypt_and_verify sessionKey_ encData) ;;
  let parts := Py.split "|" message in
  if Nat.ltb (List.length parts) 12 then
    send (agent_sender sessionID) true
         "[!] Agent {} posted invalid sysinfo checkin format: {}"
         [AStr sessionID; AStr message] [] ;;
    remove_agent_db sessionID ;;
    ret (inl (Some ("ERROR: Agent " +:+ sessionID
                    +:+ " posted invalid sysinfo checkin format: "
                    +:+ "[!] Agent " +:+ sessionID
                    +:+ " posted invalid sysinfo checkin format: "
                    +:+ Py.repr_bytes message)))
  else
    p0 <- nth_part parts 0 ;;
    n0 <- expect ValueError (Py.int p0) ;;
    stored <- get_agent_nonce_db sessionID ;;
    stored <- expect TypeError stored ;;
    n <- expect ValueError (Py.int stored) ;;
    if negb (Z.eqb n0 (n + 1)) then
      send (agent_sender sessionID) true "[!] Invalid nonce returned from {}"
           [AStr sessionID] [] ;;
      remove_agent_db sessionID ;;
      ret (inl (Some ("ERROR: Invalid nonce returned from " +:+ sessionID)))
    else
      send (agent_sender sessionID) false
           "[!] Nonce verified: agent {} posted valid sysinfo checkin format: {}"
           [AStr sessionID; AStr message] [] ;;
      listener_ <- decode_part parts 1 ;;
      domainname <- decode_part parts 2 ;;
      username_ <- decode_part parts 3 ;;
      hostname_ <- decode_part parts 4 ;;
      internal_ip_ <- decode_part parts 5 ;;
      os_details_ <- decode_part parts 6 ;;
      high_integrity_ <- decode_part parts 7 ;;
      process_name_ <- decode_part parts 8 ;;
      process_id_ <- decode_part parts 9 ;;
      language_ <- decode_part parts 10 ;;
      language_version_ <- decode_part parts 11 ;;
      ret (inr {| si_listener := listener_; si_domainname := domainname;
                  si_username := username_; si_hostname := hostname_;
                  si_internal_ip := internal_ip_; si_os_details := os_details_;
                  si_high_integrity :=
                    if String.eqb high_integrity_ "True" then 1%Z else 0%Z;
                  si_process_name := process_name_; si_process_id := process_id_;
                  si_language := language_;
                  si_language_version := language_version_ |}).

(** [str(x)] of a string that may be [None]. *)
Definition str_opt (o : option string) : string := default "None" o.

(** [data.encode('ascii', 'ignore')]: the ASCII characters of the text. *)
Fixpoint encode_ascii_ignore (s : string) : string :=
  match s with
  | EmptyString => EmptyString
  | String c s' =>
      if Nat.ltb (nat_of_ascii c) 128 then String c (encode_ascii_ignore s')
      else encode_ascii_ignore s'
  end.

(** [save_agent_log]. *)
Definition save_agent_log (sessionID : string) (data : Data) : M unit :=
  data <- to_text data ;;
  name_ <- get_agent_name_db sessionID ;;
  root <- gets (fun st => installPath (cfg st)) ;;
  let save_path := root +:+ "/downloads/" +:+ str_opt name_ +:+ "/" in
  present <- path_exists save_path ;;
  (if present then ret tt else makedirs save_path) ;;
  now <- getutcnow ;;
  let current_time := get_datetime now in
  write_file (save_path +:+ "/agent.log") true
             (String "010" current_time +:+ " : " +:+ String "010" ""
              +:+ data +:+ String "010" "").

(** STAGE1 of [handle_agent_staging], for a PowerShell agent. *)
Definition stage1_powershell (sessionID clientIP : string) (opts : ListenerOptions)
  (message : string) : M Reply :=
  message <- expect UnicodeDecodeError (Py.decode message) ;;
  let message := Py.filter_printable message in
  if Nat.ltb (String.length message) 400
     || negb (Py.endswith message "</RSAKeyValue>") then
    send (agent_sender sessionID) true
         "[!] Invalid PowerShell key post format from {}" [AStr sessionID] [] ;;
    ret (Some "ERROR: Invalid PowerShell key post format")
  else
    match rsa_xml_to_key message with
    | Some rsaKey =>
        send (agent_sender sessionID) false
             "[*] Agent {} from {} posted valid PowerShell RSA key"
             [AStr sessionID; AStr clientIP] [] ;;
        n <- fresh ;;
        let nonce_ := random_string n 16 in
        stage1_add_agent sessionID clientIP opts None nonce_ ;;
        clientSessionKey <- get_agent_session_key_db sessionID ;;
        let data := encode_ascii_ignore (nonce_ +:+ str_opt clientSessionKey) in
        n <- fresh ;;
        ret (Some (rsa_encrypt n rsaKey data))
    | None =>
        send (agent_sender sessionID) true
             "[!] Agent {} returned an invalid PowerShell public key!"
             [AStr sessionID] [] ;;
        ret (Some "ERROR: Invalid PowerShell public key")
    end.

(** STAGE1 of [handle_agent_staging], for a Python agent. *)
Definition stage1_python (sessionID clientIP stagingKey : string)
  (opts : ListenerOptions) (message : string) : M Reply :=
  if Nat.ltb (String.length message) 1000 || Nat.ltb 2500 (String.length message) then
    send (agent_sender sessionID) true
         "[!] Invalid Python key post format from {}" [AStr sessionID] [] ;;
    ret (Some ("Error: Invalid Python key post format from " +:+ sessionID))
  else
    match Py.int message with
    | None =>
        send (agent_sender sessionID) true
             "[!] Invalid Python key post format from {}" [AStr sessionID] [] ;;
        ret (Some ("Error: Invalid Python key post format from " +:+ sessionID))
    | Some clientPub =>
        d <- fresh ;;
        n <- fresh ;;
        let nonce_ := random_string n 16 in
        send (agent_sender sessionID) true
             "[*] Agent {} from {} posted valid Python PUB key"
             [AStr sessionID; AStr clientIP] [] ;;
        stage1_add_agent sessionID clientIP opts (Some (dh_key d clientPub)) nonce_ ;;
        let data := nonce_ +:+ dh_publicKey d in
        n <- fresh ;;
        ret (Some (aes_encrypt_then_hmac n stagingKey data))
    end.

(** STAGE2 of [handle_agent_staging]. *)
Definition stage2 (sessionID encData clientIP : string) (opts : ListenerOptions)
  : M Reply :=
  info <- gets (fun st => agents st !! sessionID) ;;
  info <- expect KeyError info ;;
  parsed <- try_except (stage2_parse sessionID (sessionKey info) encData)
    (fun e =>
       send (agent_sender sessionID) true
            "[!] Exception in agents.handle_agent_staging() for {} : {}"
            [AStr sessionID; AExn e] [] ;;
       remove_agent_db sessionID ;;
       ret (inl (Some ("Error: Exception in agents.handle_agent_staging() for "
                       +:+ sessionID +:+ " : " +:+ str_exn e)))) ;;
  match parsed with
  | inl reply => ret reply
  | inr si =>
      let username_ :=
        if Py.truthy (si_domainname si)
           && negb (String.eqb (Py.strip (si_domainname si)) "")
        then si_domainname si +:+ "\" +:+ si_username si
        else si_username si in
      update_agent_sysinfo_db sessionID (si_internal_ip si) username_
        (si_hostname si) (si_os_details si) (si_high_integrity si)
        (si_process_name si) (si_process_id si) (si_language_version si)
        (si_language si) ;;
      (if negb (String.eqb (lo_SlackURL opts) "") then
         modify (set_slack (fun l => snoc l
           (lo_SlackURL opts,
            [AStr (si_hostname si); AStr (si_internal_ip si); AStr clientIP;
             AStr username_; AStr (si_os_details si); AStr sessionID])))
       else ret tt) ;;
      send (agent_sender sessionID) true
           "[+] Initial agent {} from {} now active (Slack)"
           [AStr sessionID; AStr clientIP] [] ;;
      agent <- get_agent_db sessionID ;;
      let stale := is_stale (lastseen_time agent) (delay agent) (jitter agent) in
      sio <- gets (fun st => socketio (cfg st)) ;;
      (if sio then
         modify (set_broadcasts (fun l => snoc l ("agents/stage2", session_id agent)))
       else ret tt) ;;
      let output := display_agent agent stale
                    +:+ String "010" "[+] Agent " +:+ sessionID
                    +:+ " now active:" +:+ String "010" "" in
      save_agent_log sessionID (Text output) ;;
      autorun <- get_autoruns_db ;;
      (if negb (String.eqb (fst autorun) "") && negb (String.eqb (snd autorun) "")
       then add_agent_task_db sessionID (fst autorun) (snd autorun) None None ;; ret tt
       else ret tt) ;;
      runs <- gets (fun st =>
        List.find (fun kv => String.eqb (fst kv) (Py.lower (si_language si)))
                  (autoRuns (cfg st))) ;;
      (match runs with
       | Some (_, cmd :: cmds) =>
           modify (set_resourceQueue (fun q =>
             (q ++ ("interact " +:+ sessionID) :: (cmd :: cmds) ++ ["lastautoruncmd"])%list)) ;;
           try_except (do_agents "kickit") (fun _ => ret tt)
       | _ => ret tt
       end) ;;
      ret (Some ("STAGE2: " +:+ sessionID))
  end.

(** [handle_agent_staging]. *)
Definition handle_agent_staging (sessionID language_ meta additional encData
  stagingKey : string) (opts : ListenerOptions) (clientIP : string) : M Reply :=
  if String.eqb meta "STAGE0" then ret (Some "STAGE0")
  else if String.eqb meta "STAGE1" then
    send (agent_sender sessionID) false "[*] Agent {} from {} posted public key"
         [AStr sessionID; AStr clientIP] [] ;;
    match aes_decrypt_and_verify stagingKey encData with
    | None =>
        send (agent_sender sessionID) true "[!] HMAC verification failed from '{}'"
             [AStr sessionID] [] ;;
        ret (Some "ERROR: HMAC verification failed")
    | Some message =>
        if String.eqb (Py.lower language_) "powershell" then
          stage1_powershell sessionID clientIP opts message
        else if String.eqb (Py.lower language_) "python" then
          stage1_python sessionID clientIP stagingKey opts message
        else
          send (agent_sender sessionID) true
               "[*] Agent {} from {} using an invalid language specification: {}"
               [AStr sessionID; AStr clientIP; AStr language_] [] ;;
          ret (Some ("ERROR: invalid language: " +:+ language_))
    end
  else if String.eqb meta "STAGE2" then
    stage2 sessionID encData clientIP opts
  else
    send (agent_sender sessionID) true
         "[!] Invalid staging request packet from {} at {} : {}"
         [AStr sessionID; AStr clientIP; AStr meta] [] ;;
    ret None.

(** ** Floating-point arithmetic of the progress report *)

(** [float(z)], exact below [2^53]. *)
Definition float_of_Z (z : Z) : float :=
  if (z <? 0)%Z then PrimFloat.opp (PrimFloat.of_uint63 (Uint63.of_Z (- z)))
  else PrimFloat.of_uint63 (Uint63.of_Z z).

(** The integer nearest to [num / den], ties to even. *)
Definition half_even (num den : Z) : Z :=
  let q := (num / den)%Z in
  let r := (num mod den)%Z in
  if (2 * r <? den)%Z then q
  else if (den <? 2 * r)%Z then (q + 1)%Z
  else if Z.even q then q else (q + 1)%Z.

(** [round(x, 2)]: the binary64 value nearest to the exact value of [x]
    rounded to two decimals, ties to even. *)
Definition round2 (x : float) : float :=
  match Prim2SF x with
  | SpecFloat.S754_finite s m e =>
      if (0 <=? e)%Z then x
      else
        let k := half_even (Z.pos m * 100) (2 ^ (- e)) in
        let r := PrimFloat.div (float_of_Z k) (float_of_Z 100) in
        if s then PrimFloat.opp r else r
  | _ => x
  end.

(** [round(size / total * 100, 2)]. *)
Definition percent_of (size total : Z) : float :=
  round2 (PrimFloat.mul (PrimFloat.div (float_of_Z size) (float_of_Z total))
                        (float_of_Z 100)).

(** ** The file sink *)

(** The path that [save_file] builds and checks. *)
Definition save_file_path (root sessionID path : string) : string * string :=
  let parts := Py.split "\" path in
  let save_path := root +:+ "downloads/" +:+ sessionID +:+ "/"
                   +:+ Py.join "/" (Py.init parts) in
  let filename := OsPath.basename (Py.last_part parts) in
  (save_path, filename).

(** The test of the guard: the normalised target starts with the
    normalised downloads directory. *)
Definition skywalker_ok (wd root save_path filename : string) : bool :=
  let safePath := OsPath.abspath wd (root +:+ "downloads/") in
  Py.startswith (OsPath.abspath wd (save_path +:+ "/" +:+ filename)) safePath.

(** The decompression step of a download from a Python agent. *)
Definition decompress_download (nameid : option string) (data : string) : M string :=
  dec <- expect ValueError (dec_data data) ;;
  (if negb (dd_crc32_check dec) then
     send (agent_sender (str_opt nameid)) true
          ("[!] WARNING: File agent {} failed crc32 check during decompression!"
           +:+ String "010"
           "[!] HEADER: Start crc32: %s -- Received crc32: %s -- Crc32 pass: %s!")
          [match nameid with Some n => AStr n | None => ANone end;
           ANum (dd_header_crc32 dec); ANum (dd_dec_crc32 dec);
           ANum (if dd_crc32_check dec then 1 else 0)%Z] []
   else ret tt) ;;
  ret (dd_data dec).

(** [save_file]. [sessionID] is [None] when the caller found no name for
    the agent. *)
Definition save_file (sessionID : option string) (path data filesize : string)
  (append : bool) : M unit :=
  nameid <- match sessionID with
            | Some s => get_agent_id_db s
            | None => ret None
            end ;;
  let sessionID := match nameid with
                   | Some i => if Py.truthy i then Some i else sessionID
                   | None => sessionID
                   end in
  lang <- match sessionID with
          | Some s => get_language_db s
          | None => ret None
          end ;;
  let sessionID := str_opt sessionID in
  root <- gets (fun st => installPath (cfg st)) ;;
  wd <- gets (fun st => cwd (cfg st)) ;;
  let '(save_path, filename) := save_file_path root sessionID path in
  if negb (skywalker_ok wd root save_path filename) then
    send (agent_sender sessionID) true
         ("[!] WARNING: agent {} attempted skywalker exploit!" +:+ String "010"
          "[!] attempted overwrite of {} with data {}")
         [AStr sessionID; AStr path; AStr data] []
  else
    present <- path_exists save_path ;;
    (if present then ret tt else makedirs save_path) ;;
    write_file (save_path +:+ "/" +:+ filename) append "" ;;
    lang <- expect TypeError lang ;;
    data <- (if Py.contains "python" lang then decompress_download nameid data
             else ret data) ;;
    write_file (save_path +:+ "/" +:+ filename) true data ;;
    size <- getsize (save_path +:+ "/" +:+ filename) ;;
    total <- expect ValueError (Py.int filesize) ;;
    (if Z.eqb total 0 then raise ZeroDivisionError else ret tt) ;;
    send (agent_sender sessionID) true "[+] Part of file {} from {} saved [{}%]"
         [AStr filename; AStr sessionID; AFloat (percent_of size total)] [].

(** [save_module_file]: the path under which the file was saved, [None]
    when the guard refused it. *)
Definition save_module_file (sessionID : option string) (path data : string)
  : M (option string) :=
  sessionID <- match sessionID with
               | Some s => get_agent_name_db s
               | None => ret None
               end ;;
  lang <- match sessionID with
          | Some s => get_language_db s
          | None => ret None
          end ;;
  root <- gets (fun st => installPath (cfg st)) ;;
  wd <- gets (fun st => cwd (cfg st)) ;;
  let parts := Py.split "/" path in
  let save_path := root +:+ "/downloads/" +:+ str_opt sessionID +:+ "/"
                   +:+ Py.join "/" (Py.init parts) in
  let filename := Py.last_part parts in
  lang <- expect TypeError lang ;;
  data <- (if Py.contains "python" lang then decompress_download sessionID data
           else ret data) ;;
  let safePath := OsPath.abspath wd (root +:+ "/downloads/") in
  if negb (Py.startswith (OsPath.abspath wd (save_path +:+ "/" +:+ filename)) safePath) then
    send (agent_sender (str_opt sessionID)) true
         ("[!] WARNING: agent {} attempted skywalker exploit!" +:+ String "010"
          "[!] attempted overwrite of {} with data {}")
         [AStr (str_opt sessionID); AStr path; AStr data] [] ;;
    ret None
  else
    present <- path_exists save_path ;;
    (if present then ret tt else makedirs save_path) ;;
    write_file (save_path +:+ "/" +:+ filename) false data ;;
    send (agent_sender (str_opt sessionID)) true "[+] File {} from {} saved"
         [AStr path; AStr (str_opt sessionID)] [] ;;
    ret (Some ("/downloads/" +:+ str_opt sessionID +:+ "/"
               +:+ Py.join "/" (Py.init parts) +:+ "/" +:+ filename)).

(** ** The mirror of the remote file system *)

(** Rows deleted together with the rows [ids]: the [ON DELETE CASCADE] of
    [parent_id]. *)
Fixpoint cascade (fuel : nat) (ids : list Z) (rows : list FileDirRow) : list FileDirRow :=
  match fuel with
  | O => rows
  | S fuel' =>
      let kept := List.filter (fun r => negb (existsb (Z.eqb (fd_id r)) ids)) rows in
      let orphans :=
        List.filter (fun r => match fd_parent_id r with
                              | Some p => existsb (Z.eqb p) ids
                              | None => false
                              end) kept in
      match orphans with
      | [] => kept
      | _ => cascade fuel' (List.map fd_id orphans) kept
      end
  end.

(** [DELETE FROM file_directory WHERE p]. *)
Definition delete_file_rows (p : FileDirRow → bool) (rows : list FileDirRow)
  : list FileDirRow :=
  cascade (List.length rows) (List.map fd_id (List.filter p rows)) rows.

(** The id the table gives to a new row. *)
Definition next_file_id (rows : list FileDirRow) : Z :=
  (fold_left (fun m r => Z.max m (fd_id r)) rows 0 + 1)%Z.

Definition insert_file_row (sid : string) (parent : option Z) (n p : string)
  (is_file : bool) (rows : list FileDirRow) : list FileDirRow :=
  snoc rows {| fd_id := next_file_id rows; fd_session_id := sid;
               fd_parent_id := parent; fd_name := n; fd_path := p;
               fd_is_file := is_file |}.

(** [update_dir_list]. The statements that the source builds by
    interpolating the listing into SQL text are modelled for values without
    a single quote; [response] is [None] for a JSON value that is not a
    listing, whose first subscript raises. *)
Definition update_dir_list (sid : string) (response : option DirListing) : M unit :=
  sid <- name_to_id sid ;;
  known <- gets (fun st => bool_decide (is_Some (agents st !! sid))) ;;
  if negb known then ret tt
  else
    response <- expect KeyError response ;;
    rows <- gets db_file_directory ;;
    let here (r : FileDirRow) :=
      String.eqb (fd_session_id r) sid && String.eqb (fd_path r) (directory_path response) in
    this_directory <-
      match List.find here rows with
      | Some d =>
          modify (set_db_file_directory (delete_file_rows (fun r =>
            String.eqb (fd_session_id r) sid
            && match fd_parent_id r with
               | Some p => Z.eqb p (fd_id d)
               | None => false
               end))) ;;
          ret (Some d)
      | None =>
          modify (set_db_file_directory
                    (insert_file_row sid None (directory_name response)
                                     (directory_path response) false)) ;;
          gets (fun st => List.find here (db_file_directory st))
      end ;;
    match items response with
    | [] => ret tt
    | its =>
        for_each its (fun it =>
          modify (set_db_file_directory (delete_file_rows (fun r =>
            String.eqb (fd_session_id r) sid
            && String.eqb (fd_path r) (snd (fst it)))))) ;;
        for_each its (fun it =>
          modify (set_db_file_directory
                    (insert_file_row sid (option_map fd_id this_directory)
                                     (fst (fst it)) (snd (fst it)) (snd it))))
    end.

(** ** The result dispatcher *)

(** [s.replace(old, new)] for a non-empty [old]. *)
Fixpoint replace_from (fuel : nat) (old new s : string) : string :=
  match fuel with
  | O => s
  | S fuel' =>
      match s with
      | EmptyString => EmptyString
      | String c s' =>
          if String.prefix old s
          then new +:+ replace_from fuel' old new (Py.drop (String.length old) s)
          else String c (replace_from fuel' old new s')
      end
  end.

Definition replace (old new s : string) : string :=
  replace_from (String.length s) old new s.

(** ['{0: <18}'.format(label)]. *)
Definition pad18 (label : string) : string :=
  label +:+ string_of_list_ascii (repeat " "%char (18 - String.length label)).

Definition CR : string := String "013" "".
Definition LF : string := String "010" "".

(** The exceptions that [except ValueError] catches. *)
Definition is_ValueError (e : exn) : bool :=
  match e with
  | ValueError | UnicodeDecodeError => true
  | _ => false
  end.

(** [add_credential] for each parsed credential. *)
Definition add_credentials (sid : string) (creds : list ParsedCred) (time : Z) : M unit :=
  for_each creds (fun cred =>
    host <- (if String.eqb (pc_host cred) "" then get_agent_hostname_db sid
             else ret (Some (pc_host cred))) ;;
    osDetails <- get_agent_os_db sid ;;
    modify (set_credentials (fun l => snoc l
      {| cr_type := pc_type cred; cr_domain := pc_domain cred;
         cr_username := pc_username cred; cr_password := pc_password cred;
         cr_host := host; cr_os := osDetails; cr_sid := pc_sid cred;
         cr_time := time |}))).

(** The lines most branches end with. *)
Definition results_and_log (sid : string) (data : Data) : M unit :=
  update_agent_results_db sid data ;; save_agent_log sid data.

(** The first part of [process_agent_packet]: the row of [results] is
    filled, and the id of the task is returned when the task is a
    keylogger. *)
Definition record_result (sid respName : string) (tid : Z) (data : string)
  : M (option Z) :=
  send (agent_sender sid) false "[*] Agent {} got results" [AStr sid]
       [("response_name", AStr respName); ("task_id", ANum tid);
        ("event_type", AStr "result")] ;;
  if negb (Z.eqb tid 0)
     && negb (existsb (String.eqb respName)
                ["TASK_DOWNLOAD"; "TASK_CMD_JOB_SAVE"; "TASK_CMD_WAIT_SAVE"]) then
    modify (set_db_results (List.map (fun r =>
      if Z.eqb (rs_id r) tid && String.eqb (rs_agent r) sid
      then {| rs_id := rs_id r; rs_agent := rs_agent r;
              rs_user_id := rs_user_id r; rs_data := Some data |}
      else r))) ;;
    tasks <- gets db_taskings ;;
    match List.find (fun t => String.eqb (tk_agent t) sid && Z.eqb (tk_id t) tid
                              && Sql.like (tk_data t) "function Get-Keystrokes%") tasks with
    | Some t =>
        modify (set_db_results (List.map (fun r =>
          if Z.eqb (rs_id r) tid && String.eqb (rs_agent r) sid
          then {| rs_id := rs_id r; rs_agent := rs_agent r;
                  rs_user_id := rs_user_id r;
                  rs_data := option_map (fun d => d +:+ data) (rs_data r) |}
          else r))) ;;
        ret (Some (tk_id t))
    | None => ret None
    end
  else ret None.

(** The branch [TASK_SYSINFO]. *)
Definition task_sysinfo (sid data : string) : M unit :=
  data <- expect UnicodeDecodeError (Py.decode data) ;;
  let parts := Py.split "|" data in
  if Nat.ltb (List.length parts) 12 then
    send (agent_sender sid) true "[!] Invalid sysinfo response from {}" [AStr sid] []
  else
    listener_ <- nth_part parts 1 ;;
    domainname <- nth_part parts 2 ;;
    username_ <- nth_part parts 3 ;;
    hostname_ <- nth_part parts 4 ;;
    internal_ip_ <- nth_part parts 5 ;;
    os_details_ <- nth_part parts 6 ;;
    high_integrity_ <- nth_part parts 7 ;;
    process_name_ <- nth_part parts 8 ;;
    process_id_ <- nth_part parts 9 ;;
    language_ <- nth_part parts 10 ;;
    language_version_ <- nth_part parts 11 ;;
    let high := if String.eqb high_integrity_ "True" then 1%Z else 0%Z in
    let username_ := domainname +:+ "\" +:+ username_ in
    update_agent_sysinfo_db sid internal_ip_ username_ hostname_ os_details_ high
      process_name_ process_id_ language_version_ language_ ;;
    let sysinfo :=
      pad18 "Listener:" +:+ listener_ +:+ LF
      +:+ pad18 "Internal IP:" +:+ internal_ip_ +:+ LF
      +:+ pad18 "Username:" +:+ username_ +:+ LF
      +:+ pad18 "Hostname:" +:+ hostname_ +:+ LF
      +:+ pad18 "OS:" +:+ os_details_ +:+ LF
      +:+ pad18 "High Integrity:" +:+ (if Z.eqb high 1 then "1" else "0") +:+ LF
      +:+ pad18 "Process Name:" +:+ process_name_ +:+ LF
      +:+ pad18 "Process ID:" +:+ process_id_ +:+ LF
      +:+ pad18 "Language:" +:+ language_ +:+ LF
      +:+ pad18 "Language Version:" +:+ language_version_ +:+ LF in
    results_and_log sid (Text sysinfo).

(** The branch [TASK_DOWNLOAD]. *)
Definition task_download (sid data : string) : M unit :=
  data <- expect UnicodeDecodeError (Py.decode data) ;;
  match Py.split "|" data with
  | [index; path; filesize; data] =>
      file_data <- expect ValueError (decode_base64 data) ;;
      name_ <- get_agent_name_db sid ;;
      save_file name_ path file_data filesize (negb (String.eqb index "0")) ;;
      save_agent_log sid (Text ("file download: " +:+ path +:+ ", part: " +:+ index))
  | _ =>
      send (agent_sender sid) true
           "[!] Received invalid file download response from {}" [AStr sid] []
  end.

(** The branches [TASK_CMD_WAIT_SAVE] ([as_text]) and [TASK_CMD_JOB_SAVE]. *)
Definition task_cmd_save (as_text : bool) (sid data : string) : M unit :=
  name_ <- get_agent_name_db sid ;;
  let prefix_bytes := Py.strip (Py.take 15 data) in
  let extension_bytes := Py.strip (Py.take 5 (Py.drop 15 data)) in
  prefix <- (if as_text then expect UnicodeDecodeError (Py.decode prefix_bytes)
             else ret (Py.repr_bytes prefix_bytes)) ;;
  extension <- (if as_text then expect UnicodeDecodeError (Py.decode extension_bytes)
                else ret (Py.repr_bytes extension_bytes)) ;;
  file_data <- expect ValueError (decode_base64 (Py.drop 20 data)) ;;
  host <- get_agent_hostname_db sid ;;
  now <- getutcnow ;;
  let save_path := prefix +:+ "/" +:+ str_opt host +:+ "_" +:+ get_file_datetime now
                   +:+ "." +:+ extension in
  final_save_path <- save_module_file name_ save_path file_data ;;
  let msg := "Output saved to ." +:+ str_opt final_save_path in
  results_and_log sid (Text msg).

(** The branch [TASK_CMD_JOB]. *)
Definition task_cmd_job (sid : string) (tid : Z) (keyLogTaskID : option Z)
  (data : string) : M unit :=
  (if match keyLogTaskID with
      | Some k => negb (Z.eqb k 0) && Z.eqb k tid
      | None => false
      end then
     root <- gets (fun st => installPath (cfg st)) ;;
     wd <- gets (fun st => cwd (cfg st)) ;;
     let safePath := OsPath.abspath wd (root +:+ "downloads/") in
     let savePath := root +:+ "downloads/" +:+ sid +:+ "/keystrokes.txt" in
     if negb (Py.startswith (OsPath.abspath wd savePath) safePath) then
       raise AttributeError
     else
       write_file savePath true "" ;;
       data <- expect UnicodeDecodeError (Py.decode data) ;;
       let new_results :=
         replace ("[Enter]" +:+ CR) (CR +:+ LF)
           (replace "[Shift]" ""
              (replace (String "008" "") ""
                 (replace "[SpaceBar]" ""
                    (replace (CR +:+ LF) "" data)))) in
       write_file savePath true new_results
   else results_and_log sid (Bytes data)) ;;
  let parts := Py.split "010" data in
  if Nat.ltb 10 (List.length parts) then
    now <- getutcnow ;;
    if Py.startswith (hd "" parts) "Hostname:" then
      add_credentials sid (parse_mimikatz data) now
    else ret tt
  else ret tt.

(** [process_agent_packet]. *)
Definition process_agent_packet (sessionID respName : string) (tid : Z)
  (data : string) : M unit :=
  sessionID <- name_to_id sessionID ;;
  keyLogTaskID <- record_result sessionID respName tid data ;;
  if String.eqb respName "ERROR" then
    send (agent_sender sessionID) true "[!] Received error response from {}"
         [AStr sessionID] [] ;;
    update_agent_results_db sessionID (Bytes data) ;;
    data <- expect UnicodeDecodeError (Py.decode data) ;;
    save_agent_log sessionID (Text ("[!] Error response: " +:+ data))
  else if String.eqb respName "TASK_SYSINFO" then task_sysinfo sessionID data
  else if String.eqb respName "TASK_EXIT" then
    send (agent_sender sessionID) true "[!] Agent {} exiting" [AStr sessionID] [] ;;
    save_agent_log sessionID (Bytes data) ;;
    remove_agent_db sessionID
  else if String.eqb respName "TASK_SHELL" then results_and_log sessionID (Bytes data)
  else if String.eqb respName "TASK_DOWNLOAD" then task_download sessionID data
  else if String.eqb respName "TASK_DIR_LIST" then
    try_except
      (text <- expect UnicodeDecodeError (Py.decode data) ;;
       match json_loads_dir text with
       | None => raise ValueError
       | Some response => update_dir_list sessionID response
       end)
      (fun e => if is_ValueError e then ret tt else raise e) ;;
    results_and_log sessionID (Bytes data)
  else if String.eqb respName "TASK_GETDOWNLOADS" then
    results_and_log sessionID
      (if Py.truthy data then Bytes data else Text "[*] No active downloads")
  else if String.eqb respName "TASK_STOPDOWNLOAD" then results_and_log sessionID (Bytes data)
  else if String.eqb respName "TASK_UPLOAD" then ret tt
  else if String.eqb respName "TASK_GETJOBS" then
    results_and_log sessionID
      (if Py.truthy data then Bytes data else Text "[*] No active jobs")
  else if String.eqb respName "TASK_STOPJOB" then results_and_log sessionID (Bytes data)
  else if String.eqb respName "TASK_CMD_WAIT" then
    update_agent_results_db sessionID (Bytes data) ;;
    now <- getutcnow ;;
    add_credentials sessionID (parse_credentials data) now ;;
    save_agent_log sessionID (Bytes data)
  else if String.eqb respName "TASK_CMD_WAIT_SAVE" then task_cmd_save true sessionID data
  else if String.eqb respName "TASK_CMD_JOB" then
    task_cmd_job sessionID tid keyLogTaskID data
  else if String.eqb respName "TASK_CMD_JOB_SAVE" then task_cmd_save false sessionID data
  else if String.eqb respName "TASK_SCRIPT_IMPORT" then results_and_log sessionID (Bytes data)
  else if String.eqb respName "TASK_IMPORT_MODULE" then results_and_log sessionID (Bytes data)
  else if String.eqb respName "TASK_VIEW_MODULE" then results_and_log sessionID (Bytes data)
  else if String.eqb respName "TASK_REMOVE_MODULE" then results_and_log sessionID (Bytes data)
  else if String.eqb respName "TASK_SCRIPT_COMMAND" then results_and_log sessionID (Bytes data)
  else if String.eqb respName "TASK_SWITCH_LISTENER" then
    data <- expect UnicodeDecodeError (Py.decode data) ;;
    let listener_name := Py.drop_chars 38 data in
    update_agent_listener_db sessionID listener_name ;;
    results_and_log sessionID (Text data) ;;
    send (agent_sender sessionID) false "[+] Updated comms for {} to {}"
         [AStr sessionID; AStr listener_name] []
  else if String.eqb respName "TASK_UPDATE_LISTENERNAME" then
    results_and_log sessionID (Bytes data) ;;
    send (agent_sender sessionID) false "[+] Listener for '{}' updated to '{}'"
         [AStr sessionID; AStr data] []
  else ret tt.

(** ** Request and response handlers *)

(** [handle_agent_request]. *)
Definition handle_agent_request (sessionID language_ stagingKey : string)
  (update_lastseen : bool) : M Reply :=
  info <- gets (fun st => agents st !! sessionID) ;;
  match info with
  | None =>
      send (agent_sender sessionID) true
           "[!] handle_agent_request(): sessionID {} not present" [AStr sessionID] [] ;;
      ret None
  | Some _ =>
      (if update_lastseen then update_agent_lastseen_db sessionID else ret tt) ;;
      taskings_ <- get_agent_tasks_db sessionID ;;
      match taskings_ with
      | [] => ret None
      | _ =>
          let all_task_packets :=
            fold_left (fun acc t =>
              acc +:+ build_task_packet (task_name t) (task_data t) (task_id t))
              taskings_ "" in
          info <- gets (fun st => agents st !! sessionID) ;;
          info <- expect KeyError info ;;
          n <- fresh ;;
          let encrypted_data := aes_encrypt_then_hmac n (sessionKey info) all_task_packets in
          ret (Some (build_routing_packet stagingKey sessionID language_
                       "SERVER_RESPONSE" encrypted_data))
      end
  end.

(** [handle_agent_response]. *)
Definition handle_agent_response (sessionID encData : string) (update_lastseen : bool)
  : M Reply :=
  info <- gets (fun st => agents st !! sessionID) ;;
  match info with
  | None =>
      send (agent_sender sessionID) true
           "[!] handle_agent_response(): sessionID {} not in cache" [AStr sessionID] [] ;;
      ret None
  | Some info =>
      (if update_lastseen then update_agent_lastseen_db sessionID else ret tt) ;;
      try_except
        (packet <- expect DecryptError (aes_decrypt_and_verify (sessionKey info) encData) ;;
         responsePackets <- expect ValueError (parse_result_packets packet) ;;
         for_each responsePackets (fun p =>
           process_agent_packet sessionID (responseName p) (taskID p) (data_ p)) ;;
         (match responsePackets with
          | [] => ret tt
          | _ => send (agent_sender sessionID) false "[*] Agent {} returned results."
                      [AStr sessionID] []
          end) ;;
         ret (Some "VALID"))
        (fun e =>
           send (agent_sender sessionID) true
                "[!] Error processing result packet from {} : {}"
                [AStr sessionID; AExn e] [] ;;
           ret None)
  end.

(** The body of the loop of [handle_agent_data] for one frame; [None] when
    the frame adds nothing to the list of replies. *)
Definition handle_frame (stagingKey : string) (opts : ListenerOptions)
  (clientIP : string) (update_lastseen : bool) (sessionID : string) (f : Frame)
  : M (option (string * Reply)) :=
  let meta := fr_meta f in
  known <- gets (fun st => bool_decide (is_Some (agents st !! sessionID))) ;;
  if String.eqb meta "STAGE0" || String.eqb meta "STAGE1" || String.eqb meta "STAGE2" then
    send (agent_sender sessionID) false
         "[*] handle_agent_data(): sessionID {} issued a {} request"
         [AStr sessionID; AStr meta] [] ;;
    r <- handle_agent_staging sessionID (fr_language f) meta (fr_additional f)
           (fr_encData f) stagingKey opts clientIP ;;
    ret (Some (fr_language f, r))
  else if negb known then
    send (agent_sender sessionID) false
         "[!] handle_agent_data(): sessionID {} not present" [AStr sessionID] [] ;;
    ret (Some ("", Some ("ERROR: sessionID " +:+ sessionID +:+ " not in cache!")))
  else if String.eqb meta "TASKING_REQUEST" then
    send (agent_sender sessionID) false
         "[*] handle_agent_data(): sessionID {} issued a TASKING_REQUEST"
         [AStr sessionID] [] ;;
    r <- handle_agent_request sessionID (fr_language f) stagingKey true ;;
    ret (Some (fr_language f, r))
  else if String.eqb meta "RESULT_POST" then
    send (agent_sender sessionID) false
         "[*] handle_agent_data(): sessionID {} issued a RESULT_POST"
         [AStr sessionID] [] ;;
    r <- handle_agent_response sessionID (fr_encData f) update_lastseen ;;
    ret (Some (fr_language f, r))
  else
    send (agent_sender sessionID) true
         "[!] handle_agent_data(): sessionID {} gave unhandled meta tag in routing packet: {}"
         [AStr sessionID; AStr meta] [] ;;
    ret None.

Fixpoint handle_frames (stagingKey : string) (opts : ListenerOptions)
  (clientIP : string) (update_lastseen : bool) (frames : list (string * Frame))
  : M (list (string * Reply)) :=
  match frames with
  | [] => ret []
  | (sessionID, f) :: rest =>
      r <- handle_frame stagingKey opts clientIP update_lastseen sessionID f ;;
      rs <- handle_frames stagingKey opts clientIP update_lastseen rest ;;
      ret (match r with
           | Some x => x :: rs
           | None => rs
           end)
  end.

(** [handle_agent_data]: [None], or the list of [(language, reply)]. *)
Definition handle_agent_data (stagingKey routingPacket : string)
  (opts : ListenerOptions) (clientIP : string) (update_lastseen : bool)
  : M (option (list (string * Reply))) :=
  if Nat.ltb (String.length routingPacket) 20 then
    send "empire" false "[!] handle_agent_data(): routingPacket wrong length: {}"
         [ANum (Z.of_nat (String.length routingPacket))] [] ;;
    ret None
  else
    match parse_routing_packet stagingKey routingPacket with
    | None | Some [] => ret (Some [("", Some "ERROR: invalid routing packet")])
    | Some frames =>
        rs <- handle_frames stagingKey opts clientIP update_lastseen frames ;;
        ret (Some rs)
    end.

(** ** Scenarios and conditions the properties speak about *)


(** The dispatch of one result packet of a body posted by [sid]. *)
Definition dispatch (sid : string) (p : ResultPacket) : M unit :=
  process_agent_packet sid (responseName p) (taskID p) (data_ p).

End Agents.

(** ** The other operations of the class *)

(** [is_ip_allowed]. The two lists are [self.ipWhiteList] and
    [self.ipBlackList]; a list that is [None] or empty counts as not set. *)
Definition is_ip_allowed (ipWhiteList ipBlackList : list string) (ip_address : string)
  : bool :=
  match ipBlackList with
  | _ :: _ =>
      match ipWhiteList with
      | _ :: _ =>
          bool_decide (ip_address ∈ ipWhiteList)
          && negb (bool_decide (ip_address ∈ ipBlackList))
      | [] => negb (bool_decide (ip_address ∈ ipBlackList))
      end
  | [] =>
      match ipWhiteList with
      | _ :: _ => bool_decide (ip_address ∈ ipWhiteList)
      | [] => true
      end
  end.

Definition with_functions_db (f : option string) (r : AgentRow) : AgentRow :=
  {| name := name r; session_id := session_id r; delay := delay r;
     jitter := jitter r; external_ip := external_ip r;
     session_key := session_key r; nonce := nonce r;
     checkin_time := checkin_time r; lastseen_time := lastseen_time r;
     profile := profile r; kill_date := kill_date r;
     working_hours := working_hours r; lost_limit := lost_limit r;
     listener := listener r; language := language r;
     internal_ip := internal_ip r; username := username r;
     hostname := hostname r; os_details := os_details r;
     high_integrity := high_integrity r; process_name := process_name r;
     process_id := process_id r; language_version := language_version r;
     taskings := taskings r; results := results r; functions_db := f |}.

(** [get_agent_functions]: the entry of the cache, [[]] for an agent that
    is not in it. *)
Definition get_agent_functions (sid : string) : M Functions :=
  sid <- name_to_id sid ;;
  gets (fun st =>
    match agents st !! sid with
    | Some info => functions info
    | None => FnList []
    end).

(** [get_agent_functions_db]; [agent.functions] raises [AttributeError]
    when no row matches. *)
Definition get_agent_functions_db (sid : string) : M (list string) :=
  agent <- query_first (by_session_id_or_name sid) ;;
  agent <- expect AttributeError agent ;;
  ret (match functions_db agent with
       | Some f => Py.split "," f
       | None => []
       end).

(** [set_agent_functions_db]. *)
Definition set_agent_functions_db (sid : string) (functions_ : list string) : M unit :=
  sid <- name_to_id sid ;;
  modify (set_agents (fun m =>
    match m !! sid with
    | Some info =>
        <[sid := {| sessionKey := sessionKey info; functions := FnList functions_ |}]> m
    | None => m
    end)) ;;
  let functions_ := Py.join "," functions_ in
  agent <- query_first (by_session_id sid) ;;
  agent <- expect AttributeError agent ;;
  orm_assign agent (with_functions_db (Some functions_)) ;;
  commit.

Definition set_db_config (f : list (string * string) → list (string * string))
  (st : State) : State :=
  {| cfg := cfg st; agents := agents st; db_agents := db_agents st;
     db_taskings := db_taskings st; db_results := db_results st;
     db_file_directory := db_file_directory st; db_config := f (db_config st);
     db_users := db_users st; orm_dirty := orm_dirty st; fs := fs st;
     events := events st; broadcasts := broadcasts st; slack := slack st;
     credentials := credentials st; resourceQueue := resourceQueue st;
     seed := seed st; clock := clock st |}.

(** [set_autoruns_db]: the two [UPDATE config] statements, which carry no
    [WHERE] clause. A row of [config] is its pair
    [(autorun_command, autorun_data)]. *)
Definition set_autoruns_db (taskCommand moduleData : string) : M unit :=
  modify (set_db_config (List.map (fun c => (taskCommand, snd c)))) ;;
  modify (set_db_config (List.map (fun c => (fst c, moduleData)))).

(** [clear_autoruns_db]. *)
Definition clear_autoruns_db : M unit :=
  modify (set_db_config (List.map (fun c => ("", snd c)))) ;;
  modify (set_db_config (List.map (fun c => (fst c, "")))).

(** [clear_agent_tasks_db]: here the commit is called. *)
Definition clear_agent_tasks_db (sid : string) : M unit :=
  agent <- query_first (by_session_id_or_name sid) ;;
  agent <- expect AttributeError agent ;;
  orm_assign agent (with_taskings []) ;;
  commit ;;
  send (agent_sender sid) true "[*] Tasked {} to clear tasks" [AStr sid] [].

(** A [taskings] column that is neither NULL nor empty. *)
Definition has_taskings (r : AgentRow) : bool :=
  match taskings r with
  | [] => false
  | _ :: _ => true
  end.

(** [get_agent_tasks_listener_db]: the statements go to the store, not
    through the ORM session. The rows are fetched before the loop, which
    clears the column of each agent that has tasks. *)
Definition get_agent_tasks_listener_db (listenerName : string)
  : M (list (string * list Task)) :=
  rows <- gets db_agents ;;
  let agents_ := List.filter (fun r => String.eqb (listener r) listenerName) rows in
  let tasked := List.filter has_taskings agents_ in
  for_each tasked (fun agent =>
    modify (set_db_agents (List.map (fun r =>
      if by_session_id (session_id agent) r then with_taskings [] r else r)))) ;;
  ret (List.map (fun agent => (session_id agent, taskings agent)) tasked).

(** What [get_agent_results_db] returns: [None], the empty string, or the
    decoded results. *)
Inductive Results (Json : Type) :=
  | ResNone
  | ResEmpty
  | ResOut (out : Json).

Arguments ResNone {Json}.
Arguments ResEmpty {Json}.
Arguments ResOut {Json} out.

Section Results.

(** [json.loads] on the [results] column, [None] when it raises, and the
    truth value of what it returns. *)
Variable Json : Type.
Variable json_loads : string → option Json.
Variable json_truthy : Json → bool.

(** [get_agent_results_db]. *)
Definition get_agent_results_db (sid : string) : M (Results Json) :=
  sid <- name_to_id sid ;;
  known <- gets (fun st => bool_decide (is_Some (agents st !! sid))) ;;
  if negb known then ret ResNone
  else
    agent <- query_first (by_session_id sid) ;;
    agent <- expect AttributeError agent ;;
    let results_ := results agent in
    orm_assign agent (with_results (Some "")) ;;
    commit ;;
    match results_ with
    | Some r =>
        if Py.truthy r then
          out <- expect ValueError (json_loads r) ;;
          ret (if json_truthy out then ResOut out else ResNone)
        else ret ResEmpty
    | None => ret ResEmpty
    end.

End Results.

(** No row carries [sid] as the name of another agent: looking [sid] up
    as a name finds nothing or the agent itself. *)
Definition own_name (st : State) (sid : string) : Prop :=
  ∀ r, In r (db_agents st) → name r = sid → session_id r = sid.

(** The directory and the file that [save_agent_log] writes for the agent
    that [sid] names. *)
Definition log_save_path (st : State) (sid : string) : string :=
  installPath (cfg st) +:+ "/downloads/"
  +:+ str_opt (option_map name (List.find (by_session_id_or_name sid) (db_agents st)))
  +:+ "/".

Definition log_dir (st : State) (sid : string) : string :=
  OsPath.abspath (cwd (cfg st)) (log_save_path st sid).

Definition log_file (st : State) (sid : string) : string :=
  OsPath.abspath (cwd (cfg st)) (log_save_path st sid +:+ "/agent.log").

(** The file system lets the agent log be written: its directory exists or
    can be made, and the log file can be opened for appending. *)
Definition log_writable (st : State) (sid : string) : bool :=
  let f := fs st in
  match (if Fs.exists_ f (log_dir st sid) then inl f else Fs.makedirs f (log_dir st sid)) with
  | inl f' =>
      match Fs.write f' (log_file st sid) true "" with
      | inl _ => true
      | inr _ => false
      end
  | inr _ => false
  end.

(** The autorun commands configured for a language. *)
Definition language_autoruns (st : State) (lang : string) : list string :=
  match List.find (fun kv => String.eqb (fst kv) (Py.lower lang)) (autoRuns (cfg st)) with
  | Some (_, cmds) => cmds
  | None => []
  end.

(** The user name that STAGE2 stores: prefixed with the domain when the
    domain is not blank. *)
Definition staged_username (domain user : string) : string :=
  if Py.truthy domain && negb (String.eqb (Py.strip domain) "")
  then domain +:+ "\" +:+ user
  else user.

(** The system information that STAGE2 reads from twelve fields. *)
Definition sysinfo_of (listener_ domain user host ip os hi pn pid lang langver : string)
  : Sysinfo :=
  {| si_listener := listener_; si_domainname := domain; si_username := user;
     si_hostname := host; si_internal_ip := ip; si_os_details := os;
     si_high_integrity := if String.eqb hi "True" then 1%Z else 0%Z;
     si_process_name := pn; si_process_id := pid; si_language := lang;
     si_language_version := langver |}.

(** Bytes that [decode('UTF-8')] accepts. *)
Definition valid_utf8 (b : string) : Prop := Py.decode b = Some b.

(** The columns that staging fills, as the row [r] holds them. *)
Definition has_sysinfo (r : AgentRow) (internal_ip' username' hostname' os_details' : string)
  (high_integrity' : Z) (process_name' process_id' language_version' language' : string)
  : Prop :=
  internal_ip r = Some internal_ip' ∧ username r = Some username'
  ∧ hostname r = Some hostname' ∧ os_details r = Some os_details'
  ∧ high_integrity r = Some high_integrity' ∧ process_name r = Some process_name'
  ∧ process_id r = Some process_id' ∧ language_version r = Some language_version'
  ∧ language r = language'.

(** The id the specification gives to the next task of an agent: one more
    than the largest id among its rows of [taskings], modulo 65536, and 1
    when it has no row. *)
Definition next_task_id (sid : string) (rows : list TaskingRow) : Z :=
  ((match max_task_id sid rows with Some m => m | None => 0 end + 1) mod 65536)%Z.






(** No row of the store has [sid] as session id or as name. *)
Definition fresh_session (st : State) (sid : string) : Prop :=
  existsb (fun r => String.eqb (session_id r) sid || String.eqb (name r) sid)
          (db_agents st) = false.

(** The session id under which [save_file] files a download: the id of the
    agent that [sessionID] names, else [sessionID] itself. *)
Definition download_session (st : State) (sessionID : option string) : string :=
  str_opt
    match sessionID with
    | Some s =>
        match List.find (by_name s) (db_agents st) with
        | Some r => if Py.truthy (session_id r) then Some (session_id r) else sessionID
        | None => sessionID
        end
    | None => None
    end.

(** The directory and the file name that [save_file] builds from the
    remote path. *)
Definition download_path (st : State) (sessionID : option string) (path : string)
  : string * string :=
  save_file_path (installPath (cfg st)) (download_session st sessionID) path.


(** The guard of [save_file] lets the download through. *)
Definition download_allowed (st : State) (sessionID : option string) (path : string)
  : bool :=
  skywalker_ok (cwd (cfg st)) (installPath (cfg st))
    (fst (download_path st sessionID path)) (snd (download_path st sessionID path)).

(** The state after the warning that [handle_agent_response] sends when
    processing a body raised [e]. *)
Definition result_warning (sid : string) (e : exn) (st : State) : State :=
  set_events (fun l => snoc l
    {| ev_sender := agent_sender sid; ev_print := true;
       ev_message := "[!] Error processing result packet from {} : {}";
       ev_args := [AStr sid; AExn e]; ev_extra := [] |}) st.

(** The rows after the loop of [get_agent_tasks_listener_db] cleared the
    column of each agent of [l]. *)
Definition cleared_for (l : list AgentRow) (r : AgentRow) : AgentRow :=
  if existsb (fun a => by_session_id (session_id a) r) l then with_taskings [] r else r.

(** The text of a value that is a [str] or [bytes], when it has one. *)
Definition text_of (d : Data) : option string :=
  match d with
  | Text s => Some s
  | Bytes b => Py.decode b
  end.

(** The entry that [save_agent_log] appends for [data] at the time [now]. *)
Definition log_entry `{Collaborators} (now : Z) (data : string) : string :=
  String "010" (get_datetime now) +:+ " : " +:+ String "010" ""
  +:+ data +:+ String "010" "".





(** The results of an agent that were stored and not read yet, as
    [update_agent_results_db] takes them from the column. *)
Definition unread_results (r : AgentRow) : string :=
  match results r with
  | Some x => if Py.truthy x then x else ""
  | None => ""
  end.

(** The session key that [add_agent] gives an agent: the one supplied, or
    a generated one when none or an empty one was supplied. *)
Definition chosen_key `{Collaborators} (sessionKey_ : option string) (n : nat) : string :=
  match sessionKey_ with
  | Some k => if Py.truthy k then k else generate_aes_key n
  | None => generate_aes_key n
  end.

(** ** A reference instance of the collaborators

    The handlers are run on concrete inputs with collaborators that do no
    cryptography: a ciphertext is its plaintext, a result body is a list of
    packets [NAME:id:data] separated by semicolons. *)

Definition plain_packet (s : string) : option ResultPacket :=
  match Py.split ":" s with
  | [n; i; d] =>
      match Py.int i with
      | Some tid =>
          Some {| responseName := n; totalPacket := 1; packetNum := 1;
                  taskID := tid; length_ := Z.of_nat (String.length d);
                  data_ := d |}
      | None => None
      end
  | _ => None
  end.

Fixpoint plain_packets (l : list string) : option (list ResultPacket) :=
  match l with
  | [] => Some []
  | s :: l' =>
      match plain_packet s, plain_packets l' with
      | Some p, Some ps => Some (p :: ps)
      | _, _ => None
      end
  end.

Definition plain_digits (n len : nat) : string :=
  string_of_list_ascii (repeat (ascii_of_nat (48 + n mod 10)) len).

Definition plain : Collaborators := {|
  aes_decrypt_and_verify := fun _ c => Some c;
  aes_encrypt_then_hmac := fun _ _ d => d;
  generate_aes_key := fun _ => "0123456789abcdef0123456789abcdef";
  rsa_xml_to_key := fun x => Some x;
  rsa_encrypt := fun _ _ d => d;
  dh_publicKey := fun n => plain_digits (S n) 8;
  dh_key := fun n _ => "k" +:+ plain_digits n 31;
  random_string := plain_digits;
  decode_base64 := fun d => Some d;
  is_stale := fun _ _ _ => false;
  get_datetime := fun _ => "2020-01-01 00:00:00";
  get_file_datetime := fun _ => "2020-01-01_00-00-00";
  parse_credentials := fun _ => [];
  parse_mimikatz := fun _ => [];
  parse_routing_packet := fun _ _ => None;
  parse_result_packets := fun b => plain_packets (Py.split ";" b);
  build_task_packet := fun n d _ => n +:+ ":" +:+ d +:+ ";";
  build_routing_packet := fun _ sid _ _ d => sid +:+ ":" +:+ d;
  display_agent := fun r _ => session_id r;
  dec_data := fun d => Some {| dd_data := d; dd_crc32_check := true;
                               dd_header_crc32 := 0; dd_dec_crc32 := 0 |};
  json_dumps := fun s => s;
  json_loads_dir := fun _ => None;
  do_agents := fun _ st => (st, Ret tt)
|}.

Definition cfg0 : Config :=
  {| installPath := "/opt/Empire/"; cwd := "/opt/Empire"; debug := false;
     socketio := false; autoRuns := [] |}.

(** A server that has just been installed: empty store, empty cache, no file. *)
Definition state0 : State :=
  {| cfg := cfg0; agents := ∅; db_agents := []; db_taskings := [];
     db_results := []; db_file_directory := []; db_config := [];
     db_users := []; orm_dirty := []; fs := {| fs_dirs := ∅; fs_files := ∅ |};
     events := []; broadcasts := []; slack := []; credentials := [];
     resourceQueue := []; seed := 0; clock := 0 |}.

Definition opts0 : ListenerOptions :=
  {| lo_Name := "http"; lo_DefaultDelay := "5"; lo_DefaultJitter := "0.0";
     lo_DefaultProfile := ""; lo_KillDate := ""; lo_WorkingHours := "";
     lo_DefaultLostLimit := "60"; lo_SlackURL := "" |}.

(** The state after [sessionID] was added by [add_agent]. *)
Definition with_agent (sessionID nonce_ : string) (st : State) : State :=
  fst (add_agent (collab := plain) sessionID "10.0.0.1" "5" "0.0" "" "" "" "60"
         None nonce_ "http" "" st).

(** The reference server after the agent [ABC12345] posted its key: the
    agent is in the cache and in the store, with the nonce
    [1111111111111111]. *)
Definition staged0 : State := with_agent "ABC12345" "1111111111111111" state0.

(** The same server with one task waiting for the agent. *)
Definition tasked0 : State :=
  fst (add_agent_task_db "ABC12345" "TASK_SHELL" "whoami" None None staged0).

(** A STAGE2 plaintext of twelve fields with the nonce plus one, and the
    same with a thirteenth field. *)
Definition good_sysinfo : string :=
  "1111111111111112|http|CORP|bob|ws01|10.1.1.1|Windows 10|True|powershell|4242|powershell|5".



(** A result body of two packets: a shell result, then system information
    whose data is the single byte [0xff], which is not UTF-8. *)
Definition failing_body : string :=
  "TASK_SHELL:1:hello;TASK_SYSINFO:2:" +:+ String (ascii_of_nat 255) "".

(** A second instance, for the handlers that read a routing packet: the
    packet is one frame [session|language|meta|additional|data]. *)
Definition routed_frame (s : string) : option (list (string * Frame)) :=
  match Py.split "|" s with
  | [sid; lang; meta; additional; enc] =>
      Some [(sid, {| fr_language := lang; fr_meta := meta;
                     fr_additional := additional; fr_encData := enc |})]
  | _ => None
  end.

Definition routed : Collaborators := {|
  aes_decrypt_and_verify := @aes_decrypt_and_verify plain;
  aes_encrypt_then_hmac := @aes_encrypt_then_hmac plain;
  generate_aes_key := @generate_aes_key plain;
  rsa_xml_to_key := @rsa_xml_to_key plain;
  rsa_encrypt := @rsa_encrypt plain;
  dh_publicKey := @dh_publicKey plain;
  dh_key := @dh_key plain;
  random_string := @random_string plain;
  decode_base64 := @decode_base64 plain;
  is_stale := @is_stale plain;
  get_datetime := @get_datetime plain;
  get_file_datetime := @get_file_datetime plain;
  parse_credentials := @parse_credentials plain;
  parse_mimikatz := @parse_mimikatz plain;
  parse_routing_packet := fun _ p => routed_frame p;
  parse_result_packets := @parse_result_packets plain;
  build_task_packet := @build_task_packet plain;
  build_routing_packet := @build_routing_packet plain;
  display_agent := @display_agent plain;
  dec_data := @dec_data plain;
  json_dumps := @json_dumps plain;
  json_loads_dir := @json_loads_dir plain;
  do_agents := @do_agents plain
|}.

(** The reference server with the one row of the table [config], no
    autorun set. *)
Definition configured0 : State := set_db_config (fun _ => [("", "")]) staged0.

(** An RSA public key in the XML format that PowerShell exports. *)
Definition rsa_public : string :=
  "<RSAKeyValue>" +:+ plain_digits 3 400 +:+ "</RSAKeyValue>".

(** The cache entry of the agent of the reference server. *)
Definition info0 : AgentInfo :=
  {| sessionKey := "0123456789abcdef0123456789abcdef"; functions := FnList [] |}.

(** * Properties *)

Local Open Scope m_scope.

(** ** Running a computation step by step *)

Lemma bind_Ret {A B} (c : M A) (k : A → M B) st st' a :
  c st = (st', Ret a) → bind c k st = k a st'.
Proof. intros H. unfold bind. now rewrite H. Qed.

Lemma bind_Raise {A B} (c : M A) (k : A → M B) st st' e :
  c st = (st', Raise e) → bind c k st = (st', Raise e).
Proof. intros H. unfold bind. now rewrite H. Qed.

Lemma bind_ret {A B} (a : A) (k : A → M B) st : bind (ret a) k st = k a st.
Proof. reflexivity. Qed.

Lemma bind_raise {A B} e (k : A → M B) st : bind (raise e) k st = (st, Raise e).
Proof. reflexivity. Qed.

Lemma bind_gets {A B} (f : State → A) (k : A → M B) st :
  bind (gets f) k st = k (f st) st.
Proof. reflexivity. Qed.

Lemma bind_modify {B} f (k : unit → M B) st : bind (modify f) k st = k tt (f st).
Proof. reflexivity. Qed.

Lemma bind_send {B} s p m a x (k : unit → M B) st :
  bind (send s p m a x) k st
  = k tt (set_events (fun l => snoc l {| ev_sender := s; ev_print := p;
                                         ev_message := m; ev_args := a;
                                         ev_extra := x |}) st).
Proof. reflexivity. Qed.

Lemma bind_expect_Some {A B} e (a : A) (k : A → M B) st :
  bind (expect e (Some a)) k st = k a st.
Proof. reflexivity. Qed.

Lemma bind_expect_None {A B} e (k : A → M B) st :
  bind (expect e None) k st = (st, Raise e).
Proof. reflexivity. Qed.

Lemma bind_bind {A B C} (c : M A) (k1 : A → M B) (k2 : B → M C) st :
  bind (bind c k1) k2 st = bind c (fun a => bind (k1 a) k2) st.
Proof. unfold bind. destruct (c st) as [st' [a|e]]; reflexivity. Qed.

Lemma bind_getutcnow {B} (k : Z → M B) st : bind getutcnow k st = k (clock st) st.
Proof. reflexivity. Qed.

Lemma bind_fresh {B} (k : nat → M B) st :
  bind fresh k st = k (seed st) (set_seed S st).
Proof. reflexivity. Qed.

Ltac msimp :=
  repeat (rewrite ?bind_bind, ?bind_ret, ?bind_raise, ?bind_gets, ?bind_modify,
            ?bind_send, ?bind_expect_Some, ?bind_expect_None, ?bind_getutcnow,
            ?bind_fresh).

(** ** Facts about [LIKE] and the name lookup *)




Lemma session_id_orm_view d r : session_id (orm_view d r) = session_id r.
Proof. unfold orm_view. now destruct (bool_decide _). Qed.

Lemma name_orm_view d r : name (orm_view d r) = name r.
Proof. unfold orm_view. now destruct (bool_decide _). Qed.

Lemma nonce_orm_view d r : nonce (orm_view d r) = nonce r.
Proof. unfold orm_view. now destruct (bool_decide _). Qed.

Lemma name_to_id_own st sid : own_name st sid → name_to_id sid st = (st, Ret sid).
Proof.
  intros Hown. unfold name_to_id, get_agent_id_db, query_first. msimp.
  destruct (List.find (by_name sid) (db_agents st)) as [r|] eqn:F; [|reflexivity].
  apply find_some in F as [Hin Hn]. unfold by_name in Hn.
  apply String.eqb_eq in Hn. cbn [option_map].
  rewrite session_id_orm_view, (Hown r Hin Hn).
  now destruct (Py.truthy sid).
Qed.


(** ** C8: bodies shorter than the routing header *)

Section Properties.

Context {collab : Collaborators}.

(** C8. For every inbound transport body shorter than 20 bytes,
    [handle_agent_data] processes no frame and raises nothing: it returns
    [None], and the state it leaves is the state it found with one more
    entry in the event log, so no agent state is modified. *)
Theorem short_body_rejected (stagingKey routingPacket : string)
  (opts : ListenerOptions) (clientIP : string) (update_lastseen : bool) (st : State) :
  String.length routingPacket < 20 →
  handle_agent_data stagingKey routingPacket opts clientIP update_lastseen st
  = (set_events (fun l => snoc l
       {| ev_sender := "empire"; ev_print := false;
          ev_message := "[!] handle_agent_data(): routingPacket wrong length: {}";
          ev_args := [ANum (Z.of_nat (String.length routingPacket))];
          ev_extra := [] |}) st,
     Ret None).
Proof.
  intros Hlen. unfold handle_agent_data.
  apply Nat.ltb_lt in Hlen. rewrite Hlen. reflexivity.
Qed.

(** ** The task queue *)

Lemma known_true st sid info :
  agents st !! sid = Some info → bool_decide (is_Some (agents st !! sid)) = true.
Proof. intros H. apply bool_decide_eq_true_2. rewrite H. eauto. Qed.


Lemma get_agent_tasks_db_run st sid info row :
  agents st !! sid = Some info → own_name st sid →
  List.find (by_session_id sid) (db_agents st) = Some row →
  ∃ st', get_agent_tasks_db sid st
         = (st', Ret (taskings (orm_view (orm_dirty st) row)))
    ∧ agents st' = agents st ∧ cfg st' = cfg st ∧ fs st' = fs st
    ∧ db_taskings st' = db_taskings st ∧ db_agents st' = db_agents st.
Proof.
  intros Hk Hown Hrow. unfold get_agent_tasks_db.
  rewrite (bind_Ret _ _ _ _ _ (name_to_id_own _ _ Hown)). msimp.
  rewrite (known_true _ _ _ Hk). cbn [negb]. unfold query_first. msimp.
  rewrite Hrow. cbn [option_map]. msimp.
  destruct (taskings (orm_view (orm_dirty st) row)) eqn:Ht.
  - eexists. split; [reflexivity|]. repeat split.
  - msimp. eexists. split; [reflexivity|]. repeat split.
Qed.

Lemma own_name_map st st' sid g :
  db_agents st' = List.map g (db_agents st) →
  (∀ r, name (g r) = name r ∧ session_id (g r) = session_id r) →
  own_name st sid → own_name st' sid.
Proof.
  intros Hdb Hg Hown r Hin Hn. rewrite Hdb in Hin.
  apply in_map_iff in Hin as (r0 & <- & Hin0).
  destruct (Hg r0) as [Hn0 Hs0]. rewrite Hs0. apply Hown; [exact Hin0|congruence].
Qed.


Lemma with_taskings_if_ids sid ts r :
  name (if by_session_id sid r then with_taskings ts r else r) = name r
  ∧ session_id (if by_session_id sid r then with_taskings ts r else r) = session_id r.
Proof. now destruct (by_session_id sid r). Qed.









Lemma Agents_init_known l :
  ∀ (m : gmap string AgentInfo) k,
    (is_Some (m !! k) ∨ ∃ r, In r l ∧ session_id r = k) →
    is_Some (fold_left (fun m r =>
       <[session_id r := {| sessionKey := session_key r;
                            functions := FnColumn (functions_db r) |}]> m) l m !! k).
Proof.
  induction l as [|r l IH]; intros m k H; cbn [fold_left].
  - destruct H as [H|(r & [] & _)]. exact H.
  - apply IH. destruct (decide (session_id r = k)) as [<-|Hne].
    + left. rewrite lookup_insert_eq. eauto.
    + destruct H as [H|(r' & [->|Hin] & Hr')].
      * left. now rewrite lookup_insert_ne.
      * contradiction.
      * right. eauto.
Qed.

Lemma orm_view_clean d r : session_id r ∉ d → orm_view d r = r.
Proof. intros H. unfold orm_view. now rewrite bool_decide_eq_false_2. Qed.

Lemma orm_view_dirty d r : session_id r ∈ d → taskings (orm_view d r) = [].
Proof. intros H. unfold orm_view. now rewrite bool_decide_eq_true_2. Qed.

Lemma find_by_session_id sid l r :
  List.find (by_session_id sid) l = Some r → In r l ∧ session_id r = sid.
Proof.
  intros H. apply find_some in H as [Hin Hs]. split; [exact Hin|].
  now apply String.eqb_eq.
Qed.

(** C5. What [get_agent_tasks_db] does in place of what the claim says:
    for an agent with pending tasks, the drain returns them and the next
    drain of the same process returns none, but the rows of the store are
    the rows from before the drain, and after a restart of the server the
    drained tasks are handed out again. The assignment that clears the
    column is followed by [Session().commit] without a call. *)
Theorem drain_is_not_persisted (sid : string) (row : AgentRow) (st : State) :
  is_Some (agents st !! sid) → own_name st sid →
  List.find (by_session_id sid) (db_agents st) = Some row →
  taskings row ≠ [] → sid ∉ orm_dirty st →
  ∃ st', get_agent_tasks_db sid st = (st', Ret (taskings row))
    ∧ db_agents st' = db_agents st
    ∧ snd (get_agent_tasks_db sid st') = Ret []
    ∧ snd (get_agent_tasks_db sid (restart st')) = Ret (taskings row).
Proof.
  intros [info Hk] Hown Hrow Hne Hclean.
  destruct (find_by_session_id _ _ _ Hrow) as [Hin Hsid].
  assert (Hview : orm_view (orm_dirty st) row = row)
    by (apply orm_view_clean; now rewrite Hsid).
  unfold get_agent_tasks_db at 1.
  rewrite (bind_Ret _ _ _ _ _ (name_to_id_own _ _ Hown)). msimp.
  rewrite (known_true _ _ _ Hk). cbn [negb]. unfold query_first. msimp.
  rewrite Hrow. cbn [option_map]. msimp. rewrite Hview.
  destruct (taskings row) as [|t ts] eqn:Ht; [contradiction|]. msimp.
  eexists. split; [reflexivity|]. split; [reflexivity|]. split.
  - match goal with |- snd (get_agent_tasks_db sid ?s) = _ =>
      destruct (get_agent_tasks_db_run s sid info row Hk Hown Hrow) as (s2 & -> & _) end.
    cbn [snd orm_dirty set_orm_dirty]. rewrite orm_view_dirty; [reflexivity|].
    rewrite Hsid. apply list_elem_of_In. now left.
  - match goal with |- snd (get_agent_tasks_db sid (restart ?s)) = _ =>
      assert (Hk' : is_Some (agents (restart s) !! sid)) end.
    { apply Agents_init_known. right. exists row. split; [exact Hin|exact Hsid]. }
    destruct Hk' as [info' Hk'].
    match goal with |- snd (get_agent_tasks_db sid ?s) = _ =>
      destruct (get_agent_tasks_db_run s sid info' row Hk' Hown Hrow) as (s2 & -> & _) end.
    cbn [snd]. rewrite orm_view_clean; [now rewrite Ht|]. cbn. apply not_elem_of_nil.
Qed.

(** ** Staging: the second message *)

Ltac sproj :=
  cbn [cfg agents db_agents db_taskings db_results db_file_directory db_config
       db_users orm_dirty fs events broadcasts slack credentials resourceQueue
       seed clock set_agents set_db_agents set_db_taskings set_db_results
       set_db_file_directory set_db_users set_orm_dirty set_fs set_events
       set_broadcasts set_slack set_credentials set_resourceQueue set_seed] in *.

Lemma find_map_ids (p : AgentRow → bool) g l :
  (∀ r, p (g r) = p r) →
  List.find p (List.map g l) = option_map g (List.find p l).
Proof.
  intros Hg. induction l as [|r l IH]; [reflexivity|].
  cbn [List.map List.find]. rewrite Hg. destruct (p r); [reflexivity|exact IH].
Qed.

Lemma write_any_data f p a d d' f1 :
  Fs.write f p a d = inl f1 → ∃ f2, Fs.write f p a d' = inl f2.
Proof.
  unfold Fs.write. destruct (Fs.is_dir f p); [discriminate|].
  destruct (existsb _ _); [discriminate|].
  destruct (negb _); [discriminate|]. eauto.
Qed.

Lemma option_map_name_view d (o : option AgentRow) :
  option_map name (option_map (orm_view d) o) = option_map name o.
Proof. destruct o; [cbn; now rewrite name_orm_view|reflexivity]. Qed.



Lemma save_agent_log_run st sid text :
  log_writable st sid = true →
  ∃ f', save_agent_log sid (Text text) st = (set_fs (fun _ => f') st, Ret tt).
Proof.
  unfold log_writable, log_dir, log_file, log_save_path. intros Hw.
  unfold save_agent_log, to_text, get_agent_name_db, query_first. msimp.
  rewrite option_map_name_view.
  unfold path_exists, resolve_path. msimp.
  destruct (Fs.exists_ (fs st) _) eqn:Hex.
  - msimp. unfold write_file, resolve_path. msimp.
    destruct (Fs.write (fs st) _ true "") as [f1|e] eqn:Hwr; [|discriminate].
    destruct (write_any_data _ _ _ _
      (String "010" (get_datetime (clock st)) +:+ " : " +:+ String "010" ""
       +:+ text +:+ String "010" "") _ Hwr) as [f2 Hf2].
    rewrite Hf2. msimp. eexists. reflexivity.
  - unfold makedirs, resolve_path. msimp.
    destruct (Fs.makedirs (fs st) _) as [f0|e] eqn:Hmk; [|discriminate].
    msimp. unfold write_file, resolve_path. msimp. sproj.
    destruct (Fs.write f0 _ true "") as [f1|e] eqn:Hwr; [|discriminate].
    destruct (write_any_data _ _ _ _
      (String "010" (get_datetime (clock st)) +:+ " : " +:+ String "010" ""
       +:+ text +:+ String "010" "") _ Hwr) as [f2 Hf2].
    rewrite Hf2. msimp. eexists. reflexivity.
Qed.

Lemma try_except_Ret {A} (c : M A) h st st' a :
  c st = (st', Ret a) → try_except c h st = (st', Ret a).
Proof. intros H. unfold try_except. now rewrite H. Qed.

Lemma bind_try_except_Ret {A B} (c : M A) h (k : A → M B) st st' a :
  c st = (st', Ret a) → bind (try_except c h) k st = k a st'.
Proof. intros H. apply bind_Ret. now apply try_except_Ret. Qed.

Lemma stage2_parse_ok st sid key enc msg row n p0
  listener_ domain user host ip os hi pn pid lang langver rest :
  aes_decrypt_and_verify key enc = Some msg →
  List.find (by_session_id sid) (db_agents st) = Some row →
  Py.int (nonce row) = Some n →
  Py.split "|" msg
  = p0 :: listener_ :: domain :: user :: host :: ip :: os :: hi :: pn :: pid
       :: lang :: langver :: rest →
  Py.int p0 = Some (n + 1)%Z →
  Forall valid_utf8 [listener_; domain; user; host; ip; os; hi; pn; pid; lang; langver] →
  stage2_parse sid key enc st
  = (set_events (fun l => snoc l
       {| ev_sender := agent_sender sid; ev_print := false;
          ev_message := "[!] Nonce verified: agent {} posted valid sysinfo checkin format: {}";
          ev_args := [AStr sid; AStr msg]; ev_extra := [] |}) st,
     Ret (inr (sysinfo_of listener_ domain user host ip os hi pn pid lang langver))).
Proof.
  intros Hdec Hrow Hn Hs Hp0 Hv.
  unfold stage2_parse. rewrite Hdec. msimp. rewrite Hs.
  cbn [List.length Nat.ltb Nat.leb]. unfold nth_part. cbn [nth_error]. msimp.
  rewrite Hp0. msimp. unfold get_agent_nonce_db, query_first. msimp.
  rewrite Hrow. cbn [option_map]. msimp. rewrite nonce_orm_view, Hn. msimp.
  rewrite Z.eqb_refl. cbn [negb]. msimp.
  unfold decode_part, nth_part. cbn [nth_error]. msimp.
  repeat match goal with
         | H : Forall _ (_ :: _) |- _ => apply Forall_cons_iff in H as [? H]
         end.
  unfold valid_utf8 in *.
  repeat match goal with
         | H : Py.decode ?p = Some ?p |- _ => rewrite H; clear H; msimp
         end.
  reflexivity.
Qed.

Lemma update_agent_sysinfo_db_run st sid row a b c d e f g h i :
  own_name st sid →
  List.find (by_session_id sid) (db_agents st) = Some row →
  update_agent_sysinfo_db sid a b c d e f g h i st
  = (set_orm_dirty (fun _ => [])
       (set_db_agents (fun l => List.map (orm_view (orm_dirty st))
          (List.map (fun r => if String.eqb (session_id r) sid
                              then with_sysinfo a b c d e f g h i r else r) l))
          st), Ret tt).
Proof.
  intros Hown Hrow. unfold update_agent_sysinfo_db.
  rewrite (bind_Ret _ _ _ _ _ (name_to_id_own _ _ Hown)).
  unfold query_first. msimp. rewrite Hrow. cbn [option_map]. msimp.
  unfold orm_assign, commit. msimp. sproj.
  rewrite session_id_orm_view.
  destruct (find_by_session_id _ _ _ Hrow) as [_ ->].
  reflexivity.
Qed.


Lemma has_sysinfo_view d r a b c e f g h i j :
  has_sysinfo r a b c e f g h i j → has_sysinfo (orm_view d r) a b c e f g h i j.
Proof. unfold orm_view. now destruct (bool_decide _). Qed.

Lemma has_sysinfo_with_sysinfo r a b c e f g h i j :
  has_sysinfo (with_sysinfo a b c e f g h i j r) a b c e f g h i j.
Proof. repeat split. Qed.

Lemma find_session_id_map sid (g : AgentRow → AgentRow) l row :
  (∀ r, session_id (g r) = session_id r) →
  List.find (by_session_id sid) l = Some row →
  List.find (by_session_id sid) (List.map g l) = Some (g row).
Proof.
  intros Hg H. rewrite (find_map_ids (by_session_id sid) g), H; [reflexivity|].
  intros r. unfold by_session_id. now rewrite Hg.
Qed.

Lemma option_map_name_pres (g : AgentRow → AgentRow) (o : option AgentRow) :
  (∀ r, name (g r) = name r) → option_map name (option_map g o) = option_map name o.
Proof. intros H. destruct o; [cbn; now rewrite H|reflexivity]. Qed.

Lemma log_writable_ext st st' sid :
  fs st' = fs st → cfg st' = cfg st →
  option_map name (List.find (by_session_id_or_name sid) (db_agents st'))
  = option_map name (List.find (by_session_id_or_name sid) (db_agents st)) →
  log_writable st' sid = log_writable st sid.
Proof.
  intros Hf Hc Hn. unfold log_writable, log_dir, log_file, log_save_path.
  now rewrite Hf, Hc, Hn.
Qed.

Lemma find_or_name_of_id sid l row :
  List.find (by_session_id sid) l = Some row →
  is_Some (List.find (by_session_id_or_name sid) l).
Proof.
  intros H. destruct (find_by_session_id _ _ _ H) as [Hin Hs].
  destruct (List.find (by_session_id_or_name sid) l) eqn:F; [eauto|].
  apply (find_none _ _ F) in Hin. unfold by_session_id_or_name in Hin.
  apply orb_false_iff in Hin as [Hin _]. rewrite Hs, String.eqb_refl in Hin.
  discriminate.
Qed.




Lemma handle_agent_staging_STAGE2 sid language_ additional enc stagingKey opts clientIP :
  handle_agent_staging sid language_ "STAGE2" additional enc stagingKey opts clientIP
  = stage2 sid enc clientIP opts.
Proof. reflexivity. Qed.





(** ** Staging: the first message of a Python agent *)



Lemma find_snoc_fresh sid rows (r : AgentRow) :
  existsb (fun r => String.eqb (session_id r) sid || String.eqb (name r) sid) rows = false →
  session_id r = sid →
  List.find (by_session_id_or_name sid) (snoc rows r) = Some r.
Proof.
  intros Hf Hr. unfold snoc. induction rows as [|x rows IH]; cbn [app List.find].
  - unfold by_session_id_or_name. now rewrite Hr, String.eqb_refl.
  - cbn [existsb] in Hf. apply orb_false_iff in Hf as [Hx Hf].
    unfold by_session_id_or_name at 1. rewrite Hx. now apply IH.
Qed.


(** ** The file sink *)



Lemma get_agent_id_db_run st s :
  get_agent_id_db s st = (st, Ret (option_map session_id (List.find (by_name s) (db_agents st)))).
Proof.
  unfold get_agent_id_db, query_first. msimp.
  destruct (List.find (by_name s) (db_agents st)); [|reflexivity].
  cbn [option_map]. now rewrite session_id_orm_view.
Qed.

Lemma get_language_db_run st s : ∃ l, get_language_db s st = (st, Ret l).
Proof.
  unfold get_language_db, name_to_id. msimp. rewrite (bind_Ret _ _ _ _ _ (get_agent_id_db_run _ _)).
  msimp. unfold query_first. msimp. eexists. reflexivity.
Qed.



(** ** Result posts *)


Lemma for_each_raises {A} (body : A → M unit) done p rest st sa st2 e :
  for_each done body st = (sa, Ret tt) →
  body p sa = (st2, Raise e) →
  for_each (done ++ p :: rest)%list body st = (st2, Raise e).
Proof.
  revert st. induction done as [|a done IH]; intros st Hd Hp.
  - cbn in Hd. injection Hd as <-. cbn [app for_each]. now rewrite (bind_Raise _ _ _ _ _ Hp).
  - cbn [app for_each] in *. unfold bind at 1 in Hd. unfold bind at 1.
    destruct (body a st) as [s' [[]|e']]; [|discriminate]. now apply IH.
Qed.

(** C6, as amended. For a RESULT_POST body of a known agent: when
    decryption or the parsing into result packets fails, the handler emits
    a warning and returns [None], and no packet has had any effect (the
    state is the one after the update of the last-seen time, plus the
    warning). When the dispatch of a packet fails, the handler also emits
    the warning and returns [None], but nothing is undone: the effects of
    the packets before it, and what the failing packet did before it
    raised, stay applied. *)
Theorem result_post_failure (sid enc : string) (update_lastseen : bool)
  (st st1 : State) (info : AgentInfo) :
  agents st !! sid = Some info →
  (if update_lastseen then update_agent_lastseen_db sid else ret tt) st = (st1, Ret tt) →
  let run := handle_agent_response sid enc update_lastseen st in
  (aes_decrypt_and_verify (sessionKey info) enc = None →
   run = (result_warning sid DecryptError st1, Ret None))
  ∧ (∀ body, aes_decrypt_and_verify (sessionKey info) enc = Some body →
       parse_result_packets body = None →
       run = (result_warning sid ValueError st1, Ret None))
  ∧ (∀ body done p rest sa st2 e,
       aes_decrypt_and_verify (sessionKey info) enc = Some body →
       parse_result_packets body = Some (done ++ p :: rest)%list →
       for_each done (dispatch sid) st1 = (sa, Ret tt) →
       dispatch sid p sa = (st2, Raise e) →
       run = (result_warning sid e st2, Ret None)).
Proof.
  intros Hk Hseen run. subst run. unfold handle_agent_response. msimp. rewrite Hk.
  rewrite (bind_Ret _ _ _ _ _ Hseen). unfold try_except.
  split; [|split].
  - intros Hd. rewrite Hd. msimp. reflexivity.
  - intros body Hd Hp. rewrite Hd. msimp. rewrite Hp. msimp. reflexivity.
  - intros body done p rest sa st2 e Hd Hp Hdone Hfail. rewrite Hd. msimp.
    rewrite Hp. msimp.
    rewrite (bind_Raise _ _ _ _ _ (for_each_raises (dispatch sid) _ _ _ _ _ _ _ Hdone Hfail)).
    reflexivity.
Qed.


(** X2 (the part of C1 that holds). When the guard of [save_file] does not
    let the target through, the call returns normally and changes nothing
    but the event log, to which it adds the one warning: no directory is
    made and no file is written. *)
Theorem save_file_refusal_writes_nothing (sessionID : option string)
  (path data filesize : string) (append : bool) (st : State) :
  download_allowed st sessionID path = false →
  save_file sessionID path data filesize append st
  = (set_events (fun l => snoc l
       {| ev_sender := agent_sender (download_session st sessionID);
          ev_print := true;
          ev_message := "[!] WARNING: agent {} attempted skywalker exploit!"
                        +:+ String "010" "[!] attempted overwrite of {} with data {}";
          ev_args := [AStr (download_session st sessionID); AStr path; AStr data];
          ev_extra := [] |}) st, Ret tt).
Proof.
  intros Hno. unfold save_file.
  assert (Hid : (match sessionID with
                 | Some s => get_agent_id_db s
                 | None => ret None
                 end) st
                = (st, Ret (match sessionID with
                            | Some s => option_map session_id
                                          (List.find (by_name s) (db_agents st))
                            | None => None
                            end))).
  { destruct sessionID; [apply get_agent_id_db_run|reflexivity]. }
  rewrite (bind_Ret _ _ _ _ _ Hid). clear Hid.
  set (sid' := match
      match sessionID with
      | Some s => option_map session_id (List.find (by_name s) (db_agents st))
      | None => None
      end with
    | Some i => if Py.truthy i then Some i else sessionID
    | None => sessionID
    end).
  assert (Hsid : str_opt sid' = download_session st sessionID).
  { unfold sid', download_session. destruct sessionID as [s|]; [|reflexivity].
    destruct (List.find (by_name s) (db_agents st)); reflexivity. }
  assert (Hlang : ∃ l, (match sid' with
                        | Some s => get_language_db s
                        | None => ret None
                        end) st = (st, Ret l)).
  { destruct sid'; [apply get_language_db_run|eexists; reflexivity]. }
  destruct Hlang as [lang Hlang]. rewrite (bind_Ret _ _ _ _ _ Hlang). clear Hlang.
  msimp. rewrite Hsid.
  unfold download_allowed, download_path in Hno.
  destruct (save_file_path (installPath (cfg st)) (download_session st sessionID) path)
    as [save_path filename] eqn:Hpath.
  cbn [fst snd] in Hno. rewrite Hno. reflexivity.
Qed.

(** ** Access control by address *)

(** X3. [is_ip_allowed] lets an address through exactly when it is on no
    black list and, if a white list is set, on the white list: the black
    list wins over the white list, and with neither list set every address
    is allowed. *)
Theorem blacklist_wins (ipWhiteList ipBlackList : list string) (ip_address : string) :
  is_ip_allowed ipWhiteList ipBlackList ip_address = true
  ↔ (ipWhiteList = [] ∨ ip_address ∈ ipWhiteList) ∧ ip_address ∉ ipBlackList.
Proof.
  unfold is_ip_allowed.
  destruct ipBlackList as [|b bl], ipWhiteList as [|w wl];
    rewrite ?andb_true_iff, ?negb_true_iff, ?bool_decide_eq_true, ?bool_decide_eq_false.
  - split; [intros _; split; [now left|apply not_elem_of_nil]|reflexivity].
  - split; [intros H; split; [now right|apply not_elem_of_nil]|].
    intros [[H|H] _]; [discriminate|exact H].
  - split; [intros H; split; [now left|exact H]|intros [_ H]; exact H].
  - split; [intros [H1 H2]; split; [now right|exact H2]|].
    intros [[H|H] H2]; [discriminate|split; assumption].
Qed.

(** ** More on the task queue *)

Lemma name_to_id_run st sid : ∃ sid', name_to_id sid st = (st, Ret sid').
Proof.
  unfold name_to_id, get_agent_id_db, query_first. msimp. eexists. reflexivity.
Qed.

(** X7. For an agent that is not in the cache (under the id that its
    name resolves to), [add_agent_task_db] returns [None] and
    [get_agent_tasks_db] returns the empty list, and neither changes the
    state: no task row, no result row and no event, even when the store
    still holds a row and pending tasks for the agent. *)
Theorem inactive_agent_is_not_tasked (sid sid' taskName task : string)
  (moduleName : option string) (uid : option Z) (st : State) :
  name_to_id sid st = (st, Ret sid') →
  agents st !! sid' = None →
  add_agent_task_db sid taskName task moduleName uid st = (st, Ret None)
  ∧ get_agent_tasks_db sid st = (st, Ret []).
Proof.
  intros Hid Hno.
  assert (Hk : bool_decide (is_Some (agents st !! sid')) = false).
  { apply bool_decide_eq_false_2. rewrite Hno. intros [x Hx]. discriminate. }
  split.
  - unfold add_agent_task_db. rewrite (bind_Ret _ _ _ _ _ Hid). msimp.
    now rewrite Hk.
  - unfold get_agent_tasks_db. rewrite (bind_Ret _ _ _ _ _ Hid). msimp.
    now rewrite Hk.
Qed.

Lemma add_agent_task_db_queue st sid tn t m u info row :
  agents st !! sid = Some info → own_name st sid → Py.truthy sid = true →
  debug (cfg st) = false →
  List.find (by_session_id sid) (db_agents st) = Some row →
  ∃ st', add_agent_task_db sid tn t m u st
         = (st', Ret (Some (next_task_id sid (db_taskings st))))
    ∧ agents st' = agents st ∧ cfg st' = cfg st ∧ fs st' = fs st
    ∧ orm_dirty st' = orm_dirty st
    ∧ db_agents st'
      = List.map (fun r =>
          if by_session_id sid r
          then with_taskings
                 (snoc (taskings row)
                    {| task_name := tn; task_data := t;
                       task_id := next_task_id sid (db_taskings st) |}) r
          else r) (db_agents st).
Proof.
  intros Hk Hown Hsid Hdbg Hrow. unfold add_agent_task_db.
  rewrite (bind_Ret _ _ _ _ _ (name_to_id_own _ _ Hown)). msimp.
  rewrite (known_true _ _ _ Hk), Hsid. cbn [negb]. msimp.
  cbn [cfg db_agents db_taskings set_events set_db_taskings set_db_results
       set_db_agents set_db_users].
  rewrite Hdbg, Hrow. msimp.
  eexists. split; [reflexivity|]. cbn. repeat split; eauto.
Qed.

(** X8. Two tasks enqueued for an active agent are handed out by the next
    drain after the tasks that were already waiting, in the order in which
    they were enqueued, each with the id that [add_agent_task_db] returned
    for it. *)
Theorem queue_is_fifo (sid name1 task1 name2 task2 : string)
  (module1 module2 : option string) (uid1 uid2 : option Z)
  (st : State) (row : AgentRow) :
  is_Some (agents st !! sid) → own_name st sid → Py.truthy sid = true →
  debug (cfg st) = false →
  List.find (by_session_id sid) (db_agents st) = Some row →
  sid ∉ orm_dirty st →
  ∃ st1 st2 st3 id1 id2,
    add_agent_task_db sid name1 task1 module1 uid1 st = (st1, Ret (Some id1))
    ∧ add_agent_task_db sid name2 task2 module2 uid2 st1 = (st2, Ret (Some id2))
    ∧ get_agent_tasks_db sid st2
      = (st3, Ret (taskings row
                   ++ [{| task_name := name1; task_data := task1; task_id := id1 |};
                       {| task_name := name2; task_data := task2; task_id := id2 |}])%list).
Proof.
  intros [info Hk] Hown Hsid Hdbg Hrow Hclean.
  destruct (add_agent_task_db_queue st sid name1 task1 module1 uid1 info row
              Hk Hown Hsid Hdbg Hrow) as (st1 & E1 & Ha1 & Hc1 & _ & Hd1 & Hdb1).
  assert (Hown1 : own_name st1 sid).
  { eapply own_name_map; [exact Hdb1| |exact Hown]. intros r. apply with_taskings_if_ids. }
  assert (Hrow1 : List.find (by_session_id sid) (db_agents st1)
                  = Some (with_taskings
                            (snoc (taskings row)
                               {| task_name := name1; task_data := task1;
                                  task_id := next_task_id sid (db_taskings st) |}) row)).
  { rewrite Hdb1.
    rewrite (find_session_id_map sid _ _ row); [| |exact Hrow].
    - apply find_some in Hrow as [_ Hb]. now rewrite Hb.
    - intros r. apply with_taskings_if_ids. }
  assert (Hk1 : agents st1 !! sid = Some info) by now rewrite Ha1.
  assert (Hdbg1 : debug (cfg st1) = false) by now rewrite Hc1.
  destruct (add_agent_task_db_queue st1 sid name2 task2 module2 uid2 info _
              Hk1 Hown1 Hsid Hdbg1 Hrow1) as (st2 & E2 & Ha2 & Hc2 & _ & Hd2 & Hdb2).
  assert (Hown2 : own_name st2 sid).
  { eapply own_name_map; [exact Hdb2| |exact Hown1]. intros r. apply with_taskings_if_ids. }
  cbn [taskings with_taskings] in Hdb2.
  match type of Hdb2 with _ = List.map ?g _ =>
    pose proof (find_session_id_map sid g _ _
                  (fun r => proj2 (with_taskings_if_ids sid _ r)) Hrow1) as Hrow2
  end.
  rewrite <- Hdb2 in Hrow2.
  assert (Hk2 : agents st2 !! sid = Some info) by now rewrite Ha2.
  destruct (get_agent_tasks_db_run st2 sid info _ Hk2 Hown2 Hrow2) as (st3 & E3 & _).
  exists st1, st2, st3. do 2 eexists.
  split; [exact E1|]. split; [exact E2|]. rewrite E3. do 2 f_equal.
  destruct (find_by_session_id _ _ _ Hrow) as [_ Hs].
  rewrite orm_view_clean.
  - assert (Hb : by_session_id sid (with_taskings
                            (snoc (taskings row)
                               {| task_name := name1; task_data := task1;
                                  task_id := next_task_id sid (db_taskings st) |}) row) = true).
    { apply find_some in Hrow as [_ Hb]. exact Hb. }
    rewrite Hb. cbn [taskings with_taskings]. unfold snoc.
    now rewrite <- app_assoc.
  - rewrite Hd2, Hd1.
    destruct (by_session_id sid _); cbn [session_id with_taskings]; now rewrite Hs.
Qed.

Lemma find_or_name_own st sid :
  own_name st sid →
  List.find (by_session_id_or_name sid) (db_agents st)
  = List.find (by_session_id sid) (db_agents st).
Proof.
  unfold own_name. induction (db_agents st) as [|r l IH]; intros Hown; [reflexivity|].
  cbn [List.find]. unfold by_session_id_or_name, by_session_id at 1.
  destruct (String.eqb (session_id r) sid) eqn:Es; [reflexivity|].
  destruct (String.eqb (name r) sid) eqn:En.
  - apply String.eqb_eq in En. apply String.eqb_neq in Es.
    exfalso. apply Es. apply Hown; [now left|exact En].
  - cbn [orb]. apply IH. intros r' Hin. apply Hown. now right.
Qed.

(** The state after the assignments [f] to the attributes of the agent
    [sid] were committed. *)
Lemma commit_assign_facts st sid f row :
  (∀ r, name (f r) = name r ∧ session_id (f r) = session_id r) →
  own_name st sid →
  List.find (by_session_id sid) (db_agents st) = Some row →
  let st' :=
    set_orm_dirty (fun _ => [])
      (set_db_agents (fun l => List.map (orm_view (orm_dirty st))
         (List.map (fun r => if String.eqb (session_id r) sid then f r else r) l)) st) in
  own_name st' sid
  ∧ List.find (by_session_id sid) (db_agents st') = Some (orm_view (orm_dirty st) (f row)).
Proof.
  intros Hf Hown Hrow st'. subst st'. sproj.
  assert (Hg : ∀ r, name (orm_view (orm_dirty st)
                            (if String.eqb (session_id r) sid then f r else r)) = name r
                    ∧ session_id (orm_view (orm_dirty st)
                            (if String.eqb (session_id r) sid then f r else r))
                      = session_id r).
  { intros r. rewrite name_orm_view, session_id_orm_view.
    destruct (String.eqb (session_id r) sid); [apply Hf|now split]. }
  split.
  - intros r Hin Hn. sproj. rewrite List.map_map in Hin.
    apply in_map_iff in Hin as (r0 & <- & Hin0).
    destruct (Hg r0) as [Hn0 Hs0]. rewrite Hs0. apply Hown; [exact Hin0|congruence].
  - rewrite List.map_map.
    rewrite (find_session_id_map sid _ _ row (fun r => proj2 (Hg r)) Hrow).
    destruct (find_by_session_id _ _ _ Hrow) as [_ Hs].
    apply String.eqb_eq in Hs. now rewrite Hs.
Qed.

Lemma restart_facts st sid row :
  own_name st sid →
  List.find (by_session_id sid) (db_agents st) = Some row →
  is_Some (agents (restart st) !! sid) ∧ own_name (restart st) sid
  ∧ List.find (by_session_id sid) (db_agents (restart st)) = Some row
  ∧ orm_dirty (restart st) = [].
Proof.
  intros Hown Hrow. destruct (find_by_session_id _ _ _ Hrow) as [Hin Hs].
  split; [|repeat split; assumption].
  apply Agents_init_known. right. exists row. split; assumption.
Qed.

Lemma update_agent_lastseen_db_run st sid row :
  own_name st sid →
  List.find (by_session_id sid) (db_agents st) = Some row →
  update_agent_lastseen_db sid st
  = (set_orm_dirty (fun _ => [])
       (set_db_agents (fun l => List.map (orm_view (orm_dirty st))
          (List.map (fun r => if String.eqb (session_id r) sid
                              then with_lastseen_time (clock st) r else r) l))
          st), Ret tt).
Proof.
  intros Hown Hrow. unfold update_agent_lastseen_db, query_first. msimp.
  rewrite (find_or_name_own _ _ Hown), Hrow. cbn [option_map]. msimp.
  unfold orm_assign, commit. msimp. rewrite session_id_orm_view.
  destruct (find_by_session_id _ _ _ Hrow) as [_ ->]. reflexivity.
Qed.

(** X10. The clearing of the queue that [get_agent_tasks_db] leaves
    pending reaches the store with the next commit: once
    [update_agent_lastseen_db] has run for the agent, the drained tasks are
    handed out neither by a further drain nor after a restart. *)
Theorem next_checkin_persists_drain (sid : string) (row : AgentRow) (st : State) :
  is_Some (agents st !! sid) → own_name st sid →
  List.find (by_session_id sid) (db_agents st) = Some row →
  taskings row ≠ [] → sid ∉ orm_dirty st →
  ∃ st1 st2, get_agent_tasks_db sid st = (st1, Ret (taskings row))
    ∧ update_agent_lastseen_db sid st1 = (st2, Ret tt)
    ∧ snd (get_agent_tasks_db sid st2) = Ret []
    ∧ snd (get_agent_tasks_db sid (restart st2)) = Ret [].
Proof.
  intros [info Hk] Hown Hrow Hne Hclean.
  destruct (find_by_session_id _ _ _ Hrow) as [Hin Hsid].
  assert (Hview : orm_view (orm_dirty st) row = row)
    by (apply orm_view_clean; now rewrite Hsid).
  unfold get_agent_tasks_db at 1.
  rewrite (bind_Ret _ _ _ _ _ (name_to_id_own _ _ Hown)). msimp.
  rewrite (known_true _ _ _ Hk). cbn [negb]. unfold query_first. msimp.
  rewrite Hrow. cbn [option_map]. msimp. rewrite Hview.
  destruct (taskings row) as [|t ts] eqn:Ht; [contradiction|]. msimp.
  rewrite ?session_id_orm_view, ?Hsid.
  set (st1 := set_orm_dirty (fun l => sid :: l) st).
  assert (Hown1 : own_name st1 sid) by exact Hown.
  assert (Hrow1 : List.find (by_session_id sid) (db_agents st1) = Some row) by exact Hrow.
  exists st1. eexists. split; [reflexivity|].
  split; [apply (update_agent_lastseen_db_run st1 sid row Hown1 Hrow1)|].
  destruct (commit_assign_facts st1 sid (with_lastseen_time (clock st1)) row
              (fun r => conj eq_refl eq_refl) Hown1 Hrow1) as [Hown2 Hrow2].
  cbv zeta in Hown2, Hrow2.
  assert (Ht2 : taskings (orm_view (orm_dirty st1) (with_lastseen_time (clock st1) row)) = []).
  { apply orm_view_dirty. cbn. rewrite Hsid. apply list_elem_of_In. now left. }
  split.
  - match goal with |- snd (get_agent_tasks_db sid ?s) = _ =>
      destruct (get_agent_tasks_db_run s sid info _ Hk Hown2 Hrow2) as (s3 & -> & _) end.
    cbn [snd]. unfold orm_view at 1.
    destruct (bool_decide _); [reflexivity|now rewrite Ht2].
  - match goal with |- snd (get_agent_tasks_db sid (restart ?s)) = _ =>
      destruct (restart_facts s sid _ Hown2 Hrow2) as ([info' Hk'] & Hown3 & Hrow3 & Hd3) end.
    match goal with |- snd (get_agent_tasks_db sid ?s) = _ =>
      destruct (get_agent_tasks_db_run s sid info' _ Hk' Hown3 Hrow3) as (s3 & -> & _) end.
    cbn [snd]. unfold orm_view at 1.
    destruct (bool_decide _); [reflexivity|now rewrite Ht2].
Qed.

(** X11. [clear_agent_tasks_db] empties the queue of the agent in the
    store (its commit is called): the next drain returns no task, before and
    after a restart. The rows of the tables [taskings] and [results] stay. *)
Theorem cleared_queue_stays_empty (sid : string) (row : AgentRow) (st : State) :
  is_Some (agents st !! sid) → own_name st sid →
  List.find (by_session_id sid) (db_agents st) = Some row →
  ∃ st', clear_agent_tasks_db sid st = (st', Ret tt)
    ∧ snd (get_agent_tasks_db sid st') = Ret []
    ∧ snd (get_agent_tasks_db sid (restart st')) = Ret []
    ∧ db_taskings st' = db_taskings st ∧ db_results st' = db_results st.
Proof.
  intros [info Hk] Hown Hrow.
  destruct (find_by_session_id _ _ _ Hrow) as [Hin Hsid].
  unfold clear_agent_tasks_db, query_first. msimp.
  rewrite (find_or_name_own _ _ Hown), Hrow. cbn [option_map]. msimp.
  unfold orm_assign, commit. msimp. rewrite session_id_orm_view, Hsid.
  unfold send, modify.
  eexists. split; [reflexivity|].
  destruct (commit_assign_facts st sid (with_taskings []) row
              (fun r => conj eq_refl eq_refl) Hown Hrow) as [Hown2 Hrow2].
  cbv zeta in Hown2, Hrow2.
  assert (Ht2 : taskings (orm_view (orm_dirty st) (with_taskings [] row)) = []).
  { unfold orm_view. now destruct (bool_decide _). }
  split; [|split; [|split; reflexivity]].
  - match goal with |- snd (get_agent_tasks_db sid ?s) = _ =>
      destruct (get_agent_tasks_db_run s sid info _ Hk Hown2 Hrow2) as (s3 & -> & _) end.
    cbn [snd]. unfold orm_view at 1.
    destruct (bool_decide _); [reflexivity|now rewrite Ht2].
  - match goal with |- snd (get_agent_tasks_db sid (restart ?s)) = _ =>
      destruct (restart_facts s sid _ Hown2 Hrow2) as ([info' Hk'] & Hown3 & Hrow3 & Hd3) end.
    match goal with |- snd (get_agent_tasks_db sid ?s) = _ =>
      destruct (get_agent_tasks_db_run s sid info' _ Hk' Hown3 Hrow3) as (s3 & -> & _) end.
    cbn [snd]. unfold orm_view at 1.
    destruct (bool_decide _); [reflexivity|now rewrite Ht2].
Qed.

Lemma clear_loop l :
  ∀ st, ∃ st',
    for_each l (fun agent =>
      modify (set_db_agents (List.map (fun r =>
        if by_session_id (session_id agent) r then with_taskings [] r else r)))) st
    = (st', Ret tt)
    ∧ agents st' = agents st
    ∧ db_agents st' = List.map (cleared_for l) (db_agents st).
Proof.
  induction l as [|a l IH]; intros st; cbn [for_each].
  - exists st. split; [reflexivity|]. split; [reflexivity|].
    unfold cleared_for. cbn [existsb]. now rewrite List.map_id.
  - msimp.
    destruct (IH (set_db_agents (List.map (fun r =>
                if by_session_id (session_id a) r then with_taskings [] r else r)) st))
      as (st' & E & Ha & Hdb).
    exists st'. split; [exact E|]. split; [exact Ha|].
    rewrite Hdb. sproj. rewrite List.map_map. apply List.map_ext. intros r.
    unfold cleared_for. cbn [existsb].
    destruct (by_session_id (session_id a) r) eqn:Ea; cbn [orb].
    + unfold by_session_id. cbn [session_id with_taskings].
      now destruct (existsb _ l).
    + reflexivity.
Qed.

Lemma filter_filter_nil {A} (p q : A → bool) (l : list A) :
  (∀ x, In x l → p x = true → q x = false) →
  List.filter q (List.filter p l) = [].
Proof.
  induction l as [|x l IH]; intros H; [reflexivity|]. cbn [List.filter].
  destruct (p x) eqn:Ep.
  - cbn [List.filter]. rewrite (H x (or_introl eq_refl) Ep). apply IH.
    intros y Hy. apply H. now right.
  - apply IH. intros y Hy. apply H. now right.
Qed.

(** X12. [get_agent_tasks_listener_db] returns, for each agent of the
    listener that has tasks, its session id with its tasks, in the order of
    the rows; afterwards no agent of that listener has a task in the store,
    the cache is as before, and a second call returns the empty list and
    changes nothing. *)
Theorem listener_drain_hands_out_once (listenerName : string) (st : State) :
  ∃ st',
    get_agent_tasks_listener_db listenerName st
    = (st', Ret (List.map (fun r => (session_id r, taskings r))
                   (List.filter has_taskings
                      (List.filter (fun r => String.eqb (listener r) listenerName)
                         (db_agents st)))))
    ∧ agents st' = agents st
    ∧ (∀ r, In r (db_agents st') → listener r = listenerName → taskings r = [])
    ∧ get_agent_tasks_listener_db listenerName st' = (st', Ret []).
Proof.
  unfold get_agent_tasks_listener_db at 1. msimp.
  set (tasked := List.filter has_taskings
                   (List.filter (fun r => String.eqb (listener r) listenerName)
                      (db_agents st))).
  destruct (clear_loop tasked st) as (st' & E & Ha & Hdb).
  rewrite (bind_Ret _ _ _ _ _ E). msimp.
  exists st'. split; [reflexivity|]. split; [exact Ha|].
  assert (Hall : ∀ r, In r (db_agents st') → listener r = listenerName → taskings r = []).
  { intros r' Hin Hl. rewrite Hdb in Hin. apply in_map_iff in Hin as (r & <- & Hin).
    unfold cleared_for in *.
    destruct (existsb _ tasked) eqn:Ex; [reflexivity|].
    destruct (taskings r) as [|t ts] eqn:Ht; [reflexivity|].
    exfalso. apply Bool.not_true_iff_false in Ex. apply Ex.
    apply existsb_exists. exists r. split.
    - apply filter_In. split.
      + apply filter_In. split; [exact Hin|]. now apply String.eqb_eq.
      + unfold has_taskings. now rewrite Ht.
    - unfold by_session_id. apply String.eqb_refl. }
  split; [exact Hall|].
  unfold get_agent_tasks_listener_db. msimp.
  rewrite filter_filter_nil; [reflexivity|].
  intros r Hin Hl. apply String.eqb_eq in Hl.
  unfold has_taskings. now rewrite (Hall r Hin Hl).
Qed.

(** ** Tasking requests *)

Lemma get_agent_tasks_db_pending st sid info row ts :
  agents st !! sid = Some info → own_name st sid →
  List.find (by_session_id sid) (db_agents st) = Some row →
  taskings (orm_view (orm_dirty st) row) = ts → ts ≠ [] →
  get_agent_tasks_db sid st = (set_orm_dirty (fun l => sid :: l) st, Ret ts).
Proof.
  intros Hk Hown Hrow Ht Hne. unfold get_agent_tasks_db.
  rewrite (bind_Ret _ _ _ _ _ (name_to_id_own _ _ Hown)). msimp.
  rewrite (known_true _ _ _ Hk). cbn [negb]. unfold query_first. msimp.
  rewrite Hrow. cbn [option_map]. msimp. rewrite Ht.
  destruct ts; [contradiction|].
  msimp. rewrite session_id_orm_view.
  destruct (find_by_session_id _ _ _ Hrow) as [_ ->]. reflexivity.
Qed.

Lemma get_agent_tasks_db_empty st sid info row :
  agents st !! sid = Some info → own_name st sid →
  List.find (by_session_id sid) (db_agents st) = Some row →
  taskings (orm_view (orm_dirty st) row) = [] →
  get_agent_tasks_db sid st = (st, Ret []).
Proof.
  intros Hk Hown Hrow Ht. unfold get_agent_tasks_db.
  rewrite (bind_Ret _ _ _ _ _ (name_to_id_own _ _ Hown)). msimp.
  rewrite (known_true _ _ _ Hk). cbn [negb]. unfold query_first. msimp.
  rewrite Hrow. cbn [option_map]. msimp. now rewrite Ht.
Qed.

(** X13. For an active agent with waiting tasks, [handle_agent_request]
    answers with the routing packet [SERVER_RESPONSE] whose payload is the
    encryption, under the agent's session key, of the task packets of the
    waiting tasks concatenated in queue order; the request that follows
    gets [None]. *)
Theorem request_delivers_queue_once (sid language_ stagingKey : string)
  (update_lastseen : bool) (st : State) (info : AgentInfo) (row : AgentRow) :
  agents st !! sid = Some info → own_name st sid →
  List.find (by_session_id sid) (db_agents st) = Some row →
  taskings row ≠ [] → sid ∉ orm_dirty st →
  ∃ st',
    handle_agent_request sid language_ stagingKey update_lastseen st
    = (st', Ret (Some (build_routing_packet stagingKey sid language_ "SERVER_RESPONSE"
                   (aes_encrypt_then_hmac (seed st) (sessionKey info)
                      (fold_left (fun acc t =>
                         acc +:+ build_task_packet (task_name t) (task_data t) (task_id t))
                         (taskings row) "")))))
    ∧ snd (handle_agent_request sid language_ stagingKey update_lastseen st') = Ret None.
Proof.
  intros Hk Hown Hrow Hne Hclean.
  destruct (find_by_session_id _ _ _ Hrow) as [Hin Hsid].
  assert (Hview : orm_view (orm_dirty st) row = row)
    by (apply orm_view_clean; now rewrite Hsid).
  destruct update_lastseen.
  - (* the last-seen time is written first, with a commit *)
    destruct (commit_assign_facts st sid (with_lastseen_time (clock st)) row
                (fun r => conj eq_refl eq_refl) Hown Hrow) as [Hown1 Hrow1].
    cbv zeta in Hown1, Hrow1.
    rewrite (orm_view_clean (orm_dirty st)) in Hrow1 by (cbn; now rewrite Hsid).
    unfold handle_agent_request at 1. msimp. rewrite Hk.
    rewrite (bind_Ret _ _ _ _ _ (update_agent_lastseen_db_run st sid row Hown Hrow)).
    match goal with |- context [bind (get_agent_tasks_db sid) _ ?s] =>
      rewrite (bind_Ret _ _ _ _ _
                 (get_agent_tasks_db_pending s sid info _ (taskings row) Hk Hown1 Hrow1
                    ltac:(sproj; now rewrite (orm_view_clean []) by apply not_elem_of_nil)
                    Hne))
    end.
    destruct (taskings row) as [|t ts] eqn:Ht; [contradiction|].
    msimp. sproj. rewrite Hk. msimp.
    eexists. split; [reflexivity|].
    unfold handle_agent_request. msimp. sproj. rewrite Hk.
    match goal with |- context [bind (update_agent_lastseen_db sid) _ ?s] =>
      assert (Hown2 : own_name s sid) by exact Hown1;
      assert (Hrow2 : List.find (by_session_id sid) (db_agents s)
                      = Some (with_lastseen_time (clock st) row)) by exact Hrow1;
      rewrite (bind_Ret _ _ _ _ _ (update_agent_lastseen_db_run s sid _ Hown2 Hrow2));
      destruct (commit_assign_facts s sid (with_lastseen_time (clock s)) _
                  (fun r => conj eq_refl eq_refl) Hown2 Hrow2) as [Hown3 Hrow3]
    end.
    cbv zeta in Hown3, Hrow3.
    match goal with |- context [bind (get_agent_tasks_db sid) _ ?s] =>
      rewrite (bind_Ret _ _ _ _ _
                 (get_agent_tasks_db_empty s sid info _ Hk Hown3 Hrow3
                    ltac:(sproj; rewrite (orm_view_clean []) by apply not_elem_of_nil;
                          apply orm_view_dirty; cbn; rewrite Hsid;
                          apply list_elem_of_In; now left)))
    end.
    reflexivity.
  - unfold handle_agent_request at 1. msimp. rewrite Hk. msimp.
    rewrite (bind_Ret _ _ _ _ _
               (get_agent_tasks_db_pending st sid info row (taskings row) Hk Hown Hrow
                  ltac:(now rewrite Hview) Hne)).
    destruct (taskings row) as [|t ts] eqn:Ht; [contradiction|].
    msimp. sproj. rewrite Hk. msimp.
    eexists. split; [reflexivity|].
    unfold handle_agent_request. msimp. sproj. rewrite Hk. msimp.
    match goal with |- context [bind (get_agent_tasks_db sid) _ ?s] =>
      rewrite (bind_Ret _ _ _ _ _
                 (get_agent_tasks_db_empty s sid info row Hk Hown Hrow
                    ltac:(sproj; apply orm_view_dirty; rewrite Hsid;
                          apply list_elem_of_In; now left)))
    end.
    reflexivity.
Qed.

(** ** Routing packets *)

Lemma handle_frames_count stagingKey opts clientIP upd frames :
  ∀ st st' rs,
    handle_frames stagingKey opts clientIP upd frames st = (st', Ret rs) →
    (List.length rs <= List.length frames)%nat.
Proof.
  induction frames as [|[sid f] frames IH]; intros st st' rs H; cbn [handle_frames] in H.
  - inversion H. cbn. lia.
  - unfold bind at 1 in H.
    destruct (handle_frame stagingKey opts clientIP upd sid f st) as [s1 [r|e]];
      [|discriminate].
    unfold bind at 1 in H.
    destruct (handle_frames stagingKey opts clientIP upd frames s1) as [s2 [rs'|e]] eqn:E;
      [|discriminate].
    apply IH in E. inversion H. subst. destruct r; cbn [List.length]; lia.
Qed.

(** X14. For a body of at least 20 bytes, whenever [handle_agent_data]
    returns, it returns a list, never [None]: the single reply
    [('', 'ERROR: invalid routing packet')] with the state untouched when
    the packet does not parse or holds no frame, and otherwise at most one
    reply per frame. *)
Theorem replies_never_exceed_frames (stagingKey routingPacket : string)
  (opts : ListenerOptions) (clientIP : string) (update_lastseen : bool)
  (st st' : State) (r : option (list (string * Reply))) :
  (20 <= String.length routingPacket)%nat →
  handle_agent_data stagingKey routingPacket opts clientIP update_lastseen st
  = (st', Ret r) →
  ∃ rs, r = Some rs
    ∧ match parse_routing_packet stagingKey routingPacket with
      | Some (f :: frames) => (List.length rs <= List.length (f :: frames))%nat
      | _ => rs = [("", Some "ERROR: invalid routing packet")] ∧ st' = st
      end.
Proof.
  intros Hlen H. unfold handle_agent_data in H.
  apply Nat.ltb_ge in Hlen. rewrite Hlen in H.
  destruct (parse_routing_packet stagingKey routingPacket) as [[|f frames]|].
  - inversion H. eauto.
  - unfold bind in H.
    destruct (handle_frames _ _ _ _ (f :: frames) st) as [s1 [rs|e]] eqn:E; [|discriminate].
    inversion H. subst. exists rs. split; [reflexivity|].
    exact (handle_frames_count _ _ _ _ _ _ _ _ E).
  - inversion H. eauto.
Qed.

(** X15. A routing packet with one frame that is not a staging frame,
    from a session id that is not in the cache, is answered with
    ['ERROR: sessionID ... not in cache!'] under the empty language; the
    only change of state is one log-only event. *)
Theorem unknown_session_gets_error (stagingKey routingPacket : string)
  (opts : ListenerOptions) (clientIP : string) (update_lastseen : bool)
  (st : State) (sid : string) (f : Frame) :
  (20 <= String.length routingPacket)%nat →
  parse_routing_packet stagingKey routingPacket = Some [(sid, f)] →
  fr_meta f ≠ "STAGE0" → fr_meta f ≠ "STAGE1" → fr_meta f ≠ "STAGE2" →
  agents st !! sid = None →
  handle_agent_data stagingKey routingPacket opts clientIP update_lastseen st
  = (set_events (fun l => snoc l
       {| ev_sender := agent_sender sid; ev_print := false;
          ev_message := "[!] handle_agent_data(): sessionID {} not present";
          ev_args := [AStr sid]; ev_extra := [] |}) st,
     Ret (Some [("", Some ("ERROR: sessionID " +:+ sid +:+ " not in cache!"))])).
Proof.
  intros Hlen Hp H0 H1 H2 Hno. unfold handle_agent_data.
  apply Nat.ltb_ge in Hlen. rewrite Hlen, Hp.
  cbn [handle_frames]. unfold handle_frame. msimp.
  apply String.eqb_neq in H0, H1, H2. rewrite H0, H1, H2. cbn [orb].
  rewrite bool_decide_eq_false_2 by (rewrite Hno; intros [x Hx]; discriminate).
  cbn [negb]. msimp. reflexivity.
Qed.

(** X16. A routing packet whose first frame is a [STAGE2] frame of a
    session id that is not in the cache makes [handle_agent_data] raise
    [KeyError] instead of returning an error reply: the lookup of the
    session key is outside the [try] block of the staging handler. The only
    change of state is the log-only event that announces the frame. *)
Theorem stage2_of_unknown_session_raises (stagingKey routingPacket : string)
  (opts : ListenerOptions) (clientIP : string) (update_lastseen : bool)
  (st : State) (sid : string) (f : Frame) (rest : list (string * Frame)) :
  (20 <= String.length routingPacket)%nat →
  parse_routing_packet stagingKey routingPacket = Some ((sid, f) :: rest) →
  fr_meta f = "STAGE2" →
  agents st !! sid = None →
  handle_agent_data stagingKey routingPacket opts clientIP update_lastseen st
  = (set_events (fun l => snoc l
       {| ev_sender := agent_sender sid; ev_print := false;
          ev_message := "[*] handle_agent_data(): sessionID {} issued a {} request";
          ev_args := [AStr sid; AStr "STAGE2"]; ev_extra := [] |}) st,
     Raise KeyError).
Proof.
  intros Hlen Hp Hm Hno. unfold handle_agent_data.
  apply Nat.ltb_ge in Hlen. rewrite Hlen, Hp.
  cbn [handle_frames]. unfold handle_frame. msimp. rewrite Hm.
  cbn [String.eqb Ascii.eqb Bool.eqb orb andb]. msimp.
  rewrite handle_agent_staging_STAGE2. unfold stage2. msimp. sproj.
  rewrite Hno. msimp. reflexivity.
Qed.

(** ** Staging: the first message of a PowerShell agent *)

Lemma handle_agent_staging_STAGE1_powershell sid language_ additional enc stagingKey opts
  clientIP message st :
  Py.lower language_ = "powershell" →
  aes_decrypt_and_verify stagingKey enc = Some message →
  handle_agent_staging sid language_ "STAGE1" additional enc stagingKey opts clientIP st
  = stage1_powershell sid clientIP opts message
      (set_events (fun l => snoc l
         {| ev_sender := agent_sender sid; ev_print := false;
            ev_message := "[*] Agent {} from {} posted public key";
            ev_args := [AStr sid; AStr clientIP]; ev_extra := [] |}) st).
Proof.
  intros Hl Hd. unfold handle_agent_staging. cbn [String.eqb Ascii.eqb Bool.eqb].
  msimp. rewrite Hd, Hl. reflexivity.
Qed.

(** X17. For a STAGE1 message of a PowerShell agent whose plaintext
    decrypts: bytes that are not UTF-8 raise [UnicodeDecodeError]; a key
    that, stripped of its non-printable characters, is shorter than 400
    characters, does not end with [</RSAKeyValue>] or is not accepted by
    [rsa_xml_to_key] is answered with an error string; in these cases no
    agent is added. Otherwise, for a session id that is not taken, the
    handler adds a row and a cache entry with a generated session key and a
    fresh nonce and replies with the RSA encryption of the nonce followed by
    the session key. *)
Theorem stage1_powershell_handshake (sid language_ additional enc stagingKey : string)
  (opts : ListenerOptions) (clientIP : string) (st : State) (message : string) :
  Py.lower language_ = "powershell" →
  aes_decrypt_and_verify stagingKey enc = Some message →
  let run := handle_agent_staging sid language_ "STAGE1" additional enc stagingKey
               opts clientIP st in
  (Py.decode message = None →
   snd run = Raise UnicodeDecodeError
   ∧ db_agents (fst run) = db_agents st ∧ agents (fst run) = agents st)
  ∧ (∀ text, Py.decode message = Some text →
       let xml := Py.filter_printable text in
       (((String.length xml < 400)%nat ∨ Py.endswith xml "</RSAKeyValue>" = false
         ∨ rsa_xml_to_key xml = None) →
        (∃ reply, snd run = Ret (Some reply) ∧ Py.startswith reply "ERROR" = true)
        ∧ db_agents (fst run) = db_agents st ∧ agents (fst run) = agents st)
       ∧ (∀ rsaKey,
            (400 <= String.length xml)%nat → Py.endswith xml "</RSAKeyValue>" = true →
            rsa_xml_to_key xml = Some rsaKey →
            fresh_session st sid →
            let nonce_ := random_string (seed st) 16 in
            let key := generate_aes_key (S (seed st)) in
            snd run = Ret (Some (rsa_encrypt (S (S (seed st))) rsaKey
                                   (encode_ascii_ignore (nonce_ +:+ key))))
            ∧ (∃ r, In r (db_agents (fst run)) ∧ session_id r = sid
                  ∧ session_key r = key ∧ nonce r = nonce_)
            ∧ agents (fst run) !! sid
              = Some {| sessionKey := key; functions := FnList [] |})).
Proof.
  intros Hl Hd run. subst run.
  rewrite (handle_agent_staging_STAGE1_powershell _ _ _ _ _ _ _ _ _ Hl Hd).
  unfold stage1_powershell. split.
  - intros Hno. rewrite Hno. msimp. cbn [fst snd]. repeat split.
  - intros text Htext. rewrite Htext. msimp. split.
    + intros Hbad.
      destruct (Nat.ltb (String.length (Py.filter_printable text)) 400
                || negb (Py.endswith (Py.filter_printable text) "</RSAKeyValue>")) eqn:Hg.
      * msimp. cbn [fst snd]. split; [eexists; split; reflexivity|]. split; reflexivity.
      * apply orb_false_iff in Hg as [H1 H2]. apply Nat.ltb_ge in H1.
        apply negb_false_iff in H2.
        destruct Hbad as [Hb|[Hb|Hb]]; [lia|congruence|]. rewrite Hb. msimp.
        cbn [fst snd]. split; [eexists; split; reflexivity|]. split; reflexivity.
    + intros rsaKey Hlen Hend Hkey Hfresh.
      assert (H1 : Nat.ltb (String.length (Py.filter_printable text)) 400 = false)
        by (apply Nat.ltb_ge; lia).
      rewrite H1, Hend. cbn [orb negb]. rewrite Hkey. msimp.
      unfold stage1_add_agent, add_agent. msimp. sproj.
      unfold fresh_session in Hfresh. rewrite Hfresh. unfold commit. msimp. sproj.
      assert (Hfind : List.find (by_session_id_or_name sid)
                (List.map (orm_view (orm_dirty st))
                   (snoc (db_agents st)
                      {| name := sid; session_id := sid; delay := lo_DefaultDelay opts;
                         jitter := lo_DefaultJitter opts; external_ip := clientIP;
                         session_key := generate_aes_key (S (seed st));
                         nonce := random_string (seed st) 16;
                         checkin_time := clock st; lastseen_time := clock st;
                         profile := if Py.truthy (lo_DefaultProfile opts)
                                    then lo_DefaultProfile opts else default_profile;
                         kill_date := lo_KillDate opts;
                         working_hours := lo_WorkingHours opts;
                         lost_limit := lo_DefaultLostLimit opts;
                         listener := lo_Name opts; language := "";
                         internal_ip := None; username := None; hostname := None;
                         os_details := None; high_integrity := None;
                         process_name := None; process_id := None;
                         language_version := None; taskings := [];
                         results := None; functions_db := None |}))
              = Some (orm_view (orm_dirty st)
                      {| name := sid; session_id := sid; delay := lo_DefaultDelay opts;
                         jitter := lo_DefaultJitter opts; external_ip := clientIP;
                         session_key := generate_aes_key (S (seed st));
                         nonce := random_string (seed st) 16;
                         checkin_time := clock st; lastseen_time := clock st;
                         profile := if Py.truthy (lo_DefaultProfile opts)
                                    then lo_DefaultProfile opts else default_profile;
                         kill_date := lo_KillDate opts;
                         working_hours := lo_WorkingHours opts;
                         lost_limit := lo_DefaultLostLimit opts;
                         listener := lo_Name opts; language := "";
                         internal_ip := None; username := None; hostname := None;
                         os_details := None; high_integrity := None;
                         process_name := None; process_id := None;
                         language_version := None; taskings := [];
                         results := None; functions_db := None |})).
      { rewrite (find_map_ids (by_session_id_or_name sid) (orm_view (orm_dirty st)))
          by (intros r; unfold by_session_id_or_name;
              now rewrite session_id_orm_view, name_orm_view).
        rewrite (find_snoc_fresh sid) by first [exact Hfresh | reflexivity].
        reflexivity. }
      assert (Hkeyv : ∀ d r, session_key (orm_view d r) = session_key r).
      { intros d r. unfold orm_view. now destruct (bool_decide _). }
      destruct (socketio (cfg st)) eqn:Hsio.
      * unfold get_agent_db. msimp. sproj. rewrite Hfind. msimp.
        unfold get_agent_session_key_db, query_first. msimp. sproj.
        rewrite Hfind. cbn [option_map]. rewrite !Hkeyv. cbn [session_key str_opt default].
        cbn [fst snd]. sproj. split; [reflexivity|]. split.
        -- eexists. split; [apply in_map, in_or_app; right; left; reflexivity|].
           rewrite session_id_orm_view. unfold orm_view.
           destruct (bool_decide _); repeat split.
        -- apply lookup_insert_eq.
      * msimp. unfold get_agent_session_key_db, query_first. msimp. sproj.
        rewrite Hfind. cbn [option_map]. rewrite !Hkeyv. cbn [session_key str_opt default].
        cbn [fst snd]. sproj. split; [reflexivity|]. split.
        -- eexists. split; [apply in_map, in_or_app; right; left; reflexivity|].
           rewrite session_id_orm_view. unfold orm_view.
           destruct (bool_decide _); repeat split.
        -- apply lookup_insert_eq.
Qed.

(** ** The agent log *)

Lemma to_text_run d text st : text_of d = Some text → to_text d st = (st, Ret text).
Proof. destruct d; cbn; intros H; [now inversion H|now rewrite H]. Qed.

Lemma write_append f p d f' :
  Fs.write f p true d = inl f' →
  f' = {| fs_dirs := fs_dirs f;
          fs_files := <[p := default "" (fs_files f !! p) +:+ d]> (fs_files f) |}.
Proof.
  unfold Fs.write. destruct (Fs.is_dir f p); [discriminate|].
  destruct (existsb _ _); [discriminate|].
  destruct (negb _); [discriminate|]. now intros [= <-].
Qed.

Lemma save_agent_log_appends st sid d text :
  text_of d = Some text →
  log_writable st sid = true →
  ∃ dirs,
    save_agent_log sid d st
    = (set_fs (fun _ =>
         {| fs_dirs := dirs;
            fs_files := <[log_file st sid :=
                            default "" (fs_files (fs st) !! log_file st sid)
                            +:+ log_entry (clock st) text]> (fs_files (fs st)) |}) st,
       Ret tt).
Proof.
  unfold log_writable, log_dir, log_file, log_save_path, log_entry. intros Ht Hw.
  unfold save_agent_log. rewrite (bind_Ret _ _ _ _ _ (to_text_run _ _ _ Ht)).
  unfold get_agent_name_db, query_first. msimp.
  rewrite option_map_name_view.
  unfold path_exists, resolve_path. msimp.
  destruct (Fs.exists_ (fs st) _) eqn:Hex.
  - msimp. unfold write_file, resolve_path. msimp.
    destruct (Fs.write (fs st) _ true "") as [f1|e] eqn:Hwr; [|discriminate].
    destruct (write_any_data _ _ _ _
      (String "010" (get_datetime (clock st)) +:+ " : " +:+ String "010" ""
       +:+ text +:+ String "010" "") _ Hwr) as [f2 Hf2].
    rewrite Hf2. msimp. apply write_append in Hf2. subst f2.
    eexists. reflexivity.
  - unfold makedirs, resolve_path. msimp.
    destruct (Fs.makedirs (fs st) _) as [f0|e] eqn:Hmk; [|discriminate].
    msimp. unfold write_file, resolve_path. msimp. sproj.
    destruct (Fs.write f0 _ true "") as [f1|e] eqn:Hwr; [|discriminate].
    destruct (write_any_data _ _ _ _
      (String "010" (get_datetime (clock st)) +:+ " : " +:+ String "010" ""
       +:+ text +:+ String "010" "") _ Hwr) as [f2 Hf2].
    rewrite Hf2. msimp. apply write_append in Hf2. subst f2.
    assert (Hfiles : fs_files f0 = fs_files (fs st)).
    { unfold Fs.makedirs in Hmk. destruct (existsb _ _); [discriminate|].
      now inversion Hmk. }
    rewrite Hfiles. eexists.
    destruct st; reflexivity.
Qed.

(** X19. [save_agent_log] appends one entry to the log file of the agent,
    a line break, the time stamp and [ : ], a line break, the text and a
    line break, after what the file held before; it changes no other file,
    no row and no cache entry. *)
Theorem agent_log_is_append_only (sid : string) (data : Data) (text : string)
  (st : State) :
  text_of data = Some text →
  log_writable st sid = true →
  ∃ st', save_agent_log sid data st = (st', Ret tt)
    ∧ fs_files (fs st') !! log_file st sid
      = Some (default "" (fs_files (fs st) !! log_file st sid)
              +:+ log_entry (clock st) text)
    ∧ (∀ p, p ≠ log_file st sid → fs_files (fs st') !! p = fs_files (fs st) !! p)
    ∧ db_agents st' = db_agents st ∧ agents st' = agents st.
Proof.
  intros Ht Hw. destruct (save_agent_log_appends st sid data text Ht Hw) as [dirs E].
  eexists. split; [exact E|]. sproj. cbn [fs_files].
  split; [apply lookup_insert_eq|].
  split; [|split; reflexivity].
  intros p Hp. now apply lookup_insert_ne.
Qed.

(** ** What a computation leaves alone *)

Section Follows.

Variable R : State → State → Prop.
Hypothesis R_refl : ∀ s, R s s.
Hypothesis R_trans : ∀ s1 s2 s3, R s1 s2 → R s2 s3 → R s1 s3.









End Follows.











(** ** The table of results *)







(** ** Single result packets *)

Lemma record_result_frame sid rn tid data st :
  ∃ s1 k, record_result sid rn tid data st = (s1, Ret k)
    ∧ agents s1 = agents st ∧ db_agents s1 = db_agents st ∧ fs s1 = fs st
    ∧ cfg s1 = cfg st ∧ clock s1 = clock st ∧ orm_dirty s1 = orm_dirty st.
Proof.
  unfold record_result. msimp.
  destruct (negb (Z.eqb tid 0) && negb (existsb (String.eqb rn) _)).
  - msimp. destruct (List.find _ _).
    + msimp. do 2 eexists. split; [reflexivity|]. repeat split.
    + do 2 eexists. split; [reflexivity|]. repeat split.
  - do 2 eexists. split; [reflexivity|]. repeat split.
Qed.

Lemma log_file_ext st st' sid :
  cfg st' = cfg st → db_agents st' = db_agents st → log_file st' sid = log_file st sid.
Proof. intros Hc Hd. unfold log_file, log_save_path. now rewrite Hc, Hd. Qed.


(** X23. A [TASK_DOWNLOAD] response whose text does not split on [|]
    into exactly four fields writes no file and stores nothing: the state
    changes by two events only, the notice of the result and the warning
    about the invalid download. *)
Theorem malformed_download_writes_nothing (sid sid' : string) (tid : Z)
  (data text : string) (st : State) :
  name_to_id sid st = (st, Ret sid') →
  Py.decode data = Some text →
  List.length (Py.split "|" text) ≠ 4 →
  process_agent_packet sid "TASK_DOWNLOAD" tid data st
  = (set_events (fun l => snoc l
       {| ev_sender := agent_sender sid'; ev_print := true;
          ev_message := "[!] Received invalid file download response from {}";
          ev_args := [AStr sid']; ev_extra := [] |})
       (set_events (fun l => snoc l
          {| ev_sender := agent_sender sid'; ev_print := false;
             ev_message := "[*] Agent {} got results"; ev_args := [AStr sid'];
             ev_extra := [("response_name", AStr "TASK_DOWNLOAD");
                          ("task_id", ANum tid); ("event_type", AStr "result")] |}) st),
     Ret tt).
Proof.
  intros Hid Hdec Hlen. unfold process_agent_packet.
  rewrite (bind_Ret _ _ _ _ _ Hid). unfold record_result. msimp.
  cbn [existsb String.eqb Ascii.eqb Bool.eqb orb negb].
  rewrite andb_false_r. msimp.
  unfold task_download. rewrite Hdec. msimp.
  destruct (Py.split "|" text) as [|a [|b [|c [|d [|e l]]]]]; try reflexivity.
  now contradiction Hlen.
Qed.

(** ** The cache after a restart *)

Lemma Agents_init_from_row l :
  ∀ (m : gmap string AgentInfo) k info,
    fold_left (fun m r =>
       <[session_id r := {| sessionKey := session_key r;
                            functions := FnColumn (functions_db r) |}]> m) l m !! k
    = Some info →
    m !! k = Some info
    ∨ ∃ r, In r l ∧ session_id r = k
        ∧ info = {| sessionKey := session_key r; functions := FnColumn (functions_db r) |}.
Proof.
  induction l as [|r l IH]; intros m k info H; cbn [fold_left] in H.
  - now left.
  - apply IH in H as [H|(r' & Hin & Hs & Hi)].
    + destruct (decide (session_id r = k)) as [E|E].
      * subst k. rewrite lookup_insert_eq in H. inversion H. right. exists r.
        split; [now left|]. split; reflexivity.
      * rewrite lookup_insert_ne in H by exact E. now left.
    + right. exists r'. split; [now right|]. split; assumption.
Qed.

(** X6. After a restart, the cache is a function of the store alone: a
    session id is a key of the cache exactly when a row carries it, and its
    entry holds the session key and the raw [functions] column of such a
    row. The store is not changed. *)
Theorem restart_rebuilds_cache (st : State) (k : string) :
  db_agents (restart st) = db_agents st
  ∧ (is_Some (agents (restart st) !! k) ↔ ∃ r, In r (db_agents st) ∧ session_id r = k)
  ∧ (∀ info, agents (restart st) !! k = Some info →
       ∃ r, In r (db_agents st) ∧ session_id r = k
         ∧ sessionKey info = session_key r
         ∧ functions info = FnColumn (functions_db r)).
Proof.
  split; [reflexivity|]. split; [split|].
  - intros [info H]. apply Agents_init_from_row in H as [H|(r & Hin & Hs & _)].
    + now rewrite lookup_empty in H.
    + eauto.
  - intros H. apply Agents_init_known. now right.
  - intros info H. apply Agents_init_from_row in H as [H|(r & Hin & Hs & ->)].
    + now rewrite lookup_empty in H.
    + exists r. repeat split; assumption.
Qed.

(** ** Tab-completable functions *)

Lemma split_cons_nil sep s : Py.split sep s ≠ [].
Proof.
  destruct s as [|c s]; cbn [Py.split]; [discriminate|].
  destruct (Ascii.eqb c sep); [discriminate|].
  destruct (Py.split sep s); discriminate.
Qed.

Lemma contains_comma_cons c s :
  Py.contains "," (String c s) = Ascii.eqb "," c || Py.contains "," s.
Proof.
  cbn [Py.contains String.prefix]. destruct (ascii_dec "," c) as [E|E].
  - subst c. cbn. now destruct s.
  - destruct (Ascii.eqb "," c) eqn:Eb; [apply Ascii.eqb_eq in Eb; contradiction|].
    reflexivity.
Qed.

Lemma split_no_comma x :
  Py.contains "," x = false → Py.split "," x = [x].
Proof.
  induction x as [|c x IH]; intros H; [reflexivity|].
  rewrite contains_comma_cons in H. apply orb_false_iff in H as [Hc Hx].
  cbn [Py.split]. rewrite Ascii.eqb_sym, Hc. now rewrite (IH Hx).
Qed.

Lemma split_app_comma x s :
  Py.contains "," x = false →
  Py.split "," (x +:+ "," +:+ s) = x :: Py.split "," s.
Proof.
  induction x as [|c x IH]; intros H.
  - reflexivity.
  - rewrite contains_comma_cons in H. apply orb_false_iff in H as [Hc Hx].
    change (Py.split "," (String c (x +:+ "," +:+ s)) = String c x :: Py.split "," s).
    cbn [Py.split]. rewrite Ascii.eqb_sym, Hc. now rewrite (IH Hx).
Qed.

Lemma split_join_commas l :
  l ≠ [] → Forall (fun f => Py.contains "," f = false) l →
  Py.split "," (Py.join "," l) = l.
Proof.
  intros Hne Hall. induction Hall as [|x l Hx Hl IH]; [contradiction|].
  unfold Py.join in *. destruct l as [|y l].
  - cbn [String.concat]. now apply split_no_comma.
  - cbn [String.concat]. rewrite split_app_comma by exact Hx.
    f_equal. apply IH. discriminate.
Qed.

(** X27. After [set_agent_functions_db], [get_agent_functions] returns
    the list that was set and [get_agent_functions_db] returns the list
    read back from the comma-joined column: the same list when it is not
    empty and no name holds a comma (an empty list comes back as the list of
    one empty name). After a restart [get_agent_functions] returns the
    joined text of the column instead of a list. *)
Theorem functions_round_trip (sid : string) (fns : list string) (st : State)
  (info : AgentInfo) (row : AgentRow) :
  agents st !! sid = Some info → own_name st sid →
  List.find (by_session_id sid) (db_agents st) = Some row →
  ∃ st', set_agent_functions_db sid fns st = (st', Ret tt)
    ∧ snd (get_agent_functions sid st') = Ret (FnList fns)
    ∧ snd (get_agent_functions_db sid st') = Ret (Py.split "," (Py.join "," fns))
    ∧ (fns ≠ [] → Forall (fun f => Py.contains "," f = false) fns →
       snd (get_agent_functions_db sid st') = Ret fns)
    ∧ snd (get_agent_functions sid (restart st'))
      = Ret (FnColumn (Some (Py.join "," fns))).
Proof.
  intros Hk Hown Hrow. destruct (find_by_session_id _ _ _ Hrow) as [Hin Hsid].
  unfold set_agent_functions_db.
  rewrite (bind_Ret _ _ _ _ _ (name_to_id_own _ _ Hown)). msimp.
  unfold query_first. msimp. sproj. rewrite Hrow. cbn [option_map]. msimp.
  unfold orm_assign, commit. msimp. rewrite session_id_orm_view, Hsid. unfold modify.
  destruct (commit_assign_facts st sid (with_functions_db (Some (Py.join "," fns))) row
              (fun r => conj eq_refl eq_refl) Hown Hrow) as [Hown2 Hrow2].
  cbv zeta in Hown2, Hrow2.
  assert (Hfn : ∀ d r, functions_db (orm_view d r) = functions_db r).
  { intros d r. unfold orm_view. now destruct (bool_decide _). }
  match goal with |- ∃ st', (?s, Ret tt) = (st', Ret tt) ∧ _ =>
    set (st2 := s); exists st2; split; [reflexivity|]
  end.
  assert (Hown' : own_name st2 sid) by exact Hown2.
  assert (Hrow' : List.find (by_session_id sid) (db_agents st2)
                  = Some (orm_view (orm_dirty st)
                            (with_functions_db (Some (Py.join "," fns)) row)))
    by exact Hrow2.
  assert (Hdb : snd (get_agent_functions_db sid st2)
                = Ret (Py.split "," (Py.join "," fns))).
  { unfold get_agent_functions_db, query_first. msimp.
    rewrite (find_or_name_own _ _ Hown'), Hrow'. cbn [option_map]. msimp.
    rewrite !Hfn. reflexivity. }
  split; [|split; [exact Hdb|split]].
  - unfold get_agent_functions.
    rewrite (bind_Ret _ _ _ _ _ (name_to_id_own st2 sid Hown')).
    unfold gets. cbn [snd]. subst st2. sproj. rewrite Hk. now rewrite lookup_insert_eq.
  - intros Hne Hall. rewrite Hdb. now rewrite split_join_commas.
  - destruct (restart_facts st2 sid _ Hown' Hrow') as ([info' Hk'] & Hown3 & _).
    pose proof Hk' as Hk''.
    apply Agents_init_from_row in Hk'' as [Hk''|(r & Hinr & Hsr & Hi)];
      [now rewrite lookup_empty in Hk''|].
    unfold get_agent_functions.
    rewrite (bind_Ret _ _ _ _ _ (name_to_id_own _ sid Hown3)).
    unfold gets. cbn [snd]. rewrite Hk'. subst info'. cbn [functions].
    subst st2. sproj. rewrite List.map_map in Hinr.
    apply in_map_iff in Hinr as (r0 & <- & Hin0).
    rewrite session_id_orm_view in Hsr. rewrite Hfn.
    destruct (String.eqb (session_id r0) sid) eqn:E; [reflexivity|].
    apply String.eqb_neq in E. contradiction.
Qed.

(** ** Script autoruns *)

Lemma stage2_autorun st sid info enc clientIP opts msg row n p0
  listener_ domain user host ip os hi pn pid lang langver rest cmd dat others :
  agents st !! sid = Some info →
  aes_decrypt_and_verify (sessionKey info) enc = Some msg →
  own_name st sid → Py.truthy sid = true →
  List.find (by_session_id sid) (db_agents st) = Some row →
  taskings row = [] →
  Py.int (nonce row) = Some n →
  Py.split "|" msg
  = p0 :: listener_ :: domain :: user :: host :: ip :: os :: hi :: pn :: pid
       :: lang :: langver :: rest →
  Py.int p0 = Some (n + 1)%Z →
  Forall valid_utf8 [listener_; domain; user; host; ip; os; hi; pn; pid; lang; langver] →
  log_writable st sid = true → debug (cfg st) = false →
  language_autoruns st lang = [] →
  db_config st = (cmd, dat) :: others → cmd ≠ "" → dat ≠ "" →
  ∃ st', stage2 sid enc clientIP opts st = (st', Ret (Some ("STAGE2: " +:+ sid)))
    ∧ ∃ r, List.find (by_session_id sid) (db_agents st') = Some r
        ∧ taskings r = [{| task_name := cmd; task_data := dat;
                           task_id := next_task_id sid (db_taskings st) |}].
Proof.
  intros Hk Hdec Hown Htr Hrow Hempty Hn Hs Hp0 Hv Hw Hdbg Hruns Hcfg Hcmd Hdat.
  unfold stage2. msimp. rewrite Hk. msimp.
  rewrite (bind_try_except_Ret _ _ _ _ _ _
             (stage2_parse_ok st sid _ enc msg row n p0 listener_ domain user host ip
                os hi pn pid lang langver rest Hdec Hrow Hn Hs Hp0 Hv)).
  cbn [si_listener si_domainname si_username si_hostname si_internal_ip
       si_os_details si_high_integrity si_process_name si_process_id si_language
       si_language_version sysinfo_of].
  fold (staged_username domain user).
  set (g := fun r => orm_view (orm_dirty st)
     (if String.eqb (session_id r) sid
      then with_sysinfo ip (staged_username domain user) host os
             (if String.eqb hi "True" then 1%Z else 0%Z) pn pid langver lang r
      else r)).
  assert (Hg : ∀ r, name (g r) = name r ∧ session_id (g r) = session_id r).
  { intros r. unfold g. rewrite name_orm_view, session_id_orm_view.
    now destruct (String.eqb (session_id r) sid). }
  match goal with |- context [bind (update_agent_sysinfo_db _ _ _ _ _ _ _ _ _ _) _ ?s] =>
    rewrite (bind_Ret _ _ _ _ _ (update_agent_sysinfo_db_run s sid row _ _ _ _ _ _ _ _ _
                                   Hown Hrow)) end.
  sproj.
  match goal with |- context [bind (if ?b then _ else _) _ _] => destruct b end; msimp.
  all: unfold get_agent_db; msimp; sproj; rewrite List.map_map; fold g.
  all: destruct (find_or_name_of_id _ _ _ Hrow) as [r0 Hr0].
  all: rewrite (find_map_ids (by_session_id_or_name sid) g) by
      (intros r; unfold by_session_id_or_name; destruct (Hg r) as [-> ->]; reflexivity).
  all: rewrite Hr0; cbn [option_map]; msimp; sproj.
  all: match goal with |- context [bind (if ?b then _ else _) _ _] => destruct b end; msimp.
  all: match goal with |- context [bind (save_agent_log ?i (Text ?t)) _ ?s] =>
         destruct (save_agent_log_run s i t) as [f' Hlog];
         [ transitivity (log_writable st i); [|exact Hw];
           apply log_writable_ext; sproj; try reflexivity;
           rewrite List.map_map; fold g;
           rewrite (find_map_ids (by_session_id_or_name sid) g) by
             (intros r; unfold by_session_id_or_name; destruct (Hg r) as [-> ->];
              reflexivity);
           apply option_map_name_pres; intros r; apply Hg
         | rewrite (bind_Ret _ _ _ _ _ Hlog) ] end.
  all: unfold get_autoruns_db; msimp; sproj; rewrite Hcfg; cbn [fst snd].
  all: apply String.eqb_neq in Hcmd, Hdat; rewrite Hcmd, Hdat; cbn [negb andb]; msimp.
  all: assert (Hrowg : List.find (by_session_id sid)
                         (List.map (fun r => g r) (db_agents st)) = Some (g row))
    by (apply find_session_id_map; [intros r; apply Hg|exact Hrow]).
  all: assert (Htg : taskings (g row) = [])
    by (unfold g, orm_view;
        destruct (bool_decide _); [reflexivity|];
        destruct (String.eqb (session_id row) sid); exact Hempty).
  all: unfold language_autoruns in Hruns.
  all: match goal with |- context [bind (add_agent_task_db ?i ?a ?b None None) _ ?s] =>
         assert (Hrs : List.find (by_session_id sid) (db_agents s) = Some (g row))
           by (sproj; rewrite List.map_map; exact Hrowg);
         destruct (add_agent_task_db_queue s i a b None None info (g row))
           as (s' & Hadd & Hag & Hcf & _ & _ & Hdb);
         [ sproj; exact Hk
         | eapply (own_name_map st); [sproj; rewrite List.map_map; reflexivity| |exact Hown];
           intros r; apply Hg
         | exact Htr
         | sproj; exact Hdbg
         | exact Hrs
         | rewrite (bind_Ret _ _ _ _ _ Hadd); msimp; rewrite Hcf; sproj ] end.
  all: destruct (List.find _ (autoRuns (cfg st))) as [[k cmds]|]; [rewrite Hruns|]; msimp.
  all: eexists; (split; [reflexivity|]).
  all: rewrite Hdb.
  all: eexists; split;
    [ apply find_session_id_map; [intros r; apply with_taskings_if_ids|exact Hrs] | ].
  all: assert (Hb : by_session_id sid (g row) = true)
    by (unfold by_session_id; destruct (Hg row) as [_ ->];
        apply String.eqb_eq; now destruct (find_by_session_id _ _ _ Hrow)).
  all: cbv beta; rewrite Hb; cbn [taskings with_taskings]; rewrite Htg; reflexivity.
Qed.

(** X18. Once [set_autoruns_db] has stored a command and module data,
    both non-empty, in a [config] table that has a row, an agent with an
    empty queue that completes STAGE2 gets that command as its first
    tasking, with the next free task id. *)
Theorem autorun_is_first_tasking (sid language_ additional enc stagingKey : string)
  (opts : ListenerOptions) (clientIP : string) (st : State)
  (info : AgentInfo) (row : AgentRow) (msg : string) (n : Z)
  (p0 listener_ domain user host ip os hi pn pid lang langver : string)
  (taskCommand moduleData : string) :
  agents st !! sid = Some info →
  List.find (by_session_id sid) (db_agents st) = Some row →
  own_name st sid → Py.truthy sid = true →
  taskings row = [] →
  Py.int (nonce row) = Some n →
  aes_decrypt_and_verify (sessionKey info) enc = Some msg →
  Py.split "|" msg
  = [p0; listener_; domain; user; host; ip; os; hi; pn; pid; lang; langver] →
  Py.int p0 = Some (n + 1)%Z →
  Forall valid_utf8 [listener_; domain; user; host; ip; os; hi; pn; pid; lang; langver] →
  log_writable st sid = true → debug (cfg st) = false →
  language_autoruns st lang = [] →
  db_config st ≠ [] → taskCommand ≠ "" → moduleData ≠ "" →
  ∃ st',
    (set_autoruns_db taskCommand moduleData ;;
     handle_agent_staging sid language_ "STAGE2" additional enc stagingKey opts clientIP) st
    = (st', Ret (Some ("STAGE2: " +:+ sid)))
    ∧ ∃ r, List.find (by_session_id sid) (db_agents st') = Some r
        ∧ taskings r = [{| task_name := taskCommand; task_data := moduleData;
                           task_id := next_task_id sid (db_taskings st) |}].
Proof.
  intros Hk Hrow Hown Htr Hempty Hn Hdec Hs Hp0 Hv Hw Hdbg Hruns Hcfg Hcmd Hdat.
  unfold set_autoruns_db. msimp. rewrite handle_agent_staging_STAGE2.
  destruct (db_config st) as [|[c d] others] eqn:Ec; [contradiction|].
  match goal with |- context [stage2 _ _ _ _ ?s] =>
    apply (stage2_autorun s sid info enc clientIP opts msg row n p0 listener_ domain
             user host ip os hi pn pid lang langver []
             taskCommand moduleData
             (List.map (fun c => (fst c, moduleData))
                (List.map (fun c => (taskCommand, snd c)) others)))
  end; try assumption.
  cbn [db_config set_db_config]. rewrite Ec. reflexivity.
Qed.

(** ** Results of an agent *)

Section ReadResults.

Variable Json : Type.
Variable json_loads : string → option Json.
Variable json_truthy : Json → bool.

Lemma get_agent_results_db_run st sid info row :
  agents st !! sid = Some info → own_name st sid →
  List.find (by_session_id sid) (db_agents st) = Some row →
  get_agent_results_db Json json_loads json_truthy sid st
  = (match results row with
     | Some r =>
         if Py.truthy r then
           out <- expect ValueError (json_loads r) ;;
           ret (if json_truthy out then ResOut out else ResNone)
         else ret ResEmpty
     | None => ret ResEmpty
     end)
      (set_orm_dirty (fun _ => [])
         (set_db_agents (fun l => List.map (orm_view (orm_dirty st))
            (List.map (fun r => if String.eqb (session_id r) sid
                                then with_results (Some "") r else r) l)) st)).
Proof.
  intros Hk Hown Hrow. unfold get_agent_results_db.
  rewrite (bind_Ret _ _ _ _ _ (name_to_id_own _ _ Hown)). msimp.
  rewrite (known_true _ _ _ Hk). cbn [negb]. unfold query_first. msimp.
  rewrite Hrow. cbn [option_map]. msimp. unfold orm_assign, commit. msimp.
  rewrite session_id_orm_view.
  destruct (find_by_session_id _ _ _ Hrow) as [_ ->].
  assert (Hr : results (orm_view (orm_dirty st) row) = results row).
  { unfold orm_view. now destruct (bool_decide _). }
  rewrite Hr. reflexivity.
Qed.

(** X26. Results stored by [update_agent_results_db] are returned by
    the next [get_agent_results_db], as [json.loads] decodes the stored
    column: the JSON encoding of the unread column followed by a line break
    and the new text. The read clears the column with a commit: a second
    read returns the empty string, also after a restart. *)
Theorem results_are_read_once (sid : string) (data : Data) (text : string)
  (st : State) (info : AgentInfo) (row : AgentRow) (out : Json) :
  agents st !! sid = Some info → own_name st sid →
  List.find (by_session_id sid) (db_agents st) = Some row →
  text_of data = Some text →
  json_dumps (unread_results row +:+ String "010" text) ≠ "" →
  json_loads (json_dumps (unread_results row +:+ String "010" text)) = Some out →
  json_truthy out = true →
  ∃ st1 st2,
    update_agent_results_db sid data st = (st1, Ret tt)
    ∧ get_agent_results_db Json json_loads json_truthy sid st1 = (st2, Ret (ResOut out))
    ∧ snd (get_agent_results_db Json json_loads json_truthy sid st2) = Ret ResEmpty
    ∧ snd (get_agent_results_db Json json_loads json_truthy sid (restart st2))
      = Ret ResEmpty.
Proof.
  intros Hk Hown Hrow Ht Hne Hl Htr.
  destruct (find_by_session_id _ _ _ Hrow) as [Hin Hsid].
  assert (Hres : ∀ d r, results (orm_view d r) = results r).
  { intros d r. unfold orm_view. now destruct (bool_decide _). }
  unfold update_agent_results_db. rewrite (bind_Ret _ _ _ _ _ (to_text_run _ _ _ Ht)).
  rewrite (bind_Ret _ _ _ _ _ (name_to_id_own _ _ Hown)). msimp.
  rewrite (known_true _ _ _ Hk). unfold query_first. msimp.
  rewrite Hrow. cbn [option_map]. msimp. unfold orm_assign, commit. msimp.
  rewrite session_id_orm_view, Hsid, Hres. fold (unread_results row). unfold modify.
  set (stored := json_dumps (unread_results row +:+ String "010" text)) in *.
  destruct (commit_assign_facts st sid (with_results (Some stored)) row
              (fun r => conj eq_refl eq_refl) Hown Hrow) as [Hown1 Hrow1].
  cbv zeta in Hown1, Hrow1.
  match goal with |- ∃ st1 st2, (?s, Ret tt) = (st1, Ret tt) ∧ _ =>
    set (st1 := s) in *; exists st1
  end.
  assert (Hk1 : agents st1 !! sid = Some info) by exact Hk.
  pose proof (get_agent_results_db_run st1 sid info _ Hk1 Hown1 Hrow1) as E2.
  rewrite Hres in E2. cbn [results with_results] in E2.
  assert (Hts : Py.truthy stored = true) by (destruct stored; [contradiction|reflexivity]).
  rewrite Hts, Hl in E2. rewrite bind_expect_Some in E2. rewrite Htr in E2.
  unfold ret in E2.
  eexists. split; [reflexivity|]. split; [exact E2|].
  destruct (commit_assign_facts st1 sid (with_results (Some "")) _
              (fun r => conj eq_refl eq_refl) Hown1 Hrow1) as [Hown2 Hrow2].
  cbv zeta in Hown2, Hrow2.
  split.
  - match goal with |- snd (get_agent_results_db _ _ _ sid ?s) = _ =>
      rewrite (get_agent_results_db_run s sid info _ Hk1 Hown2 Hrow2) end.
    rewrite Hres. reflexivity.
  - match goal with |- snd (get_agent_results_db _ _ _ sid (restart ?s)) = _ =>
      destruct (restart_facts s sid _ Hown2 Hrow2) as ([info' Hk'] & Hown3 & Hrow3 & _) end.
    rewrite (get_agent_results_db_run _ sid info' _ Hk' Hown3 Hrow3).
    rewrite Hres. reflexivity.
Qed.

End ReadResults.

(** ** Adding an agent *)

Lemma find_snoc_new {A} (p : A → bool) rows r :
  existsb p rows = false → p r = true → List.find p (snoc rows r) = Some r.
Proof.
  intros Hf Hr. unfold snoc. induction rows as [|x rows IH]; cbn [app List.find].
  - now rewrite Hr.
  - cbn [existsb] in Hf. apply orb_false_iff in Hf as [Hx Hf]. rewrite Hx. now apply IH.
Qed.

Lemma existsb_weaken {A} (p q : A → bool) l :
  (∀ x, q x = true → p x = true) → existsb p l = false → existsb q l = false.
Proof.
  intros H. induction l as [|x l IH]; [reflexivity|]. cbn [existsb].
  intros Hp. apply orb_false_iff in Hp as [Hx Hl]. rewrite (IH Hl), orb_false_r.
  destruct (q x) eqn:E; [|reflexivity]. now rewrite (H x E) in Hx.
Qed.

(** X4. [add_agent] for a session id that no row uses as id or name
    returns normally; afterwards the agent is present, its cache entry holds
    the session key (the one supplied, or a generated one when none or an
    empty one was supplied) and no functions, the lookups of its session
    key, nonce and name by session id return what was stored, and the other
    cache entries are untouched. *)
Theorem added_agent_is_found (sid externalIP delay_ jitter_ profile_ killDate
  workingHours lostLimit : string) (sessionKey_ : option string)
  (nonce_ listener_ language_ : string) (st : State) :
  fresh_session st sid →
  ∃ st',
    add_agent sid externalIP delay_ jitter_ profile_ killDate workingHours lostLimit
      sessionKey_ nonce_ listener_ language_ st = (st', Ret tt)
    ∧ agents st' !! sid
      = Some {| sessionKey := chosen_key sessionKey_ (seed st); functions := FnList [] |}
    ∧ snd (is_agent_present sid st') = Ret true
    ∧ snd (get_agent_session_key_db sid st') = Ret (Some (chosen_key sessionKey_ (seed st)))
    ∧ snd (get_agent_nonce_db sid st') = Ret (Some nonce_)
    ∧ snd (get_agent_name_db sid st') = Ret (Some sid)
    ∧ (∀ k, k ≠ sid → agents st' !! k = agents st !! k).
Proof.
  intros Hfresh. unfold fresh_session in Hfresh.
  assert (Hid : existsb (by_session_id sid) (db_agents st) = false).
  { apply (existsb_weaken _ _ _ (fun r H => orb_true_intro _ _ (or_introl H)) Hfresh). }
  assert (Hnm : existsb (by_name sid) (db_agents st) = false).
  { apply (existsb_weaken _ _ _ (fun r H => orb_true_intro _ _ (or_intror H)) Hfresh). }
  assert (Hkey : ∀ d r, session_key (orm_view d r) = session_key r).
  { intros d r. unfold orm_view. now destruct (bool_decide _). }
  set (key := chosen_key sessionKey_ (seed st)).
  set (new := {| name := sid; session_id := sid; delay := delay_;
        jitter := jitter_; external_ip := externalIP; session_key := key;
        nonce := nonce_; checkin_time := clock st;
        lastseen_time := clock st;
        profile := if Py.truthy profile_ then profile_ else default_profile;
        kill_date := killDate; working_hours := workingHours;
        lost_limit := lostLimit; listener := listener_; language := language_;
        internal_ip := None; username := None; hostname := None;
        os_details := None; high_integrity := None; process_name := None;
        process_id := None; language_version := None; taskings := [];
        results := None; functions_db := None |}).
  assert (Hfind : ∀ p, (∀ d r, p (orm_view d r) = p r) →
            existsb p (db_agents st) = false → p new = true →
            List.find p (List.map (orm_view (orm_dirty st)) (snoc (db_agents st) new))
            = Some (orm_view (orm_dirty st) new)).
  { intros p Hp He Hn. rewrite (find_map_ids p (orm_view (orm_dirty st))) by apply Hp.
    now rewrite (find_snoc_new p _ new He Hn). }
  assert (Hp1 : ∀ d r, by_session_id sid (orm_view d r) = by_session_id sid r)
    by (intros; unfold by_session_id; now rewrite session_id_orm_view).
  assert (Hp2 : ∀ d r, by_name sid (orm_view d r) = by_name sid r)
    by (intros; unfold by_name; now rewrite name_orm_view).
  assert (Hp3 : ∀ d r, by_session_id_or_name sid (orm_view d r)
                        = by_session_id_or_name sid r)
    by (intros; unfold by_session_id_or_name;
        now rewrite session_id_orm_view, name_orm_view).
  assert (Hn1 : by_session_id sid new = true) by apply String.eqb_refl.
  assert (Hn2 : by_name sid new = true) by apply String.eqb_refl.
  assert (Hn3 : by_session_id_or_name sid new = true)
    by (unfold by_session_id_or_name; cbn; now rewrite String.eqb_refl).
  assert (Hrun : ∃ sd,
    add_agent sid externalIP delay_ jitter_ profile_ killDate workingHours lostLimit
      sessionKey_ nonce_ listener_ language_ st
    = (set_agents <[sid := {| sessionKey := key; functions := FnList [] |}]>
         (set_events (fun l => snoc l
            {| ev_sender := agent_sender sid; ev_print := true;
               ev_message := "[*] New agent {} checked in"; ev_args := [AStr sid];
               ev_extra := [("timestamp", ANum (clock st));
                            ("event_type", AStr "checkin")] |})
            (set_orm_dirty (fun _ => [])
               (set_db_agents (fun l => List.map (orm_view (orm_dirty st)) (snoc l new))
                  (set_seed (fun _ => sd) st)))), Ret tt)).
  { unfold add_agent. msimp. subst key new. unfold chosen_key.
    destruct sessionKey_ as [k|]; [destruct (Py.truthy k)|]; msimp; sproj;
      rewrite Hfresh; unfold commit; msimp; sproj;
      eexists; unfold modify; f_equal; destruct st; reflexivity. }
  destruct Hrun as [sd Hrun]. eexists. split; [exact Hrun|].
  split; [apply lookup_insert_eq|]. split; [|split; [|split; [|split]]].
  - unfold is_agent_present, name_to_id, get_agent_id_db, query_first. msimp. sproj.
    rewrite (Hfind _ Hp2 Hnm Hn2). cbn [option_map]. rewrite !session_id_orm_view.
    cbn [session_id new]. unfold gets. cbn [snd]. sproj.
    f_equal. apply bool_decide_eq_true_2.
    destruct (Py.truthy sid); rewrite lookup_insert_eq; eauto.
  - unfold get_agent_session_key_db, query_first. msimp. sproj.
    rewrite (Hfind _ Hp3 Hfresh Hn3). cbn [option_map]. now rewrite !Hkey.
  - unfold get_agent_nonce_db, query_first. msimp. sproj.
    rewrite (Hfind _ Hp1 Hid Hn1). cbn [option_map]. now rewrite !nonce_orm_view.
  - unfold get_agent_name_db, query_first. msimp. sproj.
    rewrite (Hfind _ Hp3 Hfresh Hn3). cbn [option_map]. now rewrite !name_orm_view.
  - intros k Hk. sproj. now apply lookup_insert_ne.
Qed.

(** ** Removal and restart *)



(** ** From the agent to the operator *)

Lemma name_lookup_map (g : AgentRow → AgentRow) l sid :
  (∀ r, name (g r) = name r ∧ session_id (g r) = session_id r) →
  option_map name (List.find (by_session_id_or_name sid) (List.map g l))
  = option_map name (List.find (by_session_id_or_name sid) l).
Proof.
  intros Hg.
  rewrite (find_map_ids (by_session_id_or_name sid) g) by
    (intros r; unfold by_session_id_or_name; destruct (Hg r) as [-> ->]; reflexivity).
  apply option_map_name_pres. intros r. apply Hg.
Qed.

Lemma commit_assign_log st sid x f :
  (∀ r, name (f r) = name r ∧ session_id (f r) = session_id r) →
  let st' :=
    set_orm_dirty (fun _ => [])
      (set_db_agents (fun l => List.map (orm_view (orm_dirty st))
         (List.map (fun r => if String.eqb (session_id r) x then f r else r) l)) st) in
  log_writable st' sid = log_writable st sid ∧ log_file st' sid = log_file st sid.
Proof.
  intros Hf st'.
  assert (Hn : option_map name (List.find (by_session_id_or_name sid) (db_agents st'))
               = option_map name (List.find (by_session_id_or_name sid) (db_agents st))).
  { subst st'. sproj. rewrite List.map_map. apply name_lookup_map.
    intros r. rewrite name_orm_view, session_id_orm_view.
    destruct (String.eqb (session_id r) x); [apply Hf|now split]. }
  split.
  - apply log_writable_ext; [reflexivity|reflexivity|exact Hn].
  - unfold log_file, log_save_path. now rewrite Hn.
Qed.

Lemma update_agent_results_db_run st sid info row d text :
  agents st !! sid = Some info → own_name st sid →
  List.find (by_session_id sid) (db_agents st) = Some row →
  text_of d = Some text →
  update_agent_results_db sid d st
  = (set_orm_dirty (fun _ => [])
       (set_db_agents (fun l => List.map (orm_view (orm_dirty st))
          (List.map (fun r =>
             if String.eqb (session_id r) sid
             then with_results
                    (Some (json_dumps (unread_results row +:+ String "010" text))) r
             else r) l)) st), Ret tt).
Proof.
  intros Hk Hown Hrow Ht. destruct (find_by_session_id _ _ _ Hrow) as [_ Hsid].
  unfold update_agent_results_db. rewrite (bind_Ret _ _ _ _ _ (to_text_run _ _ _ Ht)).
  rewrite (bind_Ret _ _ _ _ _ (name_to_id_own _ _ Hown)). msimp.
  rewrite (known_true _ _ _ Hk). unfold query_first. msimp.
  rewrite Hrow. cbn [option_map]. msimp. unfold orm_assign, commit. msimp.
  rewrite session_id_orm_view, Hsid.
  assert (Hres : results (orm_view (orm_dirty st) row) = results row).
  { unfold orm_view. now destruct (bool_decide _). }
  rewrite Hres. reflexivity.
Qed.

Lemma shell_packet_run s sid info row tid data text :
  agents s !! sid = Some info → own_name s sid →
  List.find (by_session_id sid) (db_agents s) = Some row →
  Py.decode data = Some text →
  log_writable s sid = true →
  ∃ s', process_agent_packet sid "TASK_SHELL" tid data s = (s', Ret tt)
    ∧ agents s' = agents s ∧ own_name s' sid
    ∧ (∃ row', List.find (by_session_id sid) (db_agents s') = Some row'
         ∧ results row' = Some (json_dumps (unread_results row +:+ String "010" text)))
    ∧ fs_files (fs s') !! log_file s sid
      = Some (default "" (fs_files (fs s) !! log_file s sid) +:+ log_entry (clock s) text).
Proof.
  intros Hk Hown Hrow Hdec Hw. unfold process_agent_packet.
  rewrite (bind_Ret _ _ _ _ _ (name_to_id_own _ _ Hown)).
  destruct (record_result_frame sid "TASK_SHELL" tid data s)
    as (s1 & k & E1 & Ha1 & Hd1 & Hf1 & Hc1 & Hk1 & _).
  rewrite (bind_Ret _ _ _ _ _ E1).
  cbn [String.eqb Ascii.eqb Bool.eqb]. unfold results_and_log.
  assert (Hkn1 : agents s1 !! sid = Some info) by now rewrite Ha1.
  assert (Hown1 : own_name s1 sid) by (unfold own_name; now rewrite Hd1).
  assert (Hrow1 : List.find (by_session_id sid) (db_agents s1) = Some row)
    by now rewrite Hd1.
  rewrite (bind_Ret _ _ _ _ _
             (update_agent_results_db_run s1 sid info row (Bytes data) text
                Hkn1 Hown1 Hrow1 Hdec)).
  set (stored := json_dumps (unread_results row +:+ String "010" text)).
  destruct (commit_assign_facts s1 sid (with_results (Some stored)) row
              (fun r => conj eq_refl eq_refl) Hown1 Hrow1) as [Hown2 Hrow2].
  destruct (commit_assign_log s1 sid sid (with_results (Some stored))
              (fun r => conj eq_refl eq_refl)) as [Hw2 Hlf2].
  cbv zeta in Hown2, Hrow2, Hw2, Hlf2.
  assert (Hw1 : log_writable s1 sid = true).
  { rewrite <- Hw. apply log_writable_ext; [exact Hf1|exact Hc1|now rewrite Hd1]. }
  rewrite Hw1 in Hw2.
  match goal with |- context [save_agent_log sid (Bytes data) ?s2] =>
    destruct (save_agent_log_appends s2 sid (Bytes data) text Hdec Hw2) as [dirs E2]
  end.
  eexists. split; [exact E2|]. sproj. split; [exact Ha1|]. split; [exact Hown2|].
  split.
  - eexists. split; [exact Hrow2|]. unfold orm_view. now destruct (bool_decide _).
  - rewrite Hlf2, (log_file_ext s s1 sid Hc1 Hd1), Hk1, Hf1. cbn [fs_files].
    apply lookup_insert_eq.
Qed.

Section Operator.

Variable Json : Type.
Variable json_loads : string → option Json.
Variable json_truthy : Json → bool.

(** X25. A [RESULT_POST] body of a known agent that decrypts to one
    [TASK_SHELL] packet with UTF-8 data is answered with [VALID]; the text
    is appended to the agent log, and the next [get_agent_results_db]
    returns what [json.loads] makes of the stored column, the JSON encoding
    of the unread column followed by a line break and the text. *)
Theorem shell_result_reaches_operator (sid enc : string) (update_lastseen : bool)
  (st : State) (info : AgentInfo) (row : AgentRow) (body : string)
  (p : ResultPacket) (text : string) (out : Json) :
  agents st !! sid = Some info → own_name st sid →
  List.find (by_session_id sid) (db_agents st) = Some row →
  aes_decrypt_and_verify (sessionKey info) enc = Some body →
  parse_result_packets body = Some [p] →
  responseName p = "TASK_SHELL" →
  Py.decode (data_ p) = Some text →
  log_writable st sid = true →
  json_dumps (unread_results row +:+ String "010" text) ≠ "" →
  json_loads (json_dumps (unread_results row +:+ String "010" text)) = Some out →
  json_truthy out = true →
  ∃ st1 st2,
    handle_agent_response sid enc update_lastseen st = (st1, Ret (Some "VALID"))
    ∧ get_agent_results_db Json json_loads json_truthy sid st1 = (st2, Ret (ResOut out))
    ∧ fs_files (fs st1) !! log_file st sid
      = Some (default "" (fs_files (fs st) !! log_file st sid)
              +:+ log_entry (clock st) text).
Proof.
  intros Hk Hown Hrow Hdec Hparse Hname Htext Hw Hne Hl Htr.
  assert (Hres : ∀ d r, results (orm_view d r) = results r).
  { intros d r. unfold orm_view. now destruct (bool_decide _). }
  assert (Hstep : ∃ s0 row0,
    (if update_lastseen then update_agent_lastseen_db sid else ret tt) st = (s0, Ret tt)
    ∧ agents s0 = agents st ∧ own_name s0 sid
    ∧ List.find (by_session_id sid) (db_agents s0) = Some row0
    ∧ unread_results row0 = unread_results row
    ∧ log_writable s0 sid = true ∧ log_file s0 sid = log_file st sid
    ∧ clock s0 = clock st ∧ fs s0 = fs st).
  { destruct update_lastseen.
    - destruct (commit_assign_facts st sid (with_lastseen_time (clock st)) row
                  (fun r => conj eq_refl eq_refl) Hown Hrow) as [Hown0 Hrow0].
      destruct (commit_assign_log st sid sid (with_lastseen_time (clock st))
                  (fun r => conj eq_refl eq_refl)) as [Hw0 Hlf0].
      cbv zeta in Hown0, Hrow0, Hw0, Hlf0.
      do 2 eexists. split; [apply (update_agent_lastseen_db_run st sid row Hown Hrow)|].
      split; [reflexivity|]. split; [exact Hown0|]. split; [exact Hrow0|].
      split; [unfold unread_results; now rewrite Hres|].
      split; [now rewrite Hw0|]. split; [exact Hlf0|]. split; reflexivity.
    - exists st, row. repeat split; assumption. }
  destruct Hstep as (s0 & row0 & E0 & Ha0 & Hown0 & Hrow0 & Hun0 & Hw0 & Hlf0 & Hc0 & Hf0).
  assert (Hk0 : agents s0 !! sid = Some info) by now rewrite Ha0.
  destruct (shell_packet_run s0 sid info row0 (taskID p) (data_ p) text
              Hk0 Hown0 Hrow0 Htext Hw0)
    as (s' & E' & Ha' & Hown' & (row' & Hrow' & Hres') & Hlog').
  unfold handle_agent_response. msimp. rewrite Hk.
  rewrite (bind_Ret _ _ _ _ _ E0).
  unfold try_except. rewrite Hdec. msimp. rewrite Hparse. msimp.
  cbn [for_each]. rewrite Hname. msimp. rewrite (bind_Ret _ _ _ _ _ E'). msimp.
  do 2 eexists. split; [reflexivity|].
  rewrite Hun0 in Hres'.
  split.
  - match goal with |- get_agent_results_db _ _ _ sid ?s = _ =>
      rewrite (get_agent_results_db_run Json json_loads json_truthy s sid info row')
    end; [| sproj; now rewrite Ha', Ha0 | exact Hown' | exact Hrow' ].
    rewrite Hres'.
    assert (Hts : Py.truthy (json_dumps (unread_results row +:+ String "010" text)) = true)
      by (destruct (json_dumps _); [contradiction|reflexivity]).
    rewrite Hts, Hl. rewrite bind_expect_Some. rewrite Htr. reflexivity.
  - sproj. rewrite <- Hlf0, <- Hf0, <- Hc0. exact Hlog'.
Qed.

End Operator.

(** X24. On a [TASK_SYSINFO] response of an active agent whose text has
    fewer than 12 fields, [process_agent_packet] changes no row of
    [agents], no cache entry and no file. With 12 fields or more it stores
    the fields in the agent's row, the user name always as the domain, a
    backslash and the user, also for an empty domain. *)
Theorem task_sysinfo_updates_row (sid : string) (tid : Z) (data text : string)
  (st : State) (info : AgentInfo) (row : AgentRow) :
  agents st !! sid = Some info → own_name st sid →
  List.find (by_session_id sid) (db_agents st) = Some row →
  Py.decode data = Some text →
  ((List.length (Py.split "|" text) < 12)%nat →
   ∃ st', process_agent_packet sid "TASK_SYSINFO" tid data st = (st', Ret tt)
     ∧ db_agents st' = db_agents st ∧ agents st' = agents st ∧ fs st' = fs st)
  ∧ (∀ p0 listener_ domain user host ip os hi pn pid lang langver rest,
       Py.split "|" text
       = p0 :: listener_ :: domain :: user :: host :: ip :: os :: hi :: pn :: pid
            :: lang :: langver :: rest →
       log_writable st sid = true →
       ∃ st' r, process_agent_packet sid "TASK_SYSINFO" tid data st = (st', Ret tt)
         ∧ List.find (by_session_id sid) (db_agents st') = Some r
         ∧ has_sysinfo r ip (domain +:+ "\" +:+ user) host os
             (if String.eqb hi "True" then 1%Z else 0%Z) pn pid langver lang).
Proof.
  intros Hk Hown Hrow Hdec.
  destruct (record_result_frame sid "TASK_SYSINFO" tid data st)
    as (s1 & k & E1 & Ha1 & Hd1 & Hf1 & Hc1 & Hk1 & _).
  assert (Hkn1 : agents s1 !! sid = Some info) by now rewrite Ha1.
  assert (Hown1 : own_name s1 sid) by (unfold own_name; now rewrite Hd1).
  assert (Hrow1 : List.find (by_session_id sid) (db_agents s1) = Some row)
    by now rewrite Hd1.
  split.
  - intros Hlen. unfold process_agent_packet.
    rewrite (bind_Ret _ _ _ _ _ (name_to_id_own _ _ Hown)).
    rewrite (bind_Ret _ _ _ _ _ E1).
    cbn [String.eqb Ascii.eqb Bool.eqb]. unfold task_sysinfo. rewrite Hdec. msimp.
    apply Nat.ltb_lt in Hlen. rewrite Hlen. unfold send, modify.
    eexists. split; [reflexivity|]. sproj. repeat split; assumption.
  - intros p0 listener_ domain user host ip os hi pn pid lang langver rest Hs Hw.
    unfold process_agent_packet.
    rewrite (bind_Ret _ _ _ _ _ (name_to_id_own _ _ Hown)).
    rewrite (bind_Ret _ _ _ _ _ E1).
    cbn [String.eqb Ascii.eqb Bool.eqb]. unfold task_sysinfo. rewrite Hdec. msimp.
    rewrite Hs. cbn [List.length Nat.ltb Nat.leb]. unfold nth_part.
    cbn [nth_error]. msimp.
    set (hi' := if String.eqb hi "True" then 1%Z else 0%Z).
    rewrite (bind_Ret _ _ _ _ _
               (update_agent_sysinfo_db_run s1 sid row _ _ _ _ _ _ _ _ _ Hown1 Hrow1)).
    destruct (commit_assign_facts s1 sid
                (with_sysinfo ip (domain +:+ "\" +:+ user) host os hi' pn pid langver lang)
                row (fun r => conj eq_refl eq_refl) Hown1 Hrow1) as [Hown2 Hrow2].
    destruct (commit_assign_log s1 sid sid
                (with_sysinfo ip (domain +:+ "\" +:+ user) host os hi' pn pid langver lang)
                (fun r => conj eq_refl eq_refl)) as [Hw2 _].
    cbv zeta in Hown2, Hrow2, Hw2.
    assert (Hw1 : log_writable s1 sid = true).
    { rewrite <- Hw. apply log_writable_ext; [exact Hf1|exact Hc1|now rewrite Hd1]. }
    rewrite Hw1 in Hw2.
    unfold results_and_log.
    match goal with |- context [bind (update_agent_results_db sid (Text ?t)) _ ?s2] =>
      set (sysinfo := t);
      assert (Hkn2 : agents s2 !! sid = Some info) by exact Hkn1;
      rewrite (bind_Ret _ _ _ _ _
                 (update_agent_results_db_run s2 sid info _ (Text sysinfo) sysinfo
                    Hkn2 Hown2 Hrow2 eq_refl));
      destruct (commit_assign_facts s2 sid
                  (with_results (Some (json_dumps
                     (unread_results
                        (orm_view (orm_dirty s1)
                           (with_sysinfo ip (domain +:+ "\" +:+ user) host os hi' pn pid
                              langver lang row)) +:+ String "010" sysinfo)))) _
                  (fun r => conj eq_refl eq_refl) Hown2 Hrow2) as [Hown3 Hrow3];
      destruct (commit_assign_log s2 sid sid
                  (with_results (Some (json_dumps
                     (unread_results
                        (orm_view (orm_dirty s1)
                           (with_sysinfo ip (domain +:+ "\" +:+ user) host os hi' pn pid
                              langver lang row)) +:+ String "010" sysinfo))))
                  (fun r => conj eq_refl eq_refl)) as [Hw3 _]
    end.
    cbv zeta in Hown3, Hrow3, Hw3. rewrite Hw2 in Hw3.
    match goal with |- context [save_agent_log sid (Text sysinfo) ?s3] =>
      destruct (save_agent_log_appends s3 sid (Text sysinfo) sysinfo eq_refl Hw3)
        as [dirs E3]
    end.
    do 2 eexists. split; [exact E3|]. split; [exact Hrow3|].
    apply has_sysinfo_view.
    change (has_sysinfo
              (orm_view (orm_dirty s1)
                 (with_sysinfo ip (domain +:+ "\" +:+ user) host os hi' pn pid langver
                    lang row))
              ip (domain +:+ "\" +:+ user) host os hi' pn pid langver lang).
    apply has_sysinfo_view. apply has_sysinfo_with_sysinfo.
Qed.

End Properties.

(** * Runs on the reference server *)

(** The models of the built-ins on small inputs. *)
Example split_backslash :
  Py.split "\" "..\..\etc\shadow" = [".."; ".."; "etc"; "shadow"].
Proof. reflexivity. Qed.

Example int_examples :
  Py.int " 42 " = Some 42%Z /\ Py.int "-7" = Some (-7)%Z /\ Py.int "1_0" = Some 10%Z
  /\ Py.int "1__0" = None /\ Py.int "" = None /\ Py.int "12a" = None.
Proof. repeat split; reflexivity. Qed.

Example normpath_examples :
  OsPath.normpath "/opt/Empire/downloads/" = "/opt/Empire/downloads"
  /\ OsPath.normpath "/opt/Empire/downloads/A/../../x//y/./z" = "/opt/Empire/x/y/z"
  /\ OsPath.normpath "/../a" = "/a"
  /\ OsPath.normpath "a/../../b" = "../b"
  /\ OsPath.normpath "//a" = "//a"
  /\ OsPath.normpath "///a" = "/a".
Proof. repeat split; reflexivity. Qed.

Example like_examples :
  Sql.like "ABC" "abc" = true /\ Sql.like "ABC" "%" = true
  /\ Sql.like "ABC" "A_C" = true /\ Sql.like "ABC" "AB" = false
  /\ Sql.like "" "%" = true /\ Sql.like "ABCD" "a%d" = true.
Proof. repeat split; reflexivity. Qed.


Lemma staged0_own_name : own_name staged0 "ABC12345".
Proof.
  intros r Hin _. vm_compute in Hin. destruct Hin as [<-|[]]. reflexivity.
Qed.


Lemma tasked0_own_name : own_name tasked0 "ABC12345".
Proof.
  intros r Hin _. vm_compute in Hin. destruct Hin as [<-|[]]. reflexivity.
Qed.

(** C8 on the reference server, for a body of nine bytes. *)
Lemma short_body_rejected_witness :
  snd (handle_agent_data (collab := plain) "stagingkey" "too short" opts0 "1.2.3.4"
         true staged0) = Ret None
  ∧ agents (fst (handle_agent_data (collab := plain) "stagingkey" "too short" opts0
                   "1.2.3.4" true staged0)) = agents staged0.
Proof.
  rewrite (short_body_rejected (collab := plain) "stagingkey" "too short" opts0
             "1.2.3.4" true staged0); [split; reflexivity|].
  vm_compute. lia.
Defined.





(** C5 on the reference server with one pending task. *)
Lemma drain_is_not_persisted_witness :
  ∃ st', get_agent_tasks_db "ABC12345" tasked0
         = (st', Ret [{| task_name := "TASK_SHELL"; task_data := "whoami"; task_id := 1 |}])
    ∧ db_agents st' = db_agents tasked0
    ∧ snd (get_agent_tasks_db "ABC12345" st') = Ret []
    ∧ snd (get_agent_tasks_db "ABC12345" (restart st'))
      = Ret [{| task_name := "TASK_SHELL"; task_data := "whoami"; task_id := 1 |}].
Proof.
  assert (H : ∃ row, List.find (by_session_id "ABC12345") (db_agents tasked0) = Some row
                     ∧ taskings row
                       = [{| task_name := "TASK_SHELL"; task_data := "whoami";
                             task_id := 1 |}])
    by (eexists; split; reflexivity).
  destruct H as (row & Hrow & Ht). rewrite <- Ht.
  apply (drain_is_not_persisted "ABC12345" row tasked0).
  - vm_compute. eauto.
  - exact tasked0_own_name.
  - exact Hrow.
  - rewrite Ht. discriminate.
  - vm_compute. apply not_elem_of_nil.
Defined.







(** C6, the claim as stated, fails: the dispatch of the second packet of
    [failing_body] raises, the handler returns [None], and the effects of
    the first packet stay: the agent's results column and its log file both
    hold the shell output. *)
Lemma result_post_partly_applied :
  snd (handle_agent_response (collab := plain) "ABC12345" failing_body false staged0)
  = Ret None
  ∧ List.map results (db_agents staged0) = [None]
  ∧ List.map results
      (db_agents (fst (handle_agent_response (collab := plain) "ABC12345" failing_body
                         false staged0)))
    = [Some (LF +:+ "hello")]
  ∧ fs_files (fs staged0) !! "/opt/Empire/downloads/ABC12345/agent.log" = None
  ∧ is_Some (fs_files (fs (fst (handle_agent_response (collab := plain) "ABC12345"
                                  failing_body false staged0)))
               !! "/opt/Empire/downloads/ABC12345/agent.log").
Proof. repeat split; vm_compute; eauto. Qed.

(** C6, as amended, on the reference server: a body whose packet does not
    parse. *)
Lemma result_post_failure_witness :
  handle_agent_response (collab := plain) "ABC12345" "TASK_SHELL:one:hello" false staged0
  = (result_warning "ABC12345" ValueError staged0, Ret None).
Proof.
  refine (proj1 (proj2 (result_post_failure (collab := plain) "ABC12345"
                          "TASK_SHELL:one:hello" false staged0 staged0
                          {| sessionKey := "0123456789abcdef0123456789abcdef";
                             functions := FnList [] |} _ _))
            "TASK_SHELL:one:hello" _ _); reflexivity.
Defined.

(** C1. What [save_file] does where the claim fails: the remote path
    [..\..\downloads_evil\x] passes the guard, because the normalised target
    [/opt/Empire/downloads_evil/x] starts with the text
    [/opt/Empire/downloads], and the data are written to that file, which
    does not lie under the downloads directory. *)
Example save_file_escapes_downloads :
  download_allowed staged0 (Some "ABC12345") "..\..\downloads_evil\x" = true
  ∧ fs_files (fs (fst (save_file (collab := plain) (Some "ABC12345")
                         "..\..\downloads_evil\x" "payload" "7" false staged0)))
      !! "/opt/Empire/downloads_evil/x" = Some "payload"
  ∧ OsPath.inside (OsPath.abspath (cwd (cfg staged0)) (installPath (cfg staged0) +:+ "downloads/"))
      "/opt/Empire/downloads_evil/x" = false.
Proof. repeat split; vm_compute; reflexivity. Qed.


(** X2 on the reference server: the remote path [..\..\etc\shadow] is
    refused and the file system is left as it was. *)
Lemma save_file_refusal_writes_nothing_witness :
  fs (fst (save_file (collab := plain) (Some "ABC12345") "..\..\etc\shadow" "payload"
             "7" false staged0)) = fs staged0
  ∧ snd (save_file (collab := plain) (Some "ABC12345") "..\..\etc\shadow" "payload"
           "7" false staged0) = Ret tt.
Proof.
  rewrite (save_file_refusal_writes_nothing (collab := plain) (Some "ABC12345")
             "..\..\etc\shadow" "payload" "7" false staged0);
    [split; reflexivity|]. vm_compute. reflexivity.
Defined.

Lemma staged0_info : agents staged0 !! "ABC12345" = Some info0.
Proof. vm_compute. reflexivity. Qed.

Lemma tasked0_info : agents tasked0 !! "ABC12345" = Some info0.
Proof. vm_compute. reflexivity. Qed.

Lemma staged0_resolves : name_to_id "ABC12345" staged0 = (staged0, Ret "ABC12345").
Proof. apply name_to_id_own. exact staged0_own_name. Qed.

(** X7 on the reference server, for a session id that it does not know. *)
Lemma inactive_agent_is_not_tasked_witness :
  add_agent_task_db "ZZZZ9999" "TASK_SHELL" "whoami" None None staged0 = (staged0, Ret None)
  ∧ get_agent_tasks_db "ZZZZ9999" staged0 = (staged0, Ret []).
Proof.
  apply (inactive_agent_is_not_tasked "ZZZZ9999" "ZZZZ9999").
  - reflexivity.
  - vm_compute. reflexivity.
Defined.

(** X8 on the reference server: two tasks for the agent with an empty
    queue. *)
Lemma queue_is_fifo_witness :
  ∃ row, List.find (by_session_id "ABC12345") (db_agents staged0) = Some row
    ∧ ∃ st1 st2 st3 id1 id2,
        add_agent_task_db "ABC12345" "TASK_SHELL" "whoami" None None staged0
        = (st1, Ret (Some id1))
        ∧ add_agent_task_db "ABC12345" "TASK_SHELL" "hostname" None None st1
          = (st2, Ret (Some id2))
        ∧ get_agent_tasks_db "ABC12345" st2
          = (st3, Ret (taskings row
                ++ [{| task_name := "TASK_SHELL"; task_data := "whoami"; task_id := id1 |};
                    {| task_name := "TASK_SHELL"; task_data := "hostname";
                       task_id := id2 |}])%list).
Proof.
  eexists. split; [reflexivity|].
  apply (queue_is_fifo "ABC12345" "TASK_SHELL" "whoami" "TASK_SHELL" "hostname"
           None None None None staged0).
  - rewrite staged0_info. eauto.
  - exact staged0_own_name.
  - reflexivity.
  - reflexivity.
  - reflexivity.
  - vm_compute. apply not_elem_of_nil.
Defined.


(** X10 on the reference server with one pending task. *)
Lemma next_checkin_persists_drain_witness :
  ∃ row, List.find (by_session_id "ABC12345") (db_agents tasked0) = Some row
    ∧ ∃ st1 st2, get_agent_tasks_db "ABC12345" tasked0 = (st1, Ret (taskings row))
        ∧ update_agent_lastseen_db "ABC12345" st1 = (st2, Ret tt)
        ∧ snd (get_agent_tasks_db "ABC12345" st2) = Ret []
        ∧ snd (get_agent_tasks_db "ABC12345" (restart st2)) = Ret [].
Proof.
  eexists. split; [reflexivity|].
  apply (next_checkin_persists_drain "ABC12345" _ tasked0).
  - rewrite tasked0_info. eauto.
  - exact tasked0_own_name.
  - reflexivity.
  - discriminate.
  - vm_compute. apply not_elem_of_nil.
Defined.

(** X11 on the reference server with one pending task. *)
Lemma cleared_queue_stays_empty_witness :
  ∃ st', clear_agent_tasks_db "ABC12345" tasked0 = (st', Ret tt)
    ∧ snd (get_agent_tasks_db "ABC12345" st') = Ret []
    ∧ snd (get_agent_tasks_db "ABC12345" (restart st')) = Ret []
    ∧ db_taskings st' = db_taskings tasked0 ∧ db_results st' = db_results tasked0.
Proof.
  eapply (cleared_queue_stays_empty "ABC12345" _ tasked0).
  - rewrite tasked0_info. eauto.
  - exact tasked0_own_name.
  - reflexivity.
Defined.

(** X13 on the reference server with one pending task. *)
Lemma request_delivers_queue_once_witness :
  ∃ st',
    handle_agent_request (collab := plain) "ABC12345" "powershell" "stagingkey" true tasked0
    = (st', Ret (Some "ABC12345:TASK_SHELL:whoami;"))
    ∧ snd (handle_agent_request (collab := plain) "ABC12345" "powershell" "stagingkey"
             true st') = Ret None.
Proof.
  destruct (request_delivers_queue_once (collab := plain) "ABC12345" "powershell"
              "stagingkey" true tasked0 info0 _ tasked0_info tasked0_own_name eq_refl)
    as (st' & E & H).
  - discriminate.
  - vm_compute. apply not_elem_of_nil.
  - exists st'. split; [exact E|exact H].
Defined.

(** X14 on the reference server: one frame, one reply. *)
Lemma replies_never_exceed_frames_witness :
  ∃ rs, Some [("", Some "ERROR: sessionID ZZZZ9999 not in cache!")] = Some rs
    ∧ (List.length rs <= 1)%nat.
Proof.
  apply (replies_never_exceed_frames (collab := routed) "stagingkey"
           "ZZZZ9999|python|TASKING_REQUEST||" opts0 "1.2.3.4" true staged0
           (fst (handle_agent_data (collab := routed) "stagingkey"
                   "ZZZZ9999|python|TASKING_REQUEST||" opts0 "1.2.3.4" true staged0))).
  - vm_compute. lia.
  - vm_compute. reflexivity.
Defined.

(** X15 on the reference server. *)
Lemma unknown_session_gets_error_witness :
  snd (handle_agent_data (collab := routed) "stagingkey"
         "ZZZZ9999|python|TASKING_REQUEST||" opts0 "1.2.3.4" true staged0)
  = Ret (Some [("", Some "ERROR: sessionID ZZZZ9999 not in cache!")]).
Proof.
  rewrite (unknown_session_gets_error (collab := routed) "stagingkey"
             "ZZZZ9999|python|TASKING_REQUEST||" opts0 "1.2.3.4" true staged0
             "ZZZZ9999"
             {| fr_language := "python"; fr_meta := "TASKING_REQUEST";
                fr_additional := ""; fr_encData := "" |}).
  - reflexivity.
  - vm_compute. lia.
  - reflexivity.
  - discriminate.
  - discriminate.
  - discriminate.
  - vm_compute. reflexivity.
Defined.

(** X16 on the reference server. *)
Lemma stage2_of_unknown_session_raises_witness :
  snd (handle_agent_data (collab := routed) "stagingkey"
         "ZZZZ9999|python|STAGE2||sysinfo" opts0 "1.2.3.4" true staged0)
  = Raise KeyError.
Proof.
  rewrite (stage2_of_unknown_session_raises (collab := routed) "stagingkey"
             "ZZZZ9999|python|STAGE2||sysinfo" opts0 "1.2.3.4" true staged0
             "ZZZZ9999"
             {| fr_language := "python"; fr_meta := "STAGE2";
                fr_additional := ""; fr_encData := "sysinfo" |} []).
  - reflexivity.
  - vm_compute. lia.
  - reflexivity.
  - reflexivity.
  - vm_compute. reflexivity.
Defined.

(** X17 on a server without agents: a key of 426 characters. *)
Lemma stage1_powershell_handshake_witness :
  snd (handle_agent_staging (collab := plain) "NEW00001" "powershell" "STAGE1" ""
         rsa_public "stagingkey" opts0 "1.2.3.4" state0)
  = Ret (Some ("0000000000000000" +:+ "0123456789abcdef0123456789abcdef"))
  ∧ agents (fst (handle_agent_staging (collab := plain) "NEW00001" "powershell"
                   "STAGE1" "" rsa_public "stagingkey" opts0 "1.2.3.4" state0))
      !! "NEW00001"
    = Some {| sessionKey := "0123456789abcdef0123456789abcdef"; functions := FnList [] |}.
Proof.
  destruct (stage1_powershell_handshake (collab := plain) "NEW00001" "powershell" ""
              rsa_public "stagingkey" opts0 "1.2.3.4" state0 rsa_public
              eq_refl eq_refl) as [_ H].
  destruct (H rsa_public eq_refl) as [_ H2].
  destruct (H2 rsa_public) as (Hr & _ & Hc).
  - vm_compute. lia.
  - vm_compute. reflexivity.
  - reflexivity.
  - vm_compute. reflexivity.
  - split; [exact Hr|exact Hc].
Defined.

(** X19 on the reference server. *)
Lemma agent_log_is_append_only_witness :
  ∃ st', save_agent_log (collab := plain) "ABC12345" (Text "hello") staged0 = (st', Ret tt)
    ∧ fs_files (fs st') !! "/opt/Empire/downloads/ABC12345/agent.log"
      = Some (String "010" "2020-01-01 00:00:00 : " +:+ String "010" "hello"
              +:+ String "010" "").
Proof.
  destruct (agent_log_is_append_only (collab := plain) "ABC12345" (Text "hello") "hello"
              staged0 eq_refl) as (st' & E & Hl & _).
  - vm_compute. reflexivity.
  - exists st'. split; [exact E|]. exact Hl.
Defined.



(** X23 on the reference server: a download response of two fields. *)
Lemma malformed_download_writes_nothing_witness :
  fs (fst (process_agent_packet (collab := plain) "ABC12345" "TASK_DOWNLOAD" 1 "0|x"
             staged0)) = fs staged0
  ∧ snd (process_agent_packet (collab := plain) "ABC12345" "TASK_DOWNLOAD" 1 "0|x"
           staged0) = Ret tt.
Proof.
  rewrite (malformed_download_writes_nothing (collab := plain) "ABC12345" "ABC12345" 1
             "0|x" "0|x" staged0).
  - split; reflexivity.
  - exact staged0_resolves.
  - reflexivity.
  - vm_compute. lia.
Defined.

(** X27 on the reference server. *)
Lemma functions_round_trip_witness :
  ∃ st', set_agent_functions_db "ABC12345" ["Get-A"; "Get-B"] staged0 = (st', Ret tt)
    ∧ snd (get_agent_functions "ABC12345" st') = Ret (FnList ["Get-A"; "Get-B"])
    ∧ snd (get_agent_functions_db "ABC12345" st') = Ret ["Get-A"; "Get-B"]
    ∧ snd (get_agent_functions "ABC12345" (restart st'))
      = Ret (FnColumn (Some "Get-A,Get-B")).
Proof.
  destruct (functions_round_trip "ABC12345" ["Get-A"; "Get-B"] staged0 info0 _
              staged0_info staged0_own_name eq_refl) as (st' & E & H1 & H2 & _ & H4).
  exists st'. split; [exact E|]. split; [exact H1|]. split; [exact H2|exact H4].
Defined.

(** X18 on the reference server with a [config] row. *)
Lemma autorun_is_first_tasking_witness :
  ∃ st',
    (set_autoruns_db "TASK_SCRIPT_COMMAND" "Get-Date" ;;
     handle_agent_staging (collab := plain) "ABC12345" "powershell" "STAGE2" ""
       good_sysinfo "stagingkey" opts0 "1.2.3.4") configured0
    = (st', Ret (Some "STAGE2: ABC12345"))
    ∧ ∃ r, List.find (by_session_id "ABC12345") (db_agents st') = Some r
        ∧ taskings r = [{| task_name := "TASK_SCRIPT_COMMAND"; task_data := "Get-Date";
                           task_id := 1 |}].
Proof.
  eapply (autorun_is_first_tasking (collab := plain) "ABC12345" "powershell" ""
            good_sysinfo "stagingkey" opts0 "1.2.3.4" configured0 info0 _ good_sysinfo
            1111111111111111).
  - exact staged0_info.
  - reflexivity.
  - exact staged0_own_name.
  - reflexivity.
  - reflexivity.
  - reflexivity.
  - reflexivity.
  - reflexivity.
  - reflexivity.
  - repeat constructor.
  - vm_compute. reflexivity.
  - reflexivity.
  - reflexivity.
  - discriminate.
  - discriminate.
  - discriminate.
Defined.

(** X26 on the reference server, with a JSON codec that leaves text as it
    is. *)
Lemma results_are_read_once_witness :
  ∃ st1 st2,
    update_agent_results_db (collab := plain) "ABC12345" (Text "uid=0") staged0
    = (st1, Ret tt)
    ∧ get_agent_results_db string Some Py.truthy "ABC12345" st1
      = (st2, Ret (ResOut (String "010" "uid=0")))
    ∧ snd (get_agent_results_db string Some Py.truthy "ABC12345" st2) = Ret ResEmpty
    ∧ snd (get_agent_results_db string Some Py.truthy "ABC12345" (restart st2))
      = Ret ResEmpty.
Proof.
  eapply (results_are_read_once (collab := plain) string Some Py.truthy "ABC12345"
            (Text "uid=0") "uid=0" staged0 info0 _).
  - exact staged0_info.
  - exact staged0_own_name.
  - reflexivity.
  - reflexivity.
  - discriminate.
  - reflexivity.
  - reflexivity.
Defined.

(** X4 on a server without agents. *)
Lemma added_agent_is_found_witness :
  ∃ st',
    add_agent (collab := plain) "NEW00001" "10.0.0.9" "5" "0.0" "" "" "" "60"
      (Some "k") "42" "http" "python" state0 = (st', Ret tt)
    ∧ snd (is_agent_present "NEW00001" st') = Ret true
    ∧ snd (get_agent_session_key_db "NEW00001" st') = Ret (Some "k")
    ∧ snd (get_agent_nonce_db "NEW00001" st') = Ret (Some "42").
Proof.
  destruct (added_agent_is_found (collab := plain) "NEW00001" "10.0.0.9" "5" "0.0" ""
              "" "" "60" (Some "k") "42" "http" "python" state0 eq_refl)
    as (st' & E & _ & H1 & H2 & H3 & _).
  exists st'. split; [exact E|]. split; [exact H1|]. split; [exact H2|exact H3].
Defined.


(** X25 on the reference server: the shell result [hello]. *)
Lemma shell_result_reaches_operator_witness :
  ∃ st1 st2,
    handle_agent_response (collab := plain) "ABC12345" "TASK_SHELL:1:hello" false staged0
    = (st1, Ret (Some "VALID"))
    ∧ get_agent_results_db string Some Py.truthy "ABC12345" st1
      = (st2, Ret (ResOut (String "010" "hello"))).
Proof.
  destruct (shell_result_reaches_operator (collab := plain) string Some Py.truthy
              "ABC12345" "TASK_SHELL:1:hello" false staged0 info0 _ "TASK_SHELL:1:hello"
              {| responseName := "TASK_SHELL"; totalPacket := 1; packetNum := 1;
                 taskID := 1; length_ := 5; data_ := "hello" |}
              "hello" (String "010" "hello")
              staged0_info staged0_own_name eq_refl eq_refl)
    as (st1 & st2 & E1 & E2 & _).
  - reflexivity.
  - reflexivity.
  - reflexivity.
  - vm_compute. reflexivity.
  - discriminate.
  - reflexivity.
  - reflexivity.
  - exists st1, st2. split; [exact E1|exact E2].
Defined.

(** X24 on the reference server: twelve fields. *)
Lemma task_sysinfo_updates_row_witness :
  ∃ st' r,
    process_agent_packet (collab := plain) "ABC12345" "TASK_SYSINFO" 0 good_sysinfo staged0
    = (st', Ret tt)
    ∧ List.find (by_session_id "ABC12345") (db_agents st') = Some r
    ∧ username r = Some ("CORP" +:+ "\" +:+ "bob").
Proof.
  destruct (task_sysinfo_updates_row (collab := plain) "ABC12345" 0 good_sysinfo
              good_sysinfo staged0 info0 _ staged0_info staged0_own_name eq_refl eq_refl)
    as [_ H].
  destruct (H "1111111111111112" "http" "CORP" "bob" "ws01" "10.1.1.1" "Windows 10"
              "True" "powershell" "4242" "powershell" "5" [] eq_refl)
    as (st' & r & E & Hf & Hs).
  - vm_compute. reflexivity.
  - exists st', r. split; [exact E|]. split; [exact Hf|]. apply Hs.
Defined.
